(** * nwjs-builder-phoenix: a shallow embedding of [Builder.ts] and
    [util/archive.ts], and the properties of the packaging pipeline.

    The builder is a chain of awaited calls to collaborators (the file
    system, the 7za archiver, rcedit, the NSIS generators and compiler, the
    downloaders).  Every such call is an event: a run of the builder is a
    function from the trace of the calls made so far to a result and the
    extended trace, and what a call returns is decided by a [World] that sees
    the whole history.  Nothing in the source catches an exception, so a
    rejected call ends the run of the function that awaited it.

    Not modelled: [console.info] and [debug] output, and [Date.now] (used for
    that output only). *)

From stdpp Require Import base option list gmap strings fin_maps.
From Stdlib Require Import ZArith.
From Stdlib.Strings Require Import Byte.

Set Warnings "-register-all".

Open Scope string_scope.
Open Scope list_scope.

(** ** Values *)

(** A parsed JSON value: the manifest ([pkg: any]) and the property list
    are objects whose members are such values. *)
Inductive Json :=
| JNull
| JBool (b : bool)
| JNum (n : Z)
| JStr (s : string)
| JArr (l : list Json)
| JObj (l : list (string * Json)).

(** A JS object read from JSON, used as a map from its own keys. *)
Abbreviation JsObject := (gmap string Json).

(** The two encodings [fixMacMeta] chooses between, as Node names them. *)
Inductive Encoding := utf8 | ucs2.

(** The errors of the source ([new Error('ERROR_...')]), the [TypeError]
    semver raises on an invalid version, and [Rejected] for a rejection that
    comes out of a collaborator. *)
Inductive Err :=
| ERROR_NO_TASK
| ERROR_UNKNOWN_PLATFORM
| ERROR_UNKNOWN_TARGET
| ERROR_UNKNOWN_EXTENSION
| ERROR_PATH_NOT_FOUND (path : string)
| ERROR_EXIT_CODE (code : option Z)
| ERROR_VERSION_NOT_FOUND
| TypeError (msg : string)
| Rejected (reason : string)
| OutOfFuel.

Inductive Result (A : Type) :=
| Ok (a : A)
| Throw (e : Err).

Arguments Ok {A} a.
Arguments Throw {A} e.

Definition isOk {A} (r : Result A) : bool :=
  match r with Ok _ => true | Throw _ => false end.

(** JS truthiness of an optional boolean flag and of an optional string. *)
Definition truthy (b : option bool) : bool :=
  match b with Some true => true | _ => false end.

Definition truthyStr (s : option string) : bool :=
  match s with Some "" => false | Some _ => true | None => false end.

(** [s.endsWith(suffix)] *)
Definition endsWith (s suffix : string) : bool :=
  let n := String.length s in
  let k := String.length suffix in
  (k <=? n)%nat && String.eqb (String.substring (n - k) k s) suffix.

(** [s.slice(0, -k)] *)
Definition slice0 (s : string) (k : nat) : string :=
  String.substring 0 (String.length s - k) s.

Definition CRLF : string :=
  String (Ascii.ascii_of_nat 13) (String (Ascii.ascii_of_nat 10) EmptyString).

(** ** Semantic versions (the [semver] package)

    [semver.gt(a, b)] parses both strings and compares the parsed versions;
    the comparison below is the package's [compareMain || comparePre] on the
    parsed form (build metadata takes no part).  Parsing itself is the
    package's and is a parameter ([semver_parse]).

    A numeric identifier is held by the package as a number when it is
    below [Number.MAX_SAFE_INTEGER] and as its string of digits otherwise;
    [PNum] stands for both, and [compareIdentifiers] compares two of them
    as JS numbers, after [+a] and [+b]. *)

Inductive PreId :=
| PNum (n : N)
| PAlnum (s : string).

Record SemVer := {
  major : N;
  minor : N;
  patch : N;
  prerelease : list PreId;
  build_metadata : list string
}.

(** What stands for [Infinity]: every finite double is below it. *)
Definition infinity : N := N.shiftl 1 1024.

(** [+a] for a string of digits [a] (and a number itself): the double
    nearest to the integer, ties to the even mantissa, [Infinity] when the
    rounding reaches 2^1024. *)
Definition toNumber (n : N) : N :=
  let bits := N.size n in
  if (bits <=? 53)%N then n
  else
    let shift := (bits - 53)%N in
    let q := N.shiftr n shift in
    let r := N.land n (N.ones shift) in
    let half := N.shiftl 1 (shift - 1) in
    let q' := if (half <? r)%N || ((r =? half)%N && N.odd q) then N.succ q else q in
    N.min (N.shiftl q' shift) infinity.

(** [a === b] on two identifiers of parsed versions: two numeric
    identifiers are the same number or the same string of digits (strict
    parsing admits no leading zero). *)
Definition sameIdentifier (a b : PreId) : bool :=
  match a, b with
  | PNum x, PNum y => (x =? y)%N
  | PAlnum x, PAlnum y => String.eqb x y
  | _, _ => false
  end.

Definition compareIdentifiers (a b : PreId) : comparison :=
  match a, b with
  | PNum x, PNum y => N.compare (toNumber x) (toNumber y)
  | PNum _, PAlnum _ => Lt
  | PAlnum _, PNum _ => Gt
  | PAlnum x, PAlnum y => String.compare x y
  end.

(** The loop of [comparePre]: identical identifiers are passed over, and
    the first pair that is not identical decides, also when
    [compareIdentifiers] finds the two equal as numbers. *)
Fixpoint comparePreIds (a b : list PreId) : comparison :=
  match a, b with
  | [], [] => Eq
  | [], _ :: _ => Lt
  | _ :: _, [] => Gt
  | x :: a', y :: b' =>
      if sameIdentifier x y then comparePreIds a' b' else compareIdentifiers x y
  end.

Definition comparePre (a b : SemVer) : comparison :=
  match prerelease a, prerelease b with
  | _ :: _, [] => Lt
  | [], _ :: _ => Gt
  | [], [] => Eq
  | pa, pb => comparePreIds pa pb
  end.

Definition compareMain (a b : SemVer) : comparison :=
  match compareIdentifiers (PNum (major a)) (PNum (major b)) with
  | Eq =>
      match compareIdentifiers (PNum (minor a)) (PNum (minor b)) with
      | Eq => compareIdentifiers (PNum (patch a)) (PNum (patch b))
      | c => c
      end
  | c => c
  end.

Definition semver_compare (a b : SemVer) : comparison :=
  match compareMain a b with
  | Eq => comparePre a b
  | c => c
  end.


(** ** The build configuration ([BuildConfig], from [./config]) *)

Record WinConfig := {
  productVersion : string;
  fileVersion : string;
  versionStrings : gmap string string;
  win_icon : option string
}.

Record MacConfig := {
  mac_name : string;
  mac_displayName : string;
  mac_version : string;
  mac_description : string;
  mac_copyright : string;
  mac_icon : option string
}.

Record NsisConfig := {
  nsis_icon : option string;
  nsis_unIcon : option string;
  nsis_languages : list string;
  diffUpdaters : bool
}.

Record BuildConfig := {
  nwVersion : string;
  nwFlavor : string;
  output : string;
  appId : string;
  files : list string;
  excludes : list string;
  targets : list string;
  strippedProperties : list string;
  packed : bool;
  ffmpegIntegration : bool;
  config_win : WinConfig;
  config_mac : MacConfig;
  config_nsis : NsisConfig
}.

(** ** The builder's options ([IBuilderOptions]): every member is optional. *)

Record IBuilderOptions := {
  win : option bool;
  mac : option bool;
  linux : option bool;
  x86 : option bool;
  x64 : option bool;
  chromeApp : option bool;
  mirror : option string;
  concurrent : option bool;
  mute : option bool
}.

(** ** The version registry ([NsisVersionInfo], from [./common]) *)

Record VersionEntry := {
  source : string;
  installers : gmap string string;
  updaters : gmap string (gmap string string)
}.

Abbreviation Registry := (gmap string VersionEntry).

(** ** Arguments of the collaborators *)

Record SpawnResult := {
  code : option Z;
  signal : option string
}.

Record IExtractOptions := {
  overwrite : bool
}.

Record GlobOptions := {
  cwd : string;
  follow : bool;
  mark : bool;
  ignore : list string
}.

Record RcOptions := {
  rc_product_version : string;
  rc_file_version : string;
  rc_version_string : gmap string string;
  rc_icon : option string
}.

Record NsisOptions := {
  appName : option string;
  companyName : option string;
  description : option string;
  version : string;
  copyright : option string;
  icon : option string;
  unIcon : option string;
  compression : string;
  solid : bool;
  languages : list string;
  nsis_output : string
}.

Record DownloaderOptions := {
  dl_platform : string;
  dl_arch : string;
  dl_version : string;
  dl_flavor : option string;
  dl_mirror : option string;
  useCaches : bool;
  showProgress : bool
}.

(** What [readFileAsync] resolves with: a string when an encoding is given,
    the raw bytes otherwise. *)
Definition FileContent (encoding : option Encoding) : Type :=
  match encoding with
  | Some _ => string
  | None => list byte
  end.

(** What [writeFileAsync] is given: a string (Node writes it as UTF-8) or a
    [Buffer]. *)
Inductive FileData :=
| Str (s : string)
| Buf (b : list byte).

(** ** The calls to collaborators

    One constructor for each awaited function that is not defined in the two
    source files; its index is the type of the value the call resolves with.
    Four stand for more than a function of that name: [pipeAppend] for the
    read stream of the archive piped into the write stream that
    [combineExecutable] opens on the executable with flag [a]; [makensis] for
    the installer-compiler subprocess of [nsisBuild], resolving with its exit
    code; [NsisVersionInfo_load] and [NsisVersionInfo_save] for the read and
    the write of the registry file; and [X_make], [X_fetchAndExtract] for
    [new X(...)] followed by the method. *)
Inductive Call : Type -> Type :=
| readJsonAsync (path : string) : Call JsObject
| readFileAsync (path : string) (encoding : option Encoding) : Call (FileContent encoding)
| writeFileAsync (path : string) (data : FileData) : Call unit
| copyAsync (src dest : string) : Call unit
| removeAsync (path : string) : Call unit
| renameAsync (src dest : string) : Call unit
| ensureDirAsync (path : string) : Call unit
| emptyDir (path : string) : Call unit
| pipeAppend (nwFile executable : string) : Call unit
| globby (patterns : list string) (options : GlobOptions) : Call (list string)
| rcedit (path : string) (rc : RcOptions) : Call unit
| spawnAsync (executable : string) (args : list string) (cwd : option string) : Call SpawnResult
| tmpName : Call string
| tmpFile (discardDescriptor : bool) : Call string
| copyFileAsync (src dest : string) : Call unit
| findExecutable (platform dir : string) : Call string
| findFFmpeg (platform dir : string) : Call string
| findRuntimeRoot (platform runtimeDir : string) : Call string
| findExcludableDependencies (dir : string) (pkg : JsObject) : Call (list string)
| Downloader_fetchAndExtract (options : DownloaderOptions) : Call string
| FFmpegDownloader_fetchAndExtract (options : DownloaderOptions) : Call string
| NsisComposer_make (options : NsisOptions) : Call string
| NsisDiffer_make (fromDir toDir : string) (options : NsisOptions) : Call string
| Nsis7Zipper_make (archive : string) (options : NsisOptions) : Call string
| makensis (cwd script : string) (mute : option bool) : Call (option Z)
| NsisVersionInfo_load (path : string) : Call Registry
| NsisVersionInfo_save (path : string) (data : Registry) : Call unit.

Inductive Event :=
| Ev {T : Type} (c : Call T).

Abbreviation Trace := (list Event).

(** The world answers a call from the history of the calls before it. *)
Definition World : Type := forall T : Type, Trace -> Call T -> Result T.

(** A run: from the trace so far to a result and the trace after. *)
Definition M (A : Type) : Type := Trace -> Result A * Trace.

Definition ret {A} (a : A) : M A := fun t => (Ok a, t).

Definition throw {A} (e : Err) : M A := fun t => (Throw e, t).

Definition bind {A B} (m : M A) (k : A -> M B) : M B :=
  fun t =>
    match m t with
    | (Ok a, t') => k a t'
    | (Throw e, t') => (Throw e, t')
    end.

Notation "x <- m ;; k" := (bind m (fun x => k))
  (at level 100, m at next level, right associativity).
Notation "m ;;; k" := (bind m (fun _ => k))
  (at level 100, right associativity).

(** [for (const x of l) { await f(x); }] *)
Fixpoint forM_ {A} (l : list A) (f : A -> M unit) : M unit :=
  match l with
  | [] => ret tt
  | x :: l' => f x ;;; forM_ l' f
  end.

(** The same loop around a local object that the body updates. *)
Fixpoint foldM {A S} (l : list A) (f : S -> A -> M S) (s : S) : M S :=
  match l with
  | [] => ret s
  | x :: l' => s' <- f s x ;; foldM l' f s'
  end.

(** [Bluebird.map(l, f)] with no concurrency cap: every [f x] is started and
    runs to its end whatever its siblings do, and the whole rejects when one
    of them rejects.  The interleaving of the runs is not modelled: they are
    laid out in the order of [l]; nor is the choice among several
    rejections: [Bluebird.map] rejects with the one that comes first in
    time, the model with the one that comes first in [l]. *)
Fixpoint Bluebird_map {A} (l : list A) (f : A -> M unit) : M unit :=
  match l with
  | [] => ret tt
  | x :: l' =>
      fun t =>
        let '(r, t1) := f x t in
        let '(r', t2) := Bluebird_map l' f t1 in
        (match r with Throw e => Throw e | Ok _ => r' end, t2)
  end.

(** Lifting a synchronous computation that may throw. *)
Definition liftR {A} (r : Result A) : M A := fun t => (r, t).

(** Is [s] one of the [case] labels [l]? *)
Definition oneOf (s : string) (l : list string) : bool :=
  existsb (String.eqb s) l.

(** ** Library functions

    Pure functions of Node, of the packages the source imports, and of the
    repository's modules that are not part of the two files ([./util],
    [./config]); the model is parametric in them. *)
Record Lib := {
  path_resolve : list string -> string;
  path_dirname : string -> string;
  path_basename : string -> string;
  path_join : list string -> string;
  path_normalize : string -> string;
  path7za : string;
  JSON_stringify : JsObject -> string;
  js_toString : Json -> string;
  plist_parse : string -> Result JsObject;
  plist_build : JsObject -> string;
  buffer_toString : list byte -> Encoding -> string;
  buffer_from : string -> Encoding -> list byte;
  (** [s.replace(/([A-Za-z]+)\s+=\s+"(.+?)";/g, f)] *)
  replace_entries : (string -> string -> string -> string) -> string -> string;
  fixWindowsVersion : string -> string;
  new_BuildConfig : JsObject -> BuildConfig;
  semver_parse : string -> option SemVer;
  (** [mergeOptions(defaults, params)], from [./util] *)
  mergeOptions : IBuilderOptions -> IBuilderOptions -> IBuilderOptions;
  Downloader_DEFAULT_mirror : option string
}.

(** ** The builder object: its merged options and the project directory. *)
Record Builder := {
  options : IBuilderOptions;
  dir : string
}.

(** What [versionInfo] holds between its load and its [save]. *)
Record NsisVersionInfo := {
  vi_path : string;
  vi_data : Registry
}.

Definition dquote : string := String (Ascii.ascii_of_nat 34) EmptyString.

(** [Buffer.from('43004600', 'hex')]: the letters C and F in UTF-16LE. *)
Definition CF_utf16 : list byte := [x43; x00; x46; x00].

Fixpoint startsWithBytes (needle hay : list byte) : bool :=
  match needle, hay with
  | [], _ => true
  | _ :: _, [] => false
  | a :: needle', b :: hay' => Byte.eqb a b && startsWithBytes needle' hay'
  end.

Fixpoint indexOfFrom (needle hay : list byte) (i : Z) : Z :=
  if startsWithBytes needle hay then i
  else
    match hay with
    | [] => (-1)%Z
    | _ :: hay' => indexOfFrom needle hay' (i + 1)%Z
    end.

(** [data.indexOf(needle)] on a [Buffer] *)
Definition Buffer_indexOf (data needle : list byte) : Z :=
  indexOfFrom needle data 0%Z.

(** The encoding [fixMacMeta] decides on from the raw bytes of a file. *)
Definition detectEncoding (data : list byte) : Encoding :=
  if (0 <=? Buffer_indexOf data CF_utf16)%Z then ucs2 else utf8.

(** [const options: any = {}] *)
Definition noOptions : IBuilderOptions :=
  {| win := None; mac := None; linux := None; x86 := None; x64 := None;
     chromeApp := None; mirror := None; concurrent := None; mute := None |}.

(** [(<any>options)[key]] for the keys the task loop uses. *)
Definition getFlag (o : IBuilderOptions) (key : string) : option bool :=
  if String.eqb key "win" then win o
  else if String.eqb key "mac" then mac o
  else if String.eqb key "linux" then linux o
  else if String.eqb key "x86" then x86 o
  else if String.eqb key "x64" then x64 o
  else None.

(** [options[key] = true] *)
Definition setFlag (o : IBuilderOptions) (key : string) : IBuilderOptions :=
  {| win := if String.eqb key "win" then Some true else win o;
     mac := if String.eqb key "mac" then Some true else mac o;
     linux := if String.eqb key "linux" then Some true else linux o;
     x86 := if String.eqb key "x86" then Some true else x86 o;
     x64 := if String.eqb key "x64" then Some true else x64 o;
     chromeApp := chromeApp o;
     mirror := mirror o;
     concurrent := concurrent o;
     mute := mute o |}.

(** The task matrix of [build]: the two nested [map]s pushing onto [tasks]. *)
Definition tasksOf (o : IBuilderOptions) : list (string * string) :=
  flat_map (fun platform =>
    flat_map (fun arch =>
      if truthy (getFlag o platform) && truthy (getFlag o arch)
      then [(platform, arch)] else [])
      ["x86"; "x64"])
    ["win"; "mac"; "linux"].

(** The options object the concurrent branch fills in for one task. *)
Definition taskOptions (parent : IBuilderOptions) (platform arch : string) : IBuilderOptions :=
  let o := setFlag (setFlag noOptions platform) arch in
  {| win := win o; mac := mac o; linux := linux o; x86 := x86 o; x64 := x64 o;
     chromeApp := chromeApp o;
     mirror := mirror parent;
     concurrent := Some false;
     mute := Some true |}.

Definition generalExcludes : list string :=
  [ "**/node_modules/.bin";
    "**/node_modules/*/{ example, examples, test, tests }";
    "**/{ .DS_Store, .git, .hg, .svn, *.log }" ].

(** The [ignore] list [copyFiles] hands to [globby]. *)
Definition ignoreList (config : BuildConfig) (excludable : list string) : list string :=
  excludes config ++ generalExcludes
  ++ flat_map (fun e => [e; e +:+ "/**/*"]) excludable
  ++ [output config; output config +:+ "/**/*"].

(** [pkg.hasOwnProperty(key)] for a manifest out of [readJsonAsync]: the
    method of [Object.prototype], unless the manifest has a member of its
    own under that name, which is no function. *)
Definition hasOwnProperty (pkg : JsObject) (key : string) : Result bool :=
  match pkg !! "hasOwnProperty" with
  | Some _ => Throw (TypeError "pkg.hasOwnProperty is not a function")
  | None => Ok (bool_decide (is_Some (pkg !! key)))
  end.

(** [json[key] = value] on the object literal [json]: an assignment to
    [__proto__] goes to the setter of [Object.prototype] and gives [json] no
    member of its own. *)
Definition assignMember (json : JsObject) (key : string) (value : Json) : JsObject :=
  if String.eqb key "__proto__" then json else <[key := value]> json.

(** The body of the loop of [copyFiles] over the keys of [pkg], for one
    key and its value. *)
Definition stripMember (pkg : JsObject) (config : BuildConfig) (json : JsObject)
    (kv : string * Json) : Result JsObject :=
  match hasOwnProperty pkg kv.1 with
  | Throw e => Throw e
  | Ok own =>
      Ok (if own && negb (bool_decide (kv.1 ∈ strippedProperties config))
          then assignMember json kv.1 kv.2
          else json)
  end.

Fixpoint stripLoop (pkg : JsObject) (config : BuildConfig) (json : JsObject)
    (members : list (string * Json)) : Result JsObject :=
  match members with
  | [] => Ok json
  | kv :: rest =>
      match stripMember pkg config json kv with
      | Throw e => Throw e
      | Ok json' => stripLoop pkg config json' rest
      end
  end.

(** The object [copyFiles] builds for the bundle's [package.json].  The
    keys the loop meets are the members of [pkg] itself, as [pkg] comes out
    of [readJsonAsync]. *)
Definition strippedManifest (pkg : JsObject) (config : BuildConfig) : Result JsObject :=
  stripLoop pkg config ∅ (map_to_list pkg).

(** The callback [fixMacMeta] gives to [replace]. *)
Definition replaceEntry (config : BuildConfig) (_match key value : string) : string :=
  let entry v := key +:+ " = " +:+ dquote +:+ v +:+ dquote +:+ ";" in
  if String.eqb key "CFBundleName" then entry (mac_name (config_mac config))
  else if String.eqb key "CFBundleDisplayName" then entry (mac_displayName (config_mac config))
  else if String.eqb key "CFBundleGetInfoString" then entry (mac_version (config_mac config))
  else if String.eqb key "NSContactsUsageDescription" then entry (mac_description (config_mac config))
  else if String.eqb key "NSHumanReadableCopyright" then entry (mac_copyright (config_mac config))
  else entry value.

(** The five assignments of [updatePlist]. *)
Definition setDescriptor (config : BuildConfig) (p : JsObject) : JsObject :=
  <["CFBundleShortVersionString" := JStr (mac_version (config_mac config))]>
  (<["CFBundleVersion" := JStr (mac_version (config_mac config))]>
  (<["CFBundleDisplayName" := JStr (mac_displayName (config_mac config))]>
  (<["CFBundleName" := JStr (mac_name (config_mac config))]>
  (<["CFBundleIdentifier" := JStr (appId config)]> p)))).

(** Modelled from the spec: [NsisVersionInfo] is declared in [./common],
    which is not among the source files.  The spec gives the ledger as a
    mapping from version string to [{source, installers: {arch: path},
    updaters: {fromVersion: {arch: path}}}], loaded at the start of an
    installer-target build and persisted once at the end.  Where the spec
    says nothing, asking for a version that is absent raises and recording
    under a version that is absent leaves the ledger as it is. *)
Definition getVersions (vi : NsisVersionInfo) : list string :=
  (map_to_list (vi_data vi)).*1.

Definition getVersion (vi : NsisVersionInfo) (v : string) : Result VersionEntry :=
  match vi_data vi !! v with
  | Some e => Ok e
  | None => Throw ERROR_VERSION_NOT_FOUND
  end.

Definition addVersion (vi : NsisVersionInfo) (v changelog src : string) : NsisVersionInfo :=
  {| vi_path := vi_path vi;
     vi_data :=
       match vi_data vi !! v with
       | Some e =>
           <[v := {| source := src; installers := installers e; updaters := updaters e |}]>
             (vi_data vi)
       | None =>
           <[v := {| source := src; installers := ∅; updaters := ∅ |}]> (vi_data vi)
       end |}.

Definition addInstaller (vi : NsisVersionInfo) (v arch path : string) : NsisVersionInfo :=
  {| vi_path := vi_path vi;
     vi_data :=
       alter (fun e => {| source := source e;
                          installers := <[arch := path]> (installers e);
                          updaters := updaters e |}) v (vi_data vi) |}.

Definition addUpdater (vi : NsisVersionInfo) (v fromVersion arch path : string) : NsisVersionInfo :=
  {| vi_path := vi_path vi;
     vi_data :=
       alter (fun e => {| source := source e;
                          installers := installers e;
                          updaters :=
                            <[fromVersion :=
                                <[arch := path]> (default ∅ (updaters e !! fromVersion))]>
                              (updaters e) |}) v (vi_data vi) |}.

Section Model.

Variable lib : Lib.
Variable world : World.

(** Awaiting a collaborator: the world answers, the call joins the trace. *)
Definition call {T} (c : Call T) : M T :=
  fun t => (world T t c, t ++ [Ev c]).

(** A manifest member inside a template literal. *)
Definition template (v : option Json) : string :=
  match v with
  | None => "undefined"
  | Some (JStr s) => s
  | Some JNull => "null"
  | Some (JBool true) => "true"
  | Some (JBool false) => "false"
  | Some j => js_toString lib j
  end.

(** [semver.gt(a, b)] with [a] a manifest member and [b] a registry key. *)
Definition semver_gt (a : option Json) (b : string) : Result bool :=
  match a with
  | Some (JStr sa) =>
      match semver_parse lib sa with
      | Some va =>
          match semver_parse lib b with
          | Some vb =>
              Ok (match semver_compare va vb with Gt => true | _ => false end)
          | None => Throw (TypeError ("Invalid Version: " +:+ b))
          end
      | None => Throw (TypeError ("Invalid Version: " +:+ sa))
      end
  | _ => Throw (TypeError ("Invalid Version: " +:+ template a))
  end.

(** *** util/archive.ts *)

Definition extract (archive : string) (dest : option string)
    (options : option IExtractOptions) : M string :=
  let dest := default (path_dirname lib archive) dest in
  let options := default {| overwrite := false |} options in
  r <- call (spawnAsync (path7za lib)
               [ "x"; "-y";
                 "-ao" +:+ (if overwrite options then "a" else "s");
                 "-o" +:+ path_resolve lib [dest];
                 path_resolve lib [archive] ] None) ;;
  if bool_decide (code r = Some 2%Z) then throw (ERROR_PATH_NOT_FOUND archive)
  else if negb (bool_decide (code r = Some 0%Z)) then throw (ERROR_EXIT_CODE (code r))
  else ret dest.

Definition extractTarGz (archive : string) (dest : option string)
    (options : option IExtractOptions) : M string :=
  let dest := default (path_dirname lib archive) dest in
  extract archive (Some dest) None ;;;
  let tar := path_join lib [dest; path_basename lib (slice0 archive 3)] in
  extract tar (Some dest) None ;;;
  call (removeAsync tar) ;;;
  ret dest.

Definition extractGeneric (archive : string) (dest : option string)
    (options : option IExtractOptions) : M string :=
  let dest := default (path_dirname lib archive) dest in
  let options := default {| overwrite := false |} options in
  (if endsWith archive ".zip" then
     extract archive (Some dest) (Some options) ;;; ret tt
   else if endsWith archive "tar.gz" then
     extractTarGz archive (Some dest) (Some options) ;;; ret tt
   else throw ERROR_UNKNOWN_EXTENSION) ;;;
  ret dest.

Definition compress (dir : string) (files : list string) (type archive : string)
    : M (option Z) :=
  listfiles <- call (tmpFile true) ;;
  call (writeFileAsync listfiles
          (Str (String.concat CRLF (map (path_normalize lib) files)))) ;;;
  r <- call (spawnAsync (path7za lib)
               [ "a"; "-t" +:+ type; path_resolve lib [archive];
                 "@" +:+ path_resolve lib [listfiles] ] (Some dir)) ;;
  ret (code r).

(** *** Builder.ts *)

Definition DEFAULT_OPTIONS : IBuilderOptions :=
  {| win := Some false; mac := Some false; linux := Some false;
     x86 := Some false; x64 := Some false; chromeApp := Some false;
     mirror := Downloader_DEFAULT_mirror lib;
     concurrent := Some false; mute := Some true |}.

Definition new_Builder (options : IBuilderOptions) (dir : string) : Builder :=
  {| options := mergeOptions lib DEFAULT_OPTIONS options; dir := dir |}.

Definition combineExecutable (executable nwFile : string) : M unit :=
  call (pipeAppend nwFile executable).

Definition readPlist (path : string) : M JsObject :=
  data <- call (readFileAsync path (Some utf8)) ;;
  liftR (plist_parse lib data).

Definition writePlist (path : string) (p : JsObject) : M unit :=
  call (writeFileAsync path (Str (plist_build lib p))).

Definition versionString (config : BuildConfig) (key : string) : option string :=
  versionStrings (config_win config) !! key.

Definition iconPath (this : Builder) (icon : option string) : option string :=
  if truthyStr icon then Some (path_resolve lib [dir this; default "" icon]) else None.

Definition updateWinResources (this : Builder) (targetDir appRoot : string)
    (pkg : JsObject) (config : BuildConfig) : M unit :=
  let path := path_resolve lib [targetDir; "nw.exe"] in
  let rc :=
    {| rc_product_version := fixWindowsVersion lib (productVersion (config_win config));
       rc_file_version := fixWindowsVersion lib (fileVersion (config_win config));
       rc_version_string := versionStrings (config_win config);
       rc_icon := iconPath this (win_icon (config_win config)) |} in
  call (rcedit path rc).

Definition renameWinApp (this : Builder) (targetDir appRoot : string)
    (pkg : JsObject) (config : BuildConfig) : M unit :=
  let src := path_resolve lib [targetDir; "nw.exe"] in
  let dest :=
    path_resolve lib
      [targetDir; default "undefined" (versionString config "ProductName") +:+ ".exe"] in
  call (renameAsync src dest).

Definition updatePlist (this : Builder) (targetDir appRoot : string)
    (pkg : JsObject) (config : BuildConfig) : M unit :=
  let path := path_resolve lib [targetDir; "./nwjs.app/Contents/Info.plist"] in
  plist <- readPlist path ;;
  writePlist path (setDescriptor config plist).

Definition updateMacIcon (this : Builder) (targetDir appRoot : string)
    (pkg : JsObject) (config : BuildConfig) : M unit :=
  let path := path_resolve lib [targetDir; "./nwjs.app/Contents/Resources/app.icns"] in
  if negb (truthyStr (mac_icon (config_mac config))) then ret tt
  else call (copyAsync (path_resolve lib [dir this; default "" (mac_icon (config_mac config))]) path).

(** The body of the loop of [fixMacMeta], for one [InfoPlist.strings]. *)
Definition fixStringsFile (targetDir : string) (config : BuildConfig) (file : string)
    : M unit :=
  let path := path_resolve lib [targetDir; file] in
  data <- call (readFileAsync path None) ;;
  let encoding := detectEncoding data in
  let strings := buffer_toString lib data encoding in
  let newStrings := replace_entries lib (replaceEntry config) strings in
  call (writeFileAsync path (Buf (buffer_from lib newStrings encoding))).

Definition fixMacMeta (this : Builder) (targetDir appRoot : string)
    (pkg : JsObject) (config : BuildConfig) : M unit :=
  files <- call (globby ["**/InfoPlist.strings"]
                   {| cwd := targetDir; follow := false; mark := false; ignore := [] |}) ;;
  forM_ files (fixStringsFile targetDir config).

Definition renameMacApp (this : Builder) (targetDir appRoot : string)
    (pkg : JsObject) (config : BuildConfig) : M unit :=
  let src := path_resolve lib [targetDir; "nwjs.app"] in
  let dest := path_resolve lib [targetDir; mac_displayName (config_mac config) +:+ ".app"] in
  call (renameAsync src dest).

Definition renameLinuxApp (this : Builder) (targetDir appRoot : string)
    (pkg : JsObject) (config : BuildConfig) : M unit :=
  let src := path_resolve lib [targetDir; "nw"] in
  let dest := path_resolve lib [targetDir; template (pkg !! "name")] in
  call (renameAsync src dest).

Definition prepareWinBuild (this : Builder) (targetDir appRoot : string)
    (pkg : JsObject) (config : BuildConfig) : M unit :=
  updateWinResources this targetDir appRoot pkg config.

Definition prepareMacBuild (this : Builder) (targetDir appRoot : string)
    (pkg : JsObject) (config : BuildConfig) : M unit :=
  updatePlist this targetDir appRoot pkg config ;;;
  updateMacIcon this targetDir appRoot pkg config ;;;
  fixMacMeta this targetDir appRoot pkg config.

Definition prepareLinuxBuild (this : Builder) (targetDir appRoot : string)
    (pkg : JsObject) (config : BuildConfig) : M unit :=
  ret tt.

(** The files [copyFiles] selects: the [globby] call with its [ignore] list. *)
Definition collectFiles (this : Builder) (pkg : JsObject) (config : BuildConfig)
    : M (list string) :=
  excludable <- call (findExcludableDependencies (dir this) pkg) ;;
  call (globby (files config)
          {| cwd := dir this; follow := true; mark := true;
             ignore := ignoreList config excludable |}).

Definition copyEach (this : Builder) (appRoot : string) (files : list string) : M unit :=
  forM_ files (fun file =>
    call (copyFileAsync (path_resolve lib [dir this; file])
                        (path_resolve lib [appRoot; file]))).

(** The statements of [copyFiles] up to the comment "Here we overwrite
    `package.json` with a stripped one": select the files and put them in the
    bundle. *)
Definition shipFiles (this : Builder) (platform targetDir appRoot : string)
    (pkg : JsObject) (config : BuildConfig) : M unit :=
  files <- collectFiles this pkg config ;;
  if packed config then
    if oneOf platform ["win32"; "win"; "linux"] then
      nwFile <- call tmpName ;;
      compress (dir this) files "zip" nwFile ;;;
      executable <- call (findExecutable platform targetDir) ;;
      combineExecutable executable nwFile ;;;
      call (removeAsync nwFile)
    else if oneOf platform ["darwin"; "osx"; "mac"] then
      copyEach this appRoot files
    else throw ERROR_UNKNOWN_PLATFORM
  else copyEach this appRoot files.

Definition copyFiles (this : Builder) (platform targetDir appRoot : string)
    (pkg : JsObject) (config : BuildConfig) : M unit :=
  shipFiles this platform targetDir appRoot pkg config ;;;
  json <- liftR (strippedManifest pkg config) ;;
  call (writeFileAsync (path_resolve lib [appRoot; "package.json"])
          (Str (JSON_stringify lib json))).

Definition integrateFFmpeg (this : Builder) (platform arch targetDir : string)
    (pkg : JsObject) (config : BuildConfig) : M unit :=
  let downloader :=
    {| dl_platform := platform; dl_arch := arch; dl_version := nwVersion config;
       dl_flavor := None; dl_mirror := None; useCaches := true;
       showProgress := negb (truthy (mute (options this))) |} in
  ffmpegDir <- call (FFmpegDownloader_fetchAndExtract downloader) ;;
  src <- call (findFFmpeg platform ffmpegDir) ;;
  dest <- call (findFFmpeg platform targetDir) ;;
  call (copyAsync src dest).

(** Modelled from the spec: [nsisBuild] is defined in [./nsis-gen], which is
    not among the source files.  The spec gives it as a blocking compile of
    a script by the installer-compiler subprocess, whose non-zero exit is a
    tool-failure error carrying the exit code. *)
Definition nsisBuild (cwd script : string) (mute : option bool) : M unit :=
  code <- call (makensis cwd script mute) ;;
  if bool_decide (code = Some 0%Z) then ret tt else throw (ERROR_EXIT_CODE code).

(** The four statements each of the three installer builders has between
    the script text and the record in the registry: write the script to a
    temporary file, compile it, remove the file. *)
Definition compileScript (cwd data : string) (mute : option bool) : M unit :=
  script <- call tmpName ;;
  call (writeFileAsync script (Str data)) ;;;
  nsisBuild cwd script mute ;;;
  call (removeAsync script).

(** The options literal the three installer scripts are generated from. *)
Definition nsisOptions (this : Builder) (config : BuildConfig) (out : string) : NsisOptions :=
  {| appName := versionString config "ProductName";
     companyName := versionString config "CompanyName";
     description := versionString config "FileDescription";
     version := fixWindowsVersion lib (productVersion (config_win config));
     copyright := versionString config "LegalCopyright";
     icon := iconPath this (nsis_icon (config_nsis config));
     unIcon := iconPath this (nsis_unIcon (config_nsis config));
     compression := "lzma";
     solid := true;
     languages := nsis_languages (config_nsis config);
     nsis_output := out |}.

(** The path of the updater from [fromVersion] to [toVersion]. *)
Definition diffNsisPath (this : Builder) (platform arch fromVersion toVersion : string)
    (pkg : JsObject) (config : BuildConfig) : string :=
  path_resolve lib
    [ dir this; output config;
      template (pkg !! "name") +:+ "-" +:+ toVersion +:+ "-from-" +:+ fromVersion
        +:+ "-" +:+ platform +:+ "-" +:+ arch +:+ "-Update.exe" ].

Definition buildNsisDiffUpdater (this : Builder) (platform arch : string)
    (versionInfo : NsisVersionInfo) (fromVersion toVersion : string)
    (pkg : JsObject) (config : BuildConfig) : M NsisVersionInfo :=
  let diffNsis := diffNsisPath this platform arch fromVersion toVersion pkg config in
  from <- liftR (getVersion versionInfo fromVersion) ;;
  let fromDir := path_resolve lib [dir this; output config; source from] in
  to <- liftR (getVersion versionInfo toVersion) ;;
  let toDir := path_resolve lib [dir this; output config; source to] in
  data <- call (NsisDiffer_make fromDir toDir (nsisOptions this config diffNsis)) ;;
  compileScript toDir data (mute (options this)) ;;;
  ret (addUpdater versionInfo toVersion fromVersion arch diffNsis).

(** The root of the application inside the bundle, or [None] where the
    [switch] throws. *)
Definition appRootOf (platform : string) : option string :=
  if oneOf platform ["win32"; "win"; "linux"] then Some "./"
  else if oneOf platform ["darwin"; "osx"; "mac"] then
    Some "./nwjs.app/Contents/Resources/app.nw/"
  else None.

(** The three awaited steps of one [case] of [buildDirTarget]. *)
Definition dispatchPlatform (this : Builder) (platform targetDir appRoot : string)
    (pkg : JsObject) (config : BuildConfig) : M unit :=
  if oneOf platform ["win32"; "win"] then
    prepareWinBuild this targetDir appRoot pkg config ;;;
    copyFiles this platform targetDir appRoot pkg config ;;;
    renameWinApp this targetDir appRoot pkg config
  else if oneOf platform ["darwin"; "osx"; "mac"] then
    prepareMacBuild this targetDir appRoot pkg config ;;;
    copyFiles this platform targetDir appRoot pkg config ;;;
    renameMacApp this targetDir appRoot pkg config
  else if oneOf platform ["linux"] then
    prepareLinuxBuild this targetDir appRoot pkg config ;;;
    copyFiles this platform targetDir appRoot pkg config ;;;
    renameLinuxApp this targetDir appRoot pkg config
  else throw ERROR_UNKNOWN_PLATFORM.

Definition buildDirTarget (this : Builder) (platform arch runtimeDir : string)
    (pkg : JsObject) (config : BuildConfig) : M string :=
  let targetDir :=
    path_resolve lib
      [ dir this; output config;
        template (pkg !! "name") +:+ "-" +:+ template (pkg !! "version")
          +:+ "-" +:+ platform +:+ "-" +:+ arch ] in
  runtimeRoot <- call (findRuntimeRoot platform runtimeDir) ;;
  match appRootOf platform with
  | None => throw ERROR_UNKNOWN_PLATFORM
  | Some rel =>
      let appRoot := path_resolve lib [targetDir; rel] in
      call (emptyDir targetDir) ;;;
      call (copyAsync runtimeRoot targetDir) ;;;
      (if ffmpegIntegration config
       then integrateFFmpeg this platform arch targetDir pkg config
       else ret tt) ;;;
      call (ensureDirAsync appRoot) ;;;
      dispatchPlatform this platform targetDir appRoot pkg config ;;;
      ret targetDir
  end.

Definition buildArchiveTarget (this : Builder) (type sourceDir : string) : M string :=
  let targetArchive :=
    path_resolve lib
      [path_dirname lib sourceDir; path_basename lib sourceDir +:+ "." +:+ type] in
  call (removeAsync targetArchive) ;;;
  files <- call (globby ["**/*"]
                   {| cwd := sourceDir; follow := false; mark := false; ignore := [] |}) ;;
  compress sourceDir files type targetArchive ;;;
  ret targetArchive.

(** The loop over the registry's versions that both installer targets end
    with: an updater for each version [pkg.version] is greater than. *)
Definition buildDiffUpdaters (this : Builder) (platform arch : string)
    (versionInfo : NsisVersionInfo) (pkg : JsObject) (config : BuildConfig)
    : M NsisVersionInfo :=
  if diffUpdaters (config_nsis config) then
    foldM (getVersions versionInfo)
      (fun vi version =>
         gt <- liftR (semver_gt (pkg !! "version") version) ;;
         if (gt : bool) then
           buildNsisDiffUpdater this platform arch vi version
             (template (pkg !! "version")) pkg config
         else ret vi)
      versionInfo
  else ret versionInfo.

(** What both installer targets do once the script is compiled (the two
    functions have the same statements from there on): record the installer,
    build the updaters, save the registry. *)
Definition recordInstaller (this : Builder) (platform arch sourceDir : string)
    (versionInfo : NsisVersionInfo) (targetNsis : string)
    (pkg : JsObject) (config : BuildConfig) : M unit :=
  let versionInfo := addVersion versionInfo (template (pkg !! "version")) "" sourceDir in
  let versionInfo := addInstaller versionInfo (template (pkg !! "version")) arch targetNsis in
  versionInfo <- buildDiffUpdaters this platform arch versionInfo pkg config ;;
  call (NsisVersionInfo_save (vi_path versionInfo) (vi_data versionInfo)).

Definition new_NsisVersionInfo (path : string) : M NsisVersionInfo :=
  data <- call (NsisVersionInfo_load path) ;;
  ret {| vi_path := path; vi_data := data |}.

Definition targetNsisPath (sourceDir : string) : string :=
  path_resolve lib
    [path_dirname lib sourceDir; path_basename lib sourceDir +:+ "-Setup.exe"].

Definition buildNsisTarget (this : Builder) (platform arch sourceDir : string)
    (pkg : JsObject) (config : BuildConfig) : M unit :=
  if negb (String.eqb platform "win") then ret tt
  else
    versionInfo <- new_NsisVersionInfo
                     (path_resolve lib [dir this; output config; "versions.nsis.json"]) ;;
    let targetNsis := targetNsisPath sourceDir in
    data <- call (NsisComposer_make (nsisOptions this config targetNsis)) ;;
    compileScript sourceDir data (mute (options this)) ;;;
    recordInstaller this platform arch sourceDir versionInfo targetNsis pkg config.

Definition buildNsis7zTarget (this : Builder) (platform arch sourceDir : string)
    (pkg : JsObject) (config : BuildConfig) : M unit :=
  if negb (String.eqb platform "win") then ret tt
  else
    sourceArchive <- buildArchiveTarget this "7z" sourceDir ;;
    versionInfo <- new_NsisVersionInfo
                     (path_resolve lib [dir this; output config; "versions.nsis.json"]) ;;
    let targetNsis := targetNsisPath sourceDir in
    data <- call (Nsis7Zipper_make sourceArchive (nsisOptions this config targetNsis)) ;;
    compileScript sourceDir data (mute (options this)) ;;;
    recordInstaller this platform arch sourceDir versionInfo targetNsis pkg config.

Definition buildTask (this : Builder) (platform arch : string)
    (pkg : JsObject) (config : BuildConfig) : M unit :=
  let downloader :=
    {| dl_platform := platform; dl_arch := arch; dl_version := nwVersion config;
       dl_flavor := Some (nwFlavor config); dl_mirror := mirror (options this);
       useCaches := true;
       showProgress := negb (truthy (mute (options this))) |} in
  runtimeDir <- call (Downloader_fetchAndExtract downloader) ;;
  targetDir <- buildDirTarget this platform arch runtimeDir pkg config ;;
  forM_ (targets config) (fun target =>
    if oneOf target ["zip"; "7z"] then
      buildArchiveTarget this target targetDir ;;; ret tt
    else if oneOf target ["nsis"] then
      buildNsisTarget this platform arch targetDir pkg config
    else if oneOf target ["nsis7z"] then
      buildNsis7zTarget this platform arch targetDir pkg config
    else throw ERROR_UNKNOWN_TARGET).

(** The manifest [build] reads in its sequential branch. *)
Definition manifestFile (this : Builder) : string :=
  if truthy (chromeApp (options this)) then "manifest.json" else "package.json".

(** [build], with the recursive call of the concurrent branch bounded by
    [fuel]: a sub-builder has [concurrent] off, so two levels are enough
    ([build_fuel]). *)
Fixpoint build (fuel : nat) (this : Builder) : M unit :=
  match fuel with
  | O => throw OutOfFuel
  | S fuel' =>
      let tasks := tasksOf (options this) in
      if (length tasks =? 0)%nat then throw ERROR_NO_TASK
      else if truthy (concurrent (options this)) then
        Bluebird_map tasks (fun task =>
          let options := taskOptions (options this) task.1 task.2 in
          let builder := new_Builder options (dir this) in
          build fuel' builder)
      else
        pkg <- call (readJsonAsync (path_resolve lib [dir this; manifestFile this])) ;;
        let config := new_BuildConfig lib pkg in
        forM_ tasks (fun task => buildTask this task.1 task.2 pkg config)
  end.

End Model.


(** ** Calls and outcomes the statements name *)

Definition orElse {A} (x d : option A) : option A :=
  match x with
  | Some _ => x
  | None => d
  end.

(** Merging options the way the constructor needs it: a member the caller
    left out takes its default. *)
Definition fillDefaults (defaults params : IBuilderOptions) : IBuilderOptions :=
  {| win := orElse (win params) (win defaults);
     mac := orElse (mac params) (mac defaults);
     linux := orElse (linux params) (linux defaults);
     x86 := orElse (x86 params) (x86 defaults);
     x64 := orElse (x64 params) (x64 defaults);
     chromeApp := orElse (chromeApp params) (chromeApp defaults);
     mirror := orElse (mirror params) (mirror defaults);
     concurrent := orElse (concurrent params) (concurrent defaults);
     mute := orElse (mute params) (mute defaults) |}.

(** ** Precedence of semantic versions

    As the specification of semantic versioning words it: major, minor and
    patch are compared numerically; with those equal a pre-release version
    is lower than a normal one; two pre-release versions are compared
    identifier by identifier from the left until a difference is found,
    numeric identifiers numerically, the others in ASCII sort order, a
    numeric one lower than one that is not, and a larger set of identifiers
    higher when all the preceding ones are equal. *)








Section Expected.

Variable lib : Lib.

(** The archiver call [extract] makes. *)
Definition extractCall (archive dest : string) (overwrite : bool) : Call SpawnResult :=
  spawnAsync (path7za lib)
    [ "x"; "-y"; "-ao" +:+ (if overwrite then "a" else "s");
      "-o" +:+ path_resolve lib [dest]; path_resolve lib [archive] ] None.

(** What [extract] makes of the answer to that call. *)
Definition extractOutcome (archive dest : string) (r : Result SpawnResult) : Result string :=
  match r with
  | Throw e => Throw e
  | Ok r =>
      match code r with
      | Some 2%Z => Throw (ERROR_PATH_NOT_FOUND archive)
      | Some 0%Z => Ok dest
      | c => Throw (ERROR_EXIT_CODE c)
      end
  end.

(** The archiver call [compress] makes. *)
Definition compressCall (dir type archive listfiles : string) : Call SpawnResult :=
  spawnAsync (path7za lib)
    [ "a"; "-t" +:+ type; path_resolve lib [archive];
      "@" +:+ path_resolve lib [listfiles] ] (Some dir).

(** The intermediate [.tar] of a [.tar.gz] archive. *)
Definition tarOf (archive dest : string) : string :=
  path_join lib [dest; path_basename lib (slice0 archive 3)].

(** [f] is some steps, then [compileScript] on a directory and a script text
    those steps produced, then some more steps. *)
Definition viaCompileScript (world : World) (mute : option bool) {B} (f : M B) : Prop :=
  exists (X : Type) (pre : M X) (cwd data : X -> string) (post : X -> M B),
    forall t, f t = (x <- pre ;; compileScript world (cwd x) (data x) mute ;;; post x) t.




(** The call that writes the manifest of the bundle. *)
Definition writeManifest (appRoot : string) (json : JsObject) : Call unit :=
  writeFileAsync (path_resolve lib [appRoot; "package.json"])
    (Str (JSON_stringify lib json)).


(** The calls of the three phases of a directory bundle: what the prepare
    step may call (the resource editor, reads and writes of the property
    list and of the strings files, the icon copy, the search for the strings
    files), what the copy step may call, and the rename of the finalize
    step. *)
Definition isPrepareCall (e : Event) : bool :=
  match e with
  | Ev c =>
      match c with
      | rcedit _ _ | readFileAsync _ _ | writeFileAsync _ _
      | copyAsync _ _ | globby _ _ => true
      | _ => false
      end
  end.

Definition isCopyCall (e : Event) : bool :=
  match e with
  | Ev c =>
      match c with
      | findExcludableDependencies _ _ | globby _ _ | tmpName | tmpFile _
      | writeFileAsync _ _ | spawnAsync _ _ _ | findExecutable _ _
      | pipeAppend _ _ | removeAsync _ | copyFileAsync _ _ => true
      | _ => false
      end
  end.

Definition isRenameCall (e : Event) : bool :=
  match e with
  | Ev c =>
      match c with
      | renameAsync _ _ => true
      | _ => false
      end
  end.

(** Every call [m] makes is one of [P]. *)
Definition emits {A} (P : Event -> bool) (m : M A) : Prop :=
  forall t, exists new, (m t).2 = t ++ new /\ forallb P new = true.

Definition recognized : list string :=
  ["win32"; "win"; "darwin"; "osx"; "mac"; "linux"].

(** The prepare step and the finalize step of a platform. *)
Definition prepareOf (world : World) (platform : string) :
    Builder -> string -> string -> JsObject -> BuildConfig -> M unit :=
  if oneOf platform ["win32"; "win"] then prepareWinBuild lib world
  else if oneOf platform ["darwin"; "osx"; "mac"] then prepareMacBuild lib world
  else prepareLinuxBuild.

Definition finalizeOf (world : World) (platform : string) :
    Builder -> string -> string -> JsObject -> BuildConfig -> M unit :=
  if oneOf platform ["win32"; "win"] then renameWinApp lib world
  else if oneOf platform ["darwin"; "osx"; "mac"] then renameMacApp lib world
  else renameLinuxApp lib world.








(** The registry once the installer of the version under build is recorded. *)
Definition recorded (vi : NsisVersionInfo) (pkg : JsObject)
    (arch sourceDir targetNsis : string) : NsisVersionInfo :=
  addInstaller (addVersion vi (template lib (pkg !! "version")) "" sourceDir)
    (template lib (pkg !! "version")) arch targetNsis.

(** The body of the loop of [buildDiffUpdaters]. *)
Definition updaterStep (world : World) (this : Builder) (platform arch : string)
    (pkg : JsObject) (config : BuildConfig) (vi : NsisVersionInfo) (v : string)
    : M NsisVersionInfo :=
  gt <- liftR (semver_gt lib (pkg !! "version") v) ;;
  if (gt : bool) then
    buildNsisDiffUpdater lib world this platform arch vi v
      (template lib (pkg !! "version")) pkg config
  else ret vi.

(** The sequential branch of [build] for a sub-builder and its one task. *)
Definition subBuild (world : World) (this : Builder) (task : string * string) : M unit :=
  pkg <- call world (readJsonAsync (path_resolve lib [dir this; "package.json"])) ;;
  forM_ [task] (fun task =>
    buildTask lib world this task.1 task.2 pkg (new_BuildConfig lib pkg)).

(** [mergeOptions] is such a merge. *)
Definition mergesByDefault : Prop :=
  forall defaults params, mergeOptions lib defaults params = fillDefaults defaults params.

End Expected.

(** ** More calls and predicates the statements name *)

Section Expected2.

Variable lib : Lib.

(** Some platform flag, some architecture flag is on. *)
Definition anyPlatform (o : IBuilderOptions) : bool :=
  truthy (win o) || truthy (mac o) || truthy (linux o).

Definition anyArchitecture (o : IBuilderOptions) : bool :=
  truthy (x86 o) || truthy (x64 o).

(** The body of the loop over [config.targets] in [buildTask]. *)
Definition buildTarget (world : World) (this : Builder) (platform arch : string)
    (pkg : JsObject) (config : BuildConfig) (targetDir target : string) : M unit :=
  if oneOf target ["zip"; "7z"] then
    buildArchiveTarget lib world this target targetDir ;;; ret tt
  else if oneOf target ["nsis"] then
    buildNsisTarget lib world this platform arch targetDir pkg config
  else if oneOf target ["nsis7z"] then
    buildNsis7zTarget lib world this platform arch targetDir pkg config
  else throw ERROR_UNKNOWN_TARGET.

(** The options [buildTask] gives the downloader. *)
Definition runtimeDownload (this : Builder) (platform arch : string)
    (config : BuildConfig) : Call string :=
  Downloader_fetchAndExtract
    {| dl_platform := platform; dl_arch := arch; dl_version := nwVersion config;
       dl_flavor := Some (nwFlavor config); dl_mirror := mirror (options this);
       useCaches := true;
       showProgress := negb (truthy (mute (options this))) |}.

(** The manifest a sequential [build] reads. *)
Definition readManifest (this : Builder) : Call JsObject :=
  readJsonAsync (path_resolve lib [dir this; manifestFile this]).

(** The archive [buildArchiveTarget] makes of a directory. *)
Definition archiveOf (type sourceDir : string) : string :=
  path_resolve lib
    [path_dirname lib sourceDir; path_basename lib sourceDir +:+ "." +:+ type].

Definition everythingUnder (sourceDir : string) : Call (list string) :=
  globby ["**/*"] {| cwd := sourceDir; follow := false; mark := false; ignore := [] |}.

(** The list file [compress] writes for the archiver. *)
Definition writeList (listfiles : string) (files : list string) : Call unit :=
  writeFileAsync listfiles (Str (String.concat CRLF (map (path_normalize lib) files))).

(** The calls of [compress]: none of them removes a file. *)
Definition isCompressCall (e : Event) : bool :=
  match e with
  | Ev c =>
      match c with
      | tmpFile _ | writeFileAsync _ _ | spawnAsync _ _ _ => true
      | _ => false
      end
  end.

(** One copy for each selected file, in their order. *)
Definition copiesOf (this : Builder) (appRoot : string) (files : list string) : Trace :=
  map (fun file => Ev (copyFileAsync (path_resolve lib [dir this; file])
                                     (path_resolve lib [appRoot; file]))) files.

(** The selection [copyFiles] asks [globby] for. *)
Definition selection (this : Builder) (config : BuildConfig) (excludable : list string)
    : Call (list string) :=
  globby (files config)
    {| cwd := dir this; follow := true; mark := true;
       ignore := ignoreList config excludable |}.

Definition notSave (e : Event) : bool :=
  match e with
  | Ev c =>
      match c with
      | NsisVersionInfo_save _ _ => false
      | _ => true
      end
  end.

(** [m] writes the registry at most once, and then as its last call. *)
Definition savesLast {A} (m : M A) : Prop :=
  forall t, exists pre,
    forallb notSave pre = true
    /\ ((m t).2 = t ++ pre
        \/ exists path data, (m t).2 = t ++ pre ++ [Ev (NsisVersionInfo_save path data)]).

(** The options [integrateFFmpeg] gives its downloader: the platform, the
    architecture and the version, with neither mirror nor flavor. *)
Definition ffmpegDownload (this : Builder) (platform arch : string)
    (config : BuildConfig) : Call string :=
  FFmpegDownloader_fetchAndExtract
    {| dl_platform := platform; dl_arch := arch; dl_version := nwVersion config;
       dl_flavor := None; dl_mirror := None; useCaches := true;
       showProgress := negb (truthy (mute (options this))) |}.

Definition notFFmpeg (e : Event) : bool :=
  match e with
  | Ev c =>
      match c with
      | FFmpegDownloader_fetchAndExtract _ | findFFmpeg _ _ => false
      | _ => true
      end
  end.

(** The directory [buildDirTarget] builds the bundle in. *)
Definition targetDirOf (this : Builder) (platform arch : string) (pkg : JsObject)
    (config : BuildConfig) : string :=
  path_resolve lib
    [ dir this; output config;
      template lib (pkg !! "name") +:+ "-" +:+ template lib (pkg !! "version")
        +:+ "-" +:+ platform +:+ "-" +:+ arch ].

(** The four target names [buildTask] knows. *)
Definition knownTarget (target : string) : bool :=
  oneOf target ["zip"; "7z"; "nsis"; "nsis7z"].

(** [m] resolves from any trace. *)
Definition succeeds {A} (m : M A) : Prop :=
  forall t, isOk (m t).1 = true.

End Expected2.
(** ** The task matrix as the spec words it *)

Definition enabledPlatforms (o : IBuilderOptions) : list string :=
  List.filter (fun platform => truthy (getFlag o platform)) ["win"; "mac"; "linux"].

Definition enabledArchitectures (o : IBuilderOptions) : list string :=
  List.filter (fun arch => truthy (getFlag o arch)) ["x86"; "x64"].

Definition crossProduct (o : IBuilderOptions) : list (string * string) :=
  List.list_prod (enabledPlatforms o) (enabledArchitectures o).

(** ** A small library and scripted worlds to run the model in *)

Definition release (a b c : N) : SemVer :=
  {| major := a; minor := b; patch := c; prerelease := []; build_metadata := [] |}.

(** The parser on the handful of versions the examples use. *)
Definition parseKnown (s : string) : option SemVer :=
  if String.eqb s "1.0.0" then Some (release 1 0 0)
  else if String.eqb s "1.1.0" then Some (release 1 1 0)
  else if String.eqb s "1.2.0-beta.1" then
    Some {| major := 1; minor := 2; patch := 0;
            prerelease := [PAlnum "beta"; PNum 1]; build_metadata := [] |}
  else if String.eqb s "1.2.0" then Some (release 1 2 0)
  else if String.eqb s "1.3.0" then Some (release 1 3 0)
  else None.

(** A path cut at its last slash. *)
Fixpoint splitLast (s : string) : option string * string :=
  match s with
  | EmptyString => (None, EmptyString)
  | String c rest =>
      match splitLast rest with
      | (Some d, b) => (Some (String c d), b)
      | (None, b) =>
          if Ascii.eqb c (Ascii.ascii_of_nat 47) then (Some EmptyString, b)
          else (None, String c b)
      end
  end.

Definition demoLib : Lib :=
  {| path_resolve := String.concat "/";
     path_dirname := fun s => default "." (splitLast s).1;
     path_basename := fun s => (splitLast s).2;
     path_join := String.concat "/";
     path_normalize := fun s => s;
     path7za := "7za";
     JSON_stringify := fun _ => "{}";
     js_toString := fun _ => "";
     plist_parse := fun _ => Ok ∅;
     plist_build := fun _ => "<plist/>";
     buffer_toString := fun _ _ => "";
     buffer_from := fun _ _ => [];
     replace_entries := fun _ s => s;
     fixWindowsVersion := fun s => s;
     new_BuildConfig := fun _ =>
       {| nwVersion := "0.14.7"; nwFlavor := "normal"; output := "dist";
          appId := "io.app"; files := ["**/*"]; excludes := []; targets := [];
          strippedProperties := ["build"]; packed := false;
          ffmpegIntegration := false;
          config_win := {| productVersion := "1.0.0"; fileVersion := "1.0.0";
                           versionStrings := ∅; win_icon := None |};
          config_mac := {| mac_name := "app"; mac_displayName := "App";
                           mac_version := "1.0.0"; mac_description := "";
                           mac_copyright := ""; mac_icon := None |};
          config_nsis := {| nsis_icon := None; nsis_unIcon := None;
                            nsis_languages := []; diffUpdaters := false |} |};
     semver_parse := parseKnown;
     mergeOptions := fillDefaults;
     Downloader_DEFAULT_mirror := Some "https://dl.nwjs.io/" |}.

(** What a scripted world answers: the exit codes of the archiver and of the
    installer compiler, the raw bytes of any file, the registry on disk, the
    manifest, and what [globby] finds. *)
Record Scenario := {
  archiverExit : option Z;
  compilerExit : option Z;
  rawBytes : list byte;
  registryOnDisk : Registry;
  manifestOnDisk : JsObject;
  globbed : list string -> GlobOptions -> list string
}.

Definition scriptedWorld (s : Scenario) : World :=
  fun T _ c =>
    match c in Call T return Result T with
    | readJsonAsync _ => Ok (manifestOnDisk s)
    | readFileAsync _ encoding =>
        match encoding return Result (FileContent encoding) with
        | Some _ => Ok "<plist/>"
        | None => Ok (rawBytes s)
        end
    | writeFileAsync _ _ => Ok tt
    | copyAsync _ _ => Ok tt
    | removeAsync _ => Ok tt
    | renameAsync _ _ => Ok tt
    | ensureDirAsync _ => Ok tt
    | emptyDir _ => Ok tt
    | pipeAppend _ _ => Ok tt
    | globby patterns options => Ok (globbed s patterns options)
    | rcedit _ _ => Ok tt
    | spawnAsync _ _ _ => Ok {| code := archiverExit s; signal := None |}
    | tmpName => Ok "tmp-1"
    | tmpFile _ => Ok "tmp-2"
    | copyFileAsync _ _ => Ok tt
    | findExecutable _ d => Ok d
    | findFFmpeg _ d => Ok d
    | findRuntimeRoot _ d => Ok d
    | findExcludableDependencies _ _ => Ok []
    | Downloader_fetchAndExtract _ => Ok "cache/nw"
    | FFmpegDownloader_fetchAndExtract _ => Ok "cache/ffmpeg"
    | NsisComposer_make _ => Ok "script"
    | NsisDiffer_make _ _ _ => Ok "script"
    | Nsis7Zipper_make _ _ => Ok "script"
    | makensis _ _ _ => Ok (compilerExit s)
    | NsisVersionInfo_load _ => Ok (registryOnDisk s)
    | NsisVersionInfo_save _ _ => Ok tt
    end.

Definition calm : Scenario :=
  {| archiverExit := Some 0%Z; compilerExit := Some 0%Z; rawBytes := [];
     registryOnDisk := ∅; manifestOnDisk := ∅; globbed := fun _ _ => [] |}.

(** A world in which every call succeeds with an empty answer. *)
Definition calmWorld : World := scriptedWorld calm.

(** The archiver exits with 1, or with 2; the installer compiler exits
    with 1. *)
Definition archiverFails (n : Z) : Scenario :=
  {| archiverExit := Some n; compilerExit := Some 0%Z; rawBytes := [];
     registryOnDisk := ∅; manifestOnDisk := ∅; globbed := fun _ _ => [] |}.

Definition compilerFails : Scenario :=
  {| archiverExit := Some 0%Z; compilerExit := Some 1%Z; rawBytes := [];
     registryOnDisk := ∅; manifestOnDisk := ∅; globbed := fun _ _ => [] |}.

(** A project: its manifest, its configuration and a quiet builder for it. *)
Definition demoPkg : JsObject :=
  <["name" := JStr "app"]> (<["version" := JStr "1.2.0"]> (<["build" := JObj []]> ∅)).

Definition demoConfig : BuildConfig := new_BuildConfig demoLib demoPkg.

Definition demoBuilder : Builder :=
  new_Builder demoLib
    {| win := Some true; mac := None; linux := None; x86 := None; x64 := Some true;
       chromeApp := None; mirror := None; concurrent := None; mute := None |}
    "proj".

(** The same project with differential updaters enabled, and a registry
    that holds four earlier builds. *)
Definition diffConfig : BuildConfig :=
  {| nwVersion := nwVersion demoConfig; nwFlavor := nwFlavor demoConfig;
     output := output demoConfig; appId := appId demoConfig;
     files := files demoConfig; excludes := ["secret.txt"];
     targets := ["nsis"]; strippedProperties := strippedProperties demoConfig;
     packed := packed demoConfig; ffmpegIntegration := false;
     config_win := config_win demoConfig; config_mac := config_mac demoConfig;
     config_nsis := {| nsis_icon := None; nsis_unIcon := None;
                       nsis_languages := []; diffUpdaters := true |} |}.

Definition builtBefore (v : string) : VersionEntry :=
  {| source := "app-" +:+ v +:+ "-win-x64"; installers := ∅; updaters := ∅ |}.

Definition fourBuilds : Registry :=
  <["1.0.0" := builtBefore "1.0.0"]>
  (<["1.1.0" := builtBefore "1.1.0"]>
  (<["1.2.0-beta.1" := builtBefore "1.2.0-beta.1"]>
  (<["1.3.0" := builtBefore "1.3.0"]> ∅))).

Definition withHistory : Scenario :=
  {| archiverExit := Some 0%Z; compilerExit := Some 0%Z; rawBytes := [];
     registryOnDisk := fourBuilds; manifestOnDisk := demoPkg;
     globbed := fun _ _ => [] |}.


(** A glob matcher for the patterns of the examples, which have no
    wildcard but a final [/**/*]: a pattern matches the path of the same
    name, and [d/**/*] matches what starts with [d/].  Neither [./] nor a
    doubled slash is taken out of a pattern. *)
Definition demoMatch (pattern f : string) : bool :=
  String.eqb pattern f
  || (endsWith pattern "/**/*" && String.prefix (slice0 pattern 4) f).

(** The paths of a project after an earlier build, as [globby] reports
    them with [mark] on: a directory ends with a slash. *)
Definition projectTree : list string :=
  [ "index.html"; "package.json"; "secret.txt"; "dist/"; "dist/app-1.1.0-win-x64/";
    "dist/app-1.1.0-win-x64/nw.exe" ].

(** A world whose [globby] finds every path of the tree that no [ignore]
    pattern matches. *)
Definition treeGlob (patterns : list string) (options : GlobOptions) : list string :=
  List.filter (fun f => negb (existsb (fun p => demoMatch p f) (ignore options)))
    projectTree.

Definition withTree : Scenario :=
  {| archiverExit := Some 0%Z; compilerExit := Some 0%Z; rawBytes := [];
     registryOnDisk := ∅; manifestOnDisk := demoPkg; globbed := treeGlob |}.



(** ** More examples *)

(** A builder for Windows and Linux (x64), and one with a platform and no
    architecture. *)
Definition twoPlatforms : Builder :=
  new_Builder demoLib
    {| win := Some true; mac := None; linux := Some true; x86 := None; x64 := Some true;
       chromeApp := None; mirror := None; concurrent := None; mute := None |}
    "proj".

Definition noArchitecture : Builder :=
  new_Builder demoLib
    {| win := Some true; mac := None; linux := None; x86 := None; x64 := None;
       chromeApp := None; mirror := None; concurrent := None; mute := None |}
    "proj".

(** A world without network: the download of the runtime is rejected. *)
Definition offlineWorld : World :=
  fun T t c =>
    match c in Call T return Result T with
    | Downloader_fetchAndExtract _ => Throw (Rejected "ENOTFOUND")
    | other => calmWorld _ t other
    end.

(** The configuration of the example with other targets, packed or not. *)
Definition configWith (ts : list string) (p : bool) : BuildConfig :=
  {| nwVersion := nwVersion demoConfig; nwFlavor := nwFlavor demoConfig;
     output := output demoConfig; appId := appId demoConfig;
     files := files demoConfig; excludes := excludes demoConfig;
     targets := ts; strippedProperties := strippedProperties demoConfig;
     packed := p; ffmpegIntegration := false;
     config_win := config_win demoConfig; config_mac := config_mac demoConfig;
     config_nsis := config_nsis demoConfig |}.

(** The registry of the example with one more key, which is no version. *)
Definition nightlyInfo : NsisVersionInfo :=
  {| vi_path := "proj/dist/versions.nsis.json";
     vi_data := <["nightly" := builtBefore "nightly"]> fourBuilds |}.

(** The configuration of the example with the FFmpeg integration on. *)
Definition ffmpegConfig : BuildConfig :=
  {| nwVersion := nwVersion demoConfig; nwFlavor := nwFlavor demoConfig;
     output := output demoConfig; appId := appId demoConfig;
     files := files demoConfig; excludes := excludes demoConfig;
     targets := []; strippedProperties := strippedProperties demoConfig;
     packed := false; ffmpegIntegration := true;
     config_win := config_win demoConfig; config_mac := config_mac demoConfig;
     config_nsis := config_nsis demoConfig |}.

(** The configuration with differential updaters, built as an archive and
    as both installers. *)
Definition releaseConfig : BuildConfig :=
  {| nwVersion := nwVersion diffConfig; nwFlavor := nwFlavor diffConfig;
     output := output diffConfig; appId := appId diffConfig;
     files := files diffConfig; excludes := excludes diffConfig;
     targets := ["zip"; "nsis"; "nsis7z"];
     strippedProperties := strippedProperties diffConfig;
     packed := packed diffConfig; ffmpegIntegration := false;
     config_win := config_win diffConfig; config_mac := config_mac diffConfig;
     config_nsis := config_nsis diffConfig |}.

(** The library of the examples, with that configuration for any manifest. *)
Definition releaseLib : Lib :=
  {| path_resolve := path_resolve demoLib;
     path_dirname := path_dirname demoLib;
     path_basename := path_basename demoLib;
     path_join := path_join demoLib;
     path_normalize := path_normalize demoLib;
     path7za := path7za demoLib;
     JSON_stringify := JSON_stringify demoLib;
     js_toString := js_toString demoLib;
     plist_parse := plist_parse demoLib;
     plist_build := plist_build demoLib;
     buffer_toString := buffer_toString demoLib;
     buffer_from := buffer_from demoLib;
     replace_entries := replace_entries demoLib;
     fixWindowsVersion := fixWindowsVersion demoLib;
     new_BuildConfig := fun _ => releaseConfig;
     semver_parse := semver_parse demoLib;
     mergeOptions := mergeOptions demoLib;
     Downloader_DEFAULT_mirror := Downloader_DEFAULT_mirror demoLib |}.








(** The manifest of the example as the bundle gets it. *)
Definition demoStripped : JsObject :=
  <["name" := JStr "app"]> (<["version" := JStr "1.2.0"]> ∅).
(** * Properties *)

(** ** Sequencing *)

Section Facts.

Variable lib : Lib.
Variable world : World.

Lemma bind_ok {A B} (m : M A) (k : A -> M B) t a t' :
  m t = (Ok a, t') -> bind m k t = k a t'.
Proof. intros H. unfold bind. now rewrite H. Qed.

(** ** C1: the task matrix *)

Lemma tasksOf_crossProduct (o : IBuilderOptions) : tasksOf o = crossProduct o.
Proof.
  destruct o as [w m l a b ch mi co mu].
  unfold tasksOf, crossProduct, enabledPlatforms, enabledArchitectures, getFlag.
  cbn.
  destruct w as [[]|], m as [[]|], l as [[]|], a as [[]|], b as [[]|]; reflexivity.
Qed.

(** C1. For every setting of the platform flags (win, mac, linux) and of the
    architecture flags (x86, x64), the task matrix [build] computes is the
    cross product of the enabled platforms and the enabled architectures, in
    the order win, mac, linux by x86, x64; and when that matrix is empty,
    [build] fails with ERROR_NO_TASK having called nothing: the trace is the
    one it started from. *)
Theorem C1_task_matrix (this : Builder) :
  tasksOf (options this) = crossProduct (options this)
  /\ forall fuel t,
       crossProduct (options this) = [] ->
       build lib world (S fuel) this t = (Throw ERROR_NO_TASK, t).
Proof.
  split; [apply tasksOf_crossProduct|].
  intros fuel t H. rewrite <- tasksOf_crossProduct in H.
  cbn [build]. rewrite H. reflexivity.
Qed.


(** ** Fuel: two levels of [build] are all the recursion there is *)

Lemma tasksOf_within (o : IBuilderOptions) (P : string * string -> Prop) :
  Forall P (List.list_prod ["win"; "mac"; "linux"] ["x86"; "x64"]) ->
  Forall P (tasksOf o).
Proof.
  intros H. rewrite tasksOf_crossProduct.
  destruct o as [w m l a b ch mi co mu].
  unfold crossProduct, enabledPlatforms, enabledArchitectures, getFlag. cbn.
  cbn in H. repeat match goal with H : Forall _ (_ :: _) |- _ => inversion_clear H end.
  destruct w as [[]|], m as [[]|], l as [[]|], a as [[]|], b as [[]|];
    cbn; repeat constructor; assumption.
Qed.

Lemma Bluebird_map_ext {A} (l : list A) (f g : A -> M unit) (P : A -> Prop) :
  Forall P l -> (forall x t, P x -> f x t = g x t) ->
  forall t, Bluebird_map l f t = Bluebird_map l g t.
Proof.
  intros Hl Hfg. induction Hl as [|x l Hx Hl IH]; intros t; [reflexivity|].
  cbn. rewrite (Hfg x t Hx). destruct (g x t) as [r t1]. now rewrite IH.
Qed.

Lemma build_sub (parent : IBuilderOptions) (d : string) (task : string * string) :
  mergesByDefault lib ->
  task ∈ List.list_prod ["win"; "mac"; "linux"] ["x86"; "x64"] ->
  forall fuel,
    build lib world (S fuel) (new_Builder lib (taskOptions parent task.1 task.2) d)
    = subBuild lib world (new_Builder lib (taskOptions parent task.1 task.2) d) task.
Proof.
  intros Hmerge Hin fuel. destruct task as [p a]. unfold new_Builder. rewrite Hmerge.
  cbn in Hin.
  repeat (apply elem_of_cons in Hin as [Hin|Hin]; [inversion Hin; subst; reflexivity|]).
  inversion Hin.
Qed.

Lemma build_S (fuel : nat) (this : Builder) :
  build lib world (S fuel) this
  = if (length (tasksOf (options this)) =? 0)%nat then throw ERROR_NO_TASK
    else if truthy (concurrent (options this)) then
      Bluebird_map (tasksOf (options this)) (fun task =>
        build lib world fuel
          (new_Builder lib (taskOptions (options this) task.1 task.2) (dir this)))
    else
      pkg <- call world (readJsonAsync (path_resolve lib [dir this; manifestFile this])) ;;
      forM_ (tasksOf (options this)) (fun task =>
        buildTask lib world this task.1 task.2 pkg (new_BuildConfig lib pkg)).
Proof. reflexivity. Qed.

Lemma build_fuel (this : Builder) (fuel : nat) (t : Trace) :
  mergesByDefault lib ->
  build lib world (S (S fuel)) this t = build lib world 2 this t.
Proof.
  intros Hmerge.
  rewrite (build_S (S fuel)), (build_S 1).
  destruct (length (tasksOf (options this)) =? 0)%nat; [reflexivity|].
  destruct (truthy (concurrent (options this))); [|reflexivity].
  apply Bluebird_map_ext
    with (P := fun task => task ∈ List.list_prod ["win"; "mac"; "linux"] ["x86"; "x64"]).
  - apply tasksOf_within. apply Forall_forall. intros x Hx. exact Hx.
  - intros task t' Hin. now rewrite !build_sub.
Qed.

(** ** C10: the configuration of a concurrent sub-build *)

Lemma task_options (parent : IBuilderOptions) (task : string * string) :
  task ∈ List.list_prod ["win"; "mac"; "linux"] ["x86"; "x64"] ->
  let raw := taskOptions parent task.1 task.2 in
  map (getFlag raw) ["win"; "mac"; "linux"]
    = map (fun p => if String.eqb p task.1 then Some true else None) ["win"; "mac"; "linux"]
  /\ map (getFlag raw) ["x86"; "x64"]
    = map (fun a => if String.eqb a task.2 then Some true else None) ["x86"; "x64"]
  /\ mirror raw = mirror parent
  /\ concurrent raw = Some false
  /\ mute raw = Some true
  /\ chromeApp raw = None.
Proof.
  intros Hin. destruct task as [p a]. cbn in Hin.
  repeat (apply elem_of_cons in Hin as [Hin|Hin];
          [inversion Hin; subst; repeat split; reflexivity|]).
  inversion Hin.
Qed.

Lemma sub_options (user : IBuilderOptions) (d : string) (task : string * string) :
  mergesByDefault lib ->
  task ∈ List.list_prod ["win"; "mac"; "linux"] ["x86"; "x64"] ->
  let parent := new_Builder lib user d in
  let sub := new_Builder lib (taskOptions (options parent) task.1 task.2) d in
  map (getFlag (options sub)) ["win"; "mac"; "linux"]
    = map (fun p => Some (String.eqb p task.1)) ["win"; "mac"; "linux"]
  /\ map (getFlag (options sub)) ["x86"; "x64"]
    = map (fun a => Some (String.eqb a task.2)) ["x86"; "x64"]
  /\ mirror (options sub) = mirror (options parent)
  /\ concurrent (options sub) = Some false
  /\ mute (options sub) = Some true
  /\ chromeApp (options sub) = Some false
  /\ manifestFile sub = "package.json"
  /\ tasksOf (options sub) = [task].
Proof.
  intros Hmerge Hin. destruct task as [p a]. cbn in Hin.
  unfold new_Builder. rewrite !Hmerge.
  assert (Hm : orElse (orElse (mirror user) (Downloader_DEFAULT_mirror lib))
                      (Downloader_DEFAULT_mirror lib)
               = orElse (mirror user) (Downloader_DEFAULT_mirror lib))
    by (destruct (mirror user), (Downloader_DEFAULT_mirror lib); reflexivity).
  repeat (apply elem_of_cons in Hin as [Hin|Hin];
          [inversion Hin; subst; cbn; rewrite Hm; repeat split; reflexivity|]).
  inversion Hin.
Qed.

(** C10. In concurrent mode [build] maps every task of the matrix to the
    [build] of a new builder.  The options object made for the task holds
    exactly the task's own platform flag and its own architecture flag, the
    parent's mirror, [concurrent] off and [mute] on whatever the parent's
    [mute] is; it has no [chromeApp] member: the parent's is not handed
    down.  With [mergeOptions] giving a member that was left out its
    default, the sub-builder has the other flags off and [chromeApp] off,
    its matrix is the one task, and its [build] starts by reading
    [package.json]. *)
Theorem C10_concurrent_sub_build (user : IBuilderOptions) (d : string) :
  let parent := new_Builder lib user d in
  Forall (fun task =>
    let raw := taskOptions (options parent) task.1 task.2 in
    map (getFlag raw) ["win"; "mac"; "linux"]
      = map (fun p => if String.eqb p task.1 then Some true else None)
            ["win"; "mac"; "linux"]
    /\ map (getFlag raw) ["x86"; "x64"]
      = map (fun a => if String.eqb a task.2 then Some true else None) ["x86"; "x64"]
    /\ mirror raw = mirror (options parent)
    /\ concurrent raw = Some false
    /\ mute raw = Some true
    /\ chromeApp raw = None)
    (tasksOf (options parent))
  /\ (mergesByDefault lib ->
      Forall (fun task =>
        let sub := new_Builder lib (taskOptions (options parent) task.1 task.2) d in
        map (getFlag (options sub)) ["win"; "mac"; "linux"]
          = map (fun p => Some (String.eqb p task.1)) ["win"; "mac"; "linux"]
        /\ map (getFlag (options sub)) ["x86"; "x64"]
          = map (fun a => Some (String.eqb a task.2)) ["x86"; "x64"]
        /\ mirror (options sub) = mirror (options parent)
        /\ concurrent (options sub) = Some false
        /\ mute (options sub) = Some true
        /\ chromeApp (options sub) = Some false
        /\ manifestFile sub = "package.json"
        /\ tasksOf (options sub) = [task]
        /\ forall fuel, build lib world (S fuel) sub = subBuild lib world sub task)
        (tasksOf (options parent))
      /\ forall fuel t,
           build lib world (S (S fuel)) parent t
           = if (length (tasksOf (options parent)) =? 0)%nat then (Throw ERROR_NO_TASK, t)
             else if truthy (concurrent (options parent)) then
               Bluebird_map (tasksOf (options parent)) (fun task =>
                 subBuild lib world
                   (new_Builder lib (taskOptions (options parent) task.1 task.2) d)
                   task) t
             else build lib world 1 parent t).
Proof.
  intros parent. split; [|intros Hmerge; split].
  - apply tasksOf_within. apply Forall_forall. intros task Hin.
    apply (task_options (options parent) task Hin).
  - apply tasksOf_within. apply Forall_forall. intros task Hin.
    pose proof (sub_options user d task Hmerge Hin) as H. cbn zeta in H.
    destruct H as (H1 & H2 & H3 & H4 & H5 & H6 & H7 & H8).
    repeat (split; [assumption|]).
    intros fuel. apply build_sub; assumption.
  - intros fuel t. rewrite build_fuel by exact Hmerge. rewrite (build_S 1), (build_S 0).
    destruct (length (tasksOf (options parent)) =? 0)%nat; [reflexivity|].
    destruct (truthy (concurrent (options parent))); [|reflexivity].
    apply Bluebird_map_ext
      with (P := fun task => task ∈ List.list_prod ["win"; "mac"; "linux"] ["x86"; "x64"]).
    + apply tasksOf_within. apply Forall_forall. intros x Hx. exact Hx.
    + intros task t' Hin. change (dir parent) with d. now rewrite build_sub.
Qed.

(** ** util/archive.ts *)

Lemma extract_run (archive : string) (dest : option string)
    (options : option IExtractOptions) (t : Trace) :
  let d := default (path_dirname lib archive) dest in
  let c := extractCall lib archive d (overwrite (default {| overwrite := false |} options)) in
  extract lib world archive dest options t
  = (extractOutcome archive d (world _ t c), t ++ [Ev c]).
Proof.
  intros d c. unfold extract, bind, call. fold d. fold c.
  change (spawnAsync _ _ _) with c.
  destruct (world SpawnResult t c) as [r|e]; [|reflexivity].
  cbn. destruct (code r) as [[|p|p]|]; try reflexivity.
  destruct p as [p|p|]; try reflexivity; destruct p; reflexivity.
Qed.

Lemma extractOutcome_ok (archive d a : string) (r : Result SpawnResult) :
  extractOutcome archive d r = Ok a -> a = d.
Proof.
  destruct r as [r|e]; cbn; [|discriminate].
  destruct (code r) as [[|p|p]|]; try discriminate.
  - now intros [= <-].
  - destruct p as [p|p|]; try discriminate; destruct p; discriminate.
Qed.

Lemma snoc2 {A} (t : list A) (a b : A) : (t ++ [a]) ++ [b] = t ++ [a; b].
Proof. now rewrite <- app_assoc. Qed.

Lemma snoc3 {A} (t : list A) (a b c : A) : (t ++ [a; b]) ++ [c] = t ++ [a; b; c].
Proof. now rewrite <- app_assoc. Qed.

(** C4. [extractGeneric] dispatches on the suffix of the archive's name.
    With [.zip] it is one extraction of the archive.  With [tar.gz] it is
    the extraction of the archive, then of the intermediate [.tar], then the
    removal of that [.tar]: the removal is the call that follows the inner
    extraction, and it is made once both extractions have succeeded.  With
    any other suffix it fails with ERROR_UNKNOWN_EXTENSION and the trace is
    unchanged: the archiver is not invoked. *)
Theorem C4_extractGeneric_dispatch (archive : string) (dest : option string)
    (options : option IExtractOptions) (t : Trace) :
  let d := default (path_dirname lib archive) dest in
  let o := default {| overwrite := false |} options in
  let tar := tarOf lib archive d in
  let c_zip := extractCall lib archive d (overwrite o) in
  let c_gz := extractCall lib archive d false in
  let c_tar := extractCall lib tar d false in
  (endsWith archive ".zip" = true ->
     extractGeneric lib world archive dest options t
     = (extractOutcome archive d (world _ t c_zip), t ++ [Ev c_zip]))
  /\ (endsWith archive ".zip" = false -> endsWith archive "tar.gz" = true ->
      extractGeneric lib world archive dest options t
      = match extractOutcome archive d (world _ t c_gz) with
        | Throw e => (Throw e, t ++ [Ev c_gz])
        | Ok _ =>
            match extractOutcome tar d (world _ (t ++ [Ev c_gz]) c_tar) with
            | Throw e => (Throw e, t ++ [Ev c_gz; Ev c_tar])
            | Ok _ =>
                (match world _ (t ++ [Ev c_gz; Ev c_tar]) (removeAsync tar) with
                 | Ok _ => Ok d
                 | Throw e => Throw e
                 end,
                 t ++ [Ev c_gz; Ev c_tar; Ev (removeAsync tar)])
            end
        end)
  /\ (endsWith archive ".zip" = false -> endsWith archive "tar.gz" = false ->
      extractGeneric lib world archive dest options t
      = (Throw ERROR_UNKNOWN_EXTENSION, t)).
Proof.
  intros d o tar c_zip c_gz c_tar. unfold extractGeneric. fold d. fold o.
  split; [|split].
  - intros ->. unfold bind at 1. unfold bind at 1.
    rewrite (extract_run archive (Some d) (Some o)). cbn [from_option id].
    fold c_zip. destruct (extractOutcome archive d _) as [a|e] eqn:E; [|reflexivity].
    apply extractOutcome_ok in E as ->. reflexivity.
  - intros -> ->. unfold bind at 1. unfold bind at 1. unfold extractTarGz.
    cbn [from_option id]. fold tar. unfold bind at 1.
    rewrite (extract_run archive (Some d) None). cbn [from_option id overwrite]. fold c_gz.
    destruct (extractOutcome archive d _) as [x|e]; [|reflexivity].
    unfold bind at 1. rewrite (extract_run tar (Some d) None).
    cbn [from_option id overwrite]. fold c_tar. rewrite snoc2.
    destruct (extractOutcome tar d _) as [y|e]; [|reflexivity].
    unfold bind, call, ret. rewrite snoc3. unfold tar, tarOf.
    destruct (world unit _ (removeAsync _)) as [[]|e]; reflexivity.
  - intros -> ->. reflexivity.
Qed.

(** What [compress] does with the archiver's exit code: it resolves with
    it, whatever it is. *)
Lemma compress_run (dir : string) (files : list string) (type target : string)
    (t : Trace) (listfiles : string) (r : SpawnResult) :
  let w := writeFileAsync listfiles
             (Str (String.concat CRLF (map (path_normalize lib) files))) in
  let z := compressCall lib dir type target listfiles in
  world _ t (tmpFile true) = Ok listfiles ->
  world _ (t ++ [Ev (tmpFile true)]) w = Ok tt ->
  world _ (t ++ [Ev (tmpFile true); Ev w]) z = Ok r ->
  compress lib world dir files type target t
  = (Ok (code r), t ++ [Ev (tmpFile true); Ev w; Ev z]).
Proof.
  intros w z H1 H2 H3. unfold compress, bind, call, ret.
  rewrite H1. fold w. rewrite H2. rewrite snoc2.
  fold (compressCall lib dir type target listfiles). fold z. rewrite H3.
  now rewrite snoc3.
Qed.

(** C6 (amended). An extraction whose archiver exits with a code other than
    zero never reports success: it raises ERROR_PATH_NOT_FOUND naming the
    archive when the code is 2, and ERROR_EXIT_CODE carrying the code
    otherwise; in both cases the run of [extract] ends with that error right
    after the call to the archiver. *)
Theorem C6_archiver_exit_codes (archive : string) (dest : option string)
    (options : option IExtractOptions) (t : Trace) (r : SpawnResult) :
  let d := default (path_dirname lib archive) dest in
  let c := extractCall lib archive d (overwrite (default {| overwrite := false |} options)) in
  world _ t c = Ok r ->
  code r <> Some 0%Z ->
  extract lib world archive dest options t
  = (Throw (if bool_decide (code r = Some 2%Z) then ERROR_PATH_NOT_FOUND archive
            else ERROR_EXIT_CODE (code r)),
     t ++ [Ev c]).
Proof.
  intros d c Hr Hcode. rewrite extract_run. fold d. fold c. rewrite Hr. cbn.
  destruct (code r) as [[|p|p]|]; try reflexivity; [congruence|].
  destruct p as [p|p|]; try reflexivity; destruct p; reflexivity.
Qed.

(** ** The temporary script of an installer build *)

Lemma compileScript_run (cwd data : string) (mute : option bool)
    (t : Trace) (script : string) :
  let w := writeFileAsync script (Str data) in
  let m := makensis cwd script mute in
  let t2 := t ++ [Ev tmpName; Ev w] in
  world _ t tmpName = Ok script ->
  world _ (t ++ [Ev tmpName]) w = Ok tt ->
  compileScript world cwd data mute t
  = match world _ t2 m with
    | Ok (Some 0%Z) =>
        (world _ (t2 ++ [Ev m]) (removeAsync script),
         t2 ++ [Ev m; Ev (removeAsync script)])
    | Ok c => (Throw (ERROR_EXIT_CODE c), t2 ++ [Ev m])
    | Throw e => (Throw e, t2 ++ [Ev m])
    end.
Proof.
  intros w m t2 H1 H2. unfold compileScript, nsisBuild, bind, call, ret, throw.
  rewrite H1. fold w. rewrite H2. rewrite snoc2. fold t2. fold m.
  destruct (world (option Z) t2 m) as [c|e]; [|reflexivity].
  destruct c as [[|p|p]|]; try reflexivity.
  change (bool_decide (Some 0%Z = Some 0%Z)) with true. cbv beta iota.
  rewrite <- (app_assoc t2). destruct (world unit _ (removeAsync script)); reflexivity.
Qed.

Lemma bind_assoc {A B C} (m : M A) (k : A -> M B) (h : B -> M C) (t : Trace) :
  bind (bind m k) h t = bind m (fun x => bind (k x) h) t.
Proof.
  unfold bind. destruct (m t) as [[a|e] t1]; [|reflexivity].
  destruct (k a t1) as [[b|e] t2]; reflexivity.
Qed.

Lemma bind_ext {A B} (m : M A) (k k' : A -> M B) (t : Trace) :
  (forall a t', k a t' = k' a t') -> bind m k t = bind m k' t.
Proof.
  intros H. unfold bind. destruct (m t) as [[a|e] t1]; [apply H|reflexivity].
Qed.

(** C5 (amended). Each of the three installer builds (full, self-extracting,
    differential) compiles its script through [compileScript], which writes
    it to a temporary file first.  When the compiler exits with 0 the next
    call removes that file.  When the compiler exits with another code, or
    its call is rejected, the run ends there with the error: the call to the
    compiler is the last of the trace and the file is not removed. *)
Theorem C5_script_removed_after_success (this : Builder) (arch sourceDir : string)
    (pkg : JsObject) (config : BuildConfig) :
  viaCompileScript world (mute (options this))
    (buildNsisTarget lib world this "win" arch sourceDir pkg config)
  /\ viaCompileScript world (mute (options this))
       (buildNsis7zTarget lib world this "win" arch sourceDir pkg config)
  /\ (forall platform vi fromVersion toVersion,
        viaCompileScript world (mute (options this))
          (buildNsisDiffUpdater lib world this platform arch vi fromVersion toVersion
             pkg config))
  /\ forall cwd data mute t script,
       let w := writeFileAsync script (Str data) in
       let m := makensis cwd script mute in
       let t2 := t ++ [Ev tmpName; Ev w] in
       world _ t tmpName = Ok script ->
       world _ (t ++ [Ev tmpName]) w = Ok tt ->
       compileScript world cwd data mute t
       = match world _ t2 m with
         | Ok (Some 0%Z) =>
             (world _ (t2 ++ [Ev m]) (removeAsync script),
              t2 ++ [Ev m; Ev (removeAsync script)])
         | Ok c => (Throw (ERROR_EXIT_CODE c), t2 ++ [Ev m])
         | Throw e => (Throw e, t2 ++ [Ev m])
         end.
Proof.
  split; [|split; [|split]].
  - exists (NsisVersionInfo * string)%type.
    exists (vi <- new_NsisVersionInfo world
                    (path_resolve lib [dir this; output config; "versions.nsis.json"]) ;;
            data <- call world (NsisComposer_make
                                  (nsisOptions lib this config (targetNsisPath lib sourceDir))) ;;
            ret (vi, data)).
    exists (fun _ => sourceDir), snd.
    exists (fun x => recordInstaller lib world this "win" arch sourceDir x.1
                       (targetNsisPath lib sourceDir) pkg config).
    intros t. unfold buildNsisTarget. cbn [String.eqb Ascii.eqb Bool.eqb negb].
    rewrite bind_assoc. apply bind_ext. intros vi t1.
    rewrite bind_assoc. apply bind_ext. intros data t2. reflexivity.
  - exists (NsisVersionInfo * string)%type.
    exists (sourceArchive <- buildArchiveTarget lib world this "7z" sourceDir ;;
            vi <- new_NsisVersionInfo world
                    (path_resolve lib [dir this; output config; "versions.nsis.json"]) ;;
            data <- call world (Nsis7Zipper_make sourceArchive
                                  (nsisOptions lib this config (targetNsisPath lib sourceDir))) ;;
            ret (vi, data)).
    exists (fun _ => sourceDir), snd.
    exists (fun x => recordInstaller lib world this "win" arch sourceDir x.1
                       (targetNsisPath lib sourceDir) pkg config).
    intros t. unfold buildNsis7zTarget. cbn [String.eqb Ascii.eqb Bool.eqb negb].
    rewrite bind_assoc. apply bind_ext. intros archive t1.
    rewrite bind_assoc. apply bind_ext. intros vi t2.
    rewrite bind_assoc. apply bind_ext. intros data t3. reflexivity.
  - intros platform vi fromVersion toVersion.
    exists (string * string)%type.
    exists (from <- liftR (getVersion vi fromVersion) ;;
            to <- liftR (getVersion vi toVersion) ;;
            data <- call world
                      (NsisDiffer_make
                         (path_resolve lib [dir this; output config; source from])
                         (path_resolve lib [dir this; output config; source to])
                         (nsisOptions lib this config
                            (diffNsisPath lib this platform arch fromVersion toVersion
                               pkg config))) ;;
            ret (path_resolve lib [dir this; output config; source to], data)).
    exists fst, snd.
    exists (fun _ => ret (addUpdater vi toVersion fromVersion arch
                            (diffNsisPath lib this platform arch fromVersion toVersion
                               pkg config))).
    intros t. unfold buildNsisDiffUpdater.
    rewrite bind_assoc. apply bind_ext. intros from t1.
    rewrite bind_assoc. apply bind_ext. intros to t2.
    rewrite bind_assoc. apply bind_ext. intros data t3. reflexivity.
  - apply compileScript_run.
Qed.

(** ** The Mac descriptor and the encoding of the files it is written to *)

Lemma startsWithBytes_spec (needle hay : list byte) :
  startsWithBytes needle hay = true <-> exists post, hay = needle ++ post.
Proof.
  revert hay. induction needle as [|a needle IH]; intros hay; cbn.
  - split; [intros _; now exists hay|reflexivity].
  - destruct hay as [|b hay].
    + split; [discriminate|intros [post H]; discriminate].
    + rewrite andb_true_iff, IH. split.
      * intros [Hab [post ->]]. apply byte_dec_bl in Hab as ->. now exists post.
      * intros [post [= -> ->]]. split; [now apply byte_dec_lb|now exists post].
Qed.

Lemma indexOfFrom_found (needle hay : list byte) (i : Z) :
  (0 <= i)%Z ->
  (0 <= indexOfFrom needle hay i)%Z <-> exists pre post, hay = pre ++ needle ++ post.
Proof.
  revert i. induction hay as [|b hay IH]; intros i Hi.
  - cbn. destruct (startsWithBytes needle []) eqn:E.
    + split; [|intros _; exact Hi]. intros _.
      apply startsWithBytes_spec in E as [post E]. now exists [], post.
    + split; [lia|]. intros (pre & post & H).
      destruct pre; [|discriminate]. cbn in H.
      assert (startsWithBytes needle [] = true)
        by (apply startsWithBytes_spec; now exists post).
      congruence.
  - cbn [indexOfFrom]. destruct (startsWithBytes needle (b :: hay)) eqn:E.
    + split; [|intros _; exact Hi]. intros _.
      apply startsWithBytes_spec in E as [post E]. now exists [], post.
    + rewrite IH by lia. split.
      * intros (pre & post & ->). now exists (b :: pre), post.
      * intros (pre & post & H). destruct pre as [|b' pre].
        -- assert (startsWithBytes needle (b :: hay) = true)
             by (apply startsWithBytes_spec; now exists post).
           congruence.
        -- injection H as -> ->. now exists pre, post.
Qed.

Lemma detectEncoding_spec (data : list byte) :
  detectEncoding data = ucs2 <-> exists pre post, data = pre ++ CF_utf16 ++ post.
Proof.
  unfold detectEncoding, Buffer_indexOf.
  rewrite <- (indexOfFrom_found CF_utf16 data 0) by lia.
  destruct (0 <=? indexOfFrom CF_utf16 data 0)%Z eqn:E.
  - apply Z.leb_le in E. split; [intros _; exact E|reflexivity].
  - apply Z.leb_gt in E. split; [discriminate|lia].
Qed.



(** ** The manifest of the bundle *)

Lemma stripLoop_throws (pkg : JsObject) (config : BuildConfig) (json : JsObject)
    (l : list (string * Json)) :
  is_Some (pkg !! "hasOwnProperty") ->
  l <> [] ->
  stripLoop pkg config json l = Throw (TypeError "pkg.hasOwnProperty is not a function").
Proof.
  intros [v Hv] Hl. destruct l as [|kv l]; [contradiction|].
  cbn [stripLoop]. unfold stripMember, hasOwnProperty. now rewrite Hv.
Qed.

Lemma stripLoop_lookup (pkg : JsObject) (config : BuildConfig) (l : list (string * Json)) :
  pkg !! "hasOwnProperty" = None ->
  (forall kv, kv ∈ l -> pkg !! kv.1 = Some kv.2) ->
  NoDup (l.*1) ->
  forall json, exists json',
    stripLoop pkg config json l = Ok json'
    /\ forall k,
         json' !! k
         = if bool_decide (k ∈ strippedProperties config) || String.eqb k "__proto__"
           then json !! k
           else match (list_to_map l : JsObject) !! k with
                | Some v => Some v
                | None => json !! k
                end.
Proof.
  intros Hown. induction l as [|[k0 v0] l IH]; intros Hin Hnd json.
  - exists json. split; [reflexivity|]. intros k. cbn. rewrite lookup_empty.
    now destruct (_ || _).
  - cbn in Hnd. apply NoDup_cons in Hnd as [Hk0 Hnd].
    cbn [stripLoop]. unfold stripMember, hasOwnProperty. rewrite Hown. cbn [fst snd].
    pose proof (Hin (k0, v0) (list_elem_of_here _ _)) as Hmember.
    cbn [fst snd] in Hmember. rewrite Hmember.
    rewrite bool_decide_eq_true_2 by (now eexists). cbn [andb].
    set (json1 := if negb (bool_decide (k0 ∈ strippedProperties config))
                  then assignMember json k0 v0 else json).
    destruct (IH (fun kv H => Hin kv (list_elem_of_further _ _ _ H)) Hnd json1)
      as (json' & Hrun & Hlook).
    exists json'. split; [exact Hrun|]. intros k. rewrite Hlook.
    cbn [list_to_map foldr]. subst json1.
    destruct (bool_decide (k ∈ strippedProperties config) || String.eqb k "__proto__")
      eqn:Ek.
    + destruct (bool_decide (k0 ∈ strippedProperties config)) eqn:Ek0; cbn [negb];
        [reflexivity|].
      unfold assignMember. destruct (String.eqb_spec k0 "__proto__") as [->|Hp];
        [reflexivity|].
      rewrite lookup_insert_ne; [reflexivity|]. intros ->.
      apply orb_true_iff in Ek as [Ek|Ek]; [congruence|].
      apply String.eqb_eq in Ek. contradiction.
    + apply orb_false_iff in Ek as [Ek1 Ek2].
      destruct (decide (k0 = k)) as [->|Hne].
      * rewrite lookup_insert_eq, (not_elem_of_list_to_map_1 _ _ Hk0), Ek1. cbn [negb].
        unfold assignMember. rewrite Ek2. now rewrite lookup_insert_eq.
      * rewrite (lookup_insert_ne (list_to_map l)) by exact Hne.
        destruct ((list_to_map l : JsObject) !! k); [reflexivity|].
        destruct (negb _); [|reflexivity].
        unfold assignMember. destruct (String.eqb k0 "__proto__"); [reflexivity|].
        now rewrite lookup_insert_ne by exact Hne.
Qed.

(** What the loop makes of a manifest: it throws when the manifest has a
    member [hasOwnProperty]; otherwise the object holds the members of the
    manifest that are not listed in [strippedProperties], but for
    [__proto__]. *)
Lemma strippedManifest_spec (pkg : JsObject) (config : BuildConfig) :
  (is_Some (pkg !! "hasOwnProperty") ->
   strippedManifest pkg config
   = Throw (TypeError "pkg.hasOwnProperty is not a function"))
  /\ (pkg !! "hasOwnProperty" = None ->
      exists json,
        strippedManifest pkg config = Ok json
        /\ forall k,
             json !! k
             = if bool_decide (k ∈ strippedProperties config) || String.eqb k "__proto__"
               then None else pkg !! k).
Proof.
  unfold strippedManifest. split.
  - intros Hown. apply stripLoop_throws; [exact Hown|].
    intros Hnil. apply map_to_list_empty_iff in Hnil. subst pkg.
    destruct Hown as [v Hv]. now rewrite lookup_empty in Hv.
  - intros Hown.
    destruct (stripLoop_lookup pkg config (map_to_list pkg) Hown) with (json := (∅ : JsObject))
      as (json & Hrun & Hlook).
    + intros [k v] Hkv. now apply elem_of_map_to_list in Hkv.
    + apply NoDup_fst_map_to_list.
    + exists json. split; [exact Hrun|]. intros k. rewrite Hlook.
      rewrite list_to_map_to_list, lookup_empty.
      destruct (_ || _); [reflexivity|]. now destruct (pkg !! k).
Qed.

(** In every mode [copyFiles] ships the files and then, unless building
    the object throws, writes it to [package.json] under the application
    root. *)
Lemma copyFiles_run (this : Builder) (platform targetDir appRoot : string)
    (pkg : JsObject) (config : BuildConfig) (t : Trace) :
  copyFiles lib world this platform targetDir appRoot pkg config t
  = match shipFiles lib world this platform targetDir appRoot pkg config t with
    | (Ok _, t1) =>
        match strippedManifest pkg config with
        | Ok json =>
            (world _ t1 (writeManifest lib appRoot json),
             t1 ++ [Ev (writeManifest lib appRoot json)])
        | Throw e => (Throw e, t1)
        end
    | (Throw e, t1) => (Throw e, t1)
    end.
Proof.
  unfold copyFiles, bind, liftR.
  destruct (shipFiles lib world this platform targetDir appRoot pkg config t)
    as [[[]|e] t1]; [|reflexivity].
  destruct (strippedManifest pkg config); reflexivity.
Qed.

(** ** The files selected for shipping *)





(** ** The three phases of a directory bundle *)

Lemma emits_ret {A} (P : Event -> bool) (a : A) : emits P (ret a).
Proof. intros t. exists []. now rewrite app_nil_r. Qed.

Lemma emits_throw {A} (P : Event -> bool) (e : Err) : emits P (@throw A e).
Proof. intros t. exists []. now rewrite app_nil_r. Qed.

Lemma emits_liftR {A} (P : Event -> bool) (r : Result A) : emits P (liftR r).
Proof. intros t. exists []. now rewrite app_nil_r. Qed.

Lemma emits_call {T} (P : Event -> bool) (c : Call T) :
  P (Ev c) = true -> emits P (call world c).
Proof. intros H t. exists [Ev c]. cbn. now rewrite H. Qed.

Lemma emits_bind {A B} (P : Event -> bool) (m : M A) (k : A -> M B) :
  emits P m -> (forall a, emits P (k a)) -> emits P (bind m k).
Proof.
  intros Hm Hk t. destruct (Hm t) as (n1 & E1 & F1). unfold bind.
  destruct (m t) as [[a|e] t1]; cbn in E1; subst t1.
  - destruct (Hk a (t ++ n1)) as (n2 & E2 & F2). exists (n1 ++ n2).
    rewrite E2, app_assoc, forallb_app, F1, F2. now split.
  - now exists n1.
Qed.

Lemma emits_forM_ {A} (P : Event -> bool) (l : list A) (f : A -> M unit) :
  (forall x, emits P (f x)) -> emits P (forM_ l f).
Proof.
  intros Hf. induction l as [|x l IH]; cbn [forM_].
  - apply emits_ret.
  - apply emits_bind; [apply Hf|intros _; exact IH].
Qed.

Ltac emits_step :=
  first
    [ apply emits_ret
    | apply emits_throw
    | apply emits_liftR
    | apply emits_call; reflexivity
    | apply emits_forM_; intros ?
    | apply emits_bind; [|intros ?]
    | match goal with
      | |- emits _ (if ?b then _ else _) => destruct b
      end ].

Ltac emits_all := repeat emits_step.

Lemma prepare_emits (platform : string) (this : Builder) (targetDir appRoot : string)
    (pkg : JsObject) (config : BuildConfig) :
  emits isPrepareCall (prepareOf lib world platform this targetDir appRoot pkg config).
Proof.
  unfold prepareOf.
  destruct (oneOf platform ["win32"; "win"]);
    [|destruct (oneOf platform ["darwin"; "osx"; "mac"])].
  - unfold prepareWinBuild, updateWinResources. emits_all.
  - unfold prepareMacBuild, updatePlist, readPlist, writePlist, updateMacIcon,
      fixMacMeta, fixStringsFile.
    emits_all.
  - unfold prepareLinuxBuild. emits_all.
Qed.

Lemma copyFiles_emits (platform : string) (this : Builder) (targetDir appRoot : string)
    (pkg : JsObject) (config : BuildConfig) :
  emits isCopyCall (copyFiles lib world this platform targetDir appRoot pkg config).
Proof.
  unfold copyFiles, shipFiles, collectFiles, compress, combineExecutable, copyEach.
  emits_all.
Qed.

Lemma finalize_emits (platform : string) (this : Builder) (targetDir appRoot : string)
    (pkg : JsObject) (config : BuildConfig) :
  emits isRenameCall (finalizeOf lib world platform this targetDir appRoot pkg config).
Proof.
  unfold finalizeOf.
  destruct (oneOf platform ["win32"; "win"]);
    [|destruct (oneOf platform ["darwin"; "osx"; "mac"])];
    unfold renameWinApp, renameMacApp, renameLinuxApp; emits_all.
Qed.

(** Three awaited steps in a row: each starts where the one before ended,
    and only if that one succeeded. *)
Lemma three_steps (P1 P2 P3 : Event -> bool) (m1 m2 m3 : M unit) (t : Trace) :
  emits P1 m1 -> emits P2 m2 -> emits P3 m3 ->
  exists tp tc tf,
    ((m1 ;;; m2 ;;; m3) t).2 = t ++ tp ++ tc ++ tf
    /\ forallb P1 tp = true /\ forallb P2 tc = true /\ forallb P3 tf = true
    /\ (m1 t).2 = t ++ tp
    /\ if isOk (m1 t).1 then
         (m2 (t ++ tp)).2 = t ++ tp ++ tc
         /\ if isOk (m2 (t ++ tp)).1 then
              (m3 (t ++ tp ++ tc)).2 = t ++ tp ++ tc ++ tf
              /\ (m3 (t ++ tp ++ tc)).1 = ((m1 ;;; m2 ;;; m3) t).1
            else tf = []
       else tc = [] /\ tf = [].
Proof.
  intros H1 H2 H3. destruct (H1 t) as (tp & E1 & F1). unfold bind.
  destruct (m1 t) as [[[]|e] t1] eqn:Em1; cbn in E1; subst t1; cbn [fst snd isOk].
  - destruct (H2 (t ++ tp)) as (tc & E2 & F2).
    destruct (m2 (t ++ tp)) as [[[]|e] t2] eqn:Em2; cbn in E2; subst t2.
    + destruct (H3 ((t ++ tp) ++ tc)) as (tf & E3 & F3).
      rewrite <- !app_assoc in E3.
      exists tp, tc, tf. rewrite Em2. cbn [fst snd isOk].
      rewrite <- !app_assoc.
      destruct (m3 (t ++ tp ++ tc)) as [r3 t3]; cbn in *. subst t3.
      repeat split; auto.
    + exists tp, tc, []. rewrite Em2. cbn [fst snd isOk].
      rewrite <- !app_assoc. rewrite app_nil_r. repeat split; auto.
  - exists tp, [], []. rewrite !app_nil_r. repeat split; auto.
Qed.

(** C8. On every recognised platform the trace of the dispatch of
    [buildDirTarget] is the calls of the prepare step, then the calls of the
    copy step, then the call of the finalize step.  The prepare step has run
    to its end before the copy step makes its first call, and the copy step
    makes none unless the prepare step succeeded; the finalize step starts
    where the whole copy step ended, and only if it succeeded.  The resource
    editor and the rewriting of the property list belong to the first part
    only, the copying of files to the second only, the rename to the third
    only. *)
Theorem C8_prepare_copy_finalize (this : Builder) (platform targetDir appRoot : string)
    (pkg : JsObject) (config : BuildConfig) (t : Trace) :
  oneOf platform recognized = true ->
  let prepare := prepareOf lib world platform this targetDir appRoot pkg config in
  let copy := copyFiles lib world this platform targetDir appRoot pkg config in
  let finalize := finalizeOf lib world platform this targetDir appRoot pkg config in
  let run := dispatchPlatform lib world this platform targetDir appRoot pkg config in
  exists tp tc tf,
    (run t).2 = t ++ tp ++ tc ++ tf
    /\ forallb isPrepareCall tp = true
    /\ forallb isCopyCall tc = true
    /\ forallb isRenameCall tf = true
    /\ (prepare t).2 = t ++ tp
    /\ if isOk (prepare t).1 then
         (copy (t ++ tp)).2 = t ++ tp ++ tc
         /\ if isOk (copy (t ++ tp)).1 then
              (finalize (t ++ tp ++ tc)).2 = t ++ tp ++ tc ++ tf
              /\ (finalize (t ++ tp ++ tc)).1 = (run t).1
            else tf = []
       else tc = [] /\ tf = [].
Proof.
  intros Hrec prepare copy finalize run.
  assert (Hrun : run = (prepare ;;; copy ;;; finalize)).
  { unfold run, prepare, finalize, copy, dispatchPlatform, prepareOf, finalizeOf.
    unfold recognized in Hrec. cbn [oneOf existsb] in *.
    destruct (String.eqb platform "win32"), (String.eqb platform "win"),
      (String.eqb platform "darwin"), (String.eqb platform "osx"),
      (String.eqb platform "mac"), (String.eqb platform "linux");
      cbn in *; try reflexivity; discriminate. }
  rewrite Hrun.
  apply three_steps;
    [apply prepare_emits|apply copyFiles_emits|apply finalize_emits].
Qed.

(** ** Semantic-version order *)


















(** ** Differential updaters *)


Lemma emits_foldM {A S} (P : Event -> bool) (l : list A) (f : S -> A -> M S) :
  (forall s x, x ∈ l -> emits P (f s x)) -> forall s, emits P (foldM l f s).
Proof.
  induction l as [|x l IH]; intros Hf s; cbn [foldM].
  - apply emits_ret.
  - apply emits_bind.
    + apply Hf. apply list_elem_of_here.
    + intros s'. apply IH. intros s'' y Hy. apply Hf. now apply list_elem_of_further.
Qed.










Lemma getVersions_spec (vi : NsisVersionInfo) (v : string) :
  v ∈ getVersions vi <-> is_Some (vi_data vi !! v).
Proof.
  unfold getVersions. rewrite list_elem_of_fmap. split.
  - intros ([k e] & -> & H). apply elem_of_map_to_list in H. now exists e.
  - intros [e H]. exists (v, e). split; [reflexivity|]. now apply elem_of_map_to_list.
Qed.

Lemma addUpdater_lookup (vi : NsisVersionInfo) (cur v arch path k : string) :
  is_Some (vi_data (addUpdater vi cur v arch path) !! k) <-> is_Some (vi_data vi !! k).
Proof. unfold addUpdater. cbn [vi_data]. apply lookup_alter_is_Some. Qed.

Lemma recorded_lookup (vi : NsisVersionInfo) (pkg : JsObject)
    (arch sourceDir targetNsis k : string) :
  is_Some (vi_data (recorded lib vi pkg arch sourceDir targetNsis) !! k)
  <-> template lib (pkg !! "version") = k \/ is_Some (vi_data vi !! k).
Proof.
  unfold recorded, addInstaller, addVersion. cbn [vi_data].
  rewrite lookup_alter_is_Some.
  destruct (vi_data vi !! template lib (pkg !! "version")); apply lookup_insert_is_Some'.
Qed.


Section Calm.

Hypothesis calm : forall T t (c : Call T), isOk (world T t c) = true.
Hypothesis compiles : forall t cwd s m, world _ t (makensis cwd s m) = Ok (Some 0%Z).

Lemma call_succeeds {T} (c : Call T) (t : Trace) :
  exists a, call world c t = (Ok a, t ++ [Ev c]).
Proof.
  unfold call. pose proof (calm T t c) as H.
  destruct (world T t c) as [a|e]; [now exists a|discriminate].
Qed.

Lemma compileScript_succeeds (cwd data : string) (mute : option bool) (t : Trace) :
  exists t', compileScript world cwd data mute t = (Ok tt, t').
Proof.
  unfold compileScript, nsisBuild.
  destruct (call_succeeds tmpName t) as [script E1]. rewrite (bind_ok _ _ _ _ _ E1).
  destruct (call_succeeds (writeFileAsync script (Str data)) (t ++ [Ev tmpName]))
    as [[] E2].
  rewrite (bind_ok _ _ _ _ _ E2).
  unfold bind at 1. unfold bind at 1. unfold call at 1. rewrite compiles.
  change (bool_decide (Some 0%Z = Some 0%Z)) with true. cbv beta iota. unfold ret at 1.
  match goal with
  | |- context [call world ?c ?t1] => destruct (call_succeeds c t1) as [[] E3]; rewrite E3
  end.
  eauto.
Qed.

Lemma updaterLoop_succeeds (this : Builder) (platform arch : string) (pkg : JsObject)
    (config : BuildConfig) (sv : string) (versions : list string) :
  pkg !! "version" = Some (JStr sv) ->
  is_Some (semver_parse lib sv) ->
  forall vi t,
    (forall v, v ∈ versions ->
               is_Some (vi_data vi !! v) /\ is_Some (semver_parse lib v)) ->
    is_Some (vi_data vi !! sv) ->
    isOk (foldM versions (updaterStep lib world this platform arch pkg config) vi t).1
    = true.
Proof.
  intros Hver [vc Hvc]. induction versions as [|v versions IH]; intros vi t Hall Hcur.
  - reflexivity.
  - cbn [foldM]. destruct (Hall v (list_elem_of_here _ _)) as [[from Hfrom] [vv Hvv]].
    destruct Hcur as [to Hto].
    assert (Hrest : forall vi', (forall k, is_Some (vi_data vi' !! k) <-> is_Some (vi_data vi !! k)) ->
              forall t', isOk (foldM versions
                                 (updaterStep lib world this platform arch pkg config)
                                 vi' t').1 = true).
    { intros vi' Hsame t'. apply IH.
      - intros k Hk. destruct (Hall k (list_elem_of_further _ _ _ Hk)) as [H1 H2].
        split; [now apply Hsame|exact H2].
      - apply Hsame. now exists to. }
    unfold bind at 1. unfold updaterStep at 1. unfold bind at 1, liftR, semver_gt.
    rewrite Hver, Hvc, Hvv. cbn [template].
    destruct (semver_compare vc vv); try (apply Hrest; reflexivity).
    unfold buildNsisDiffUpdater, getVersion. rewrite Hfrom, Hto.
    unfold bind at 1, liftR. unfold bind at 1.
    match goal with
    | |- context [bind (call world ?c) _ t] => destruct (call_succeeds c t) as [data E]
    end.
    rewrite (bind_ok _ _ _ _ _ E).
    match goal with
    | |- context [bind (compileScript world ?cwd data ?m) _ ?t1] =>
        destruct (compileScript_succeeds cwd data m t1) as [t2 E2]
    end.
    rewrite (bind_ok _ _ _ _ _ E2). unfold ret at 1.
    apply Hrest. intros k. apply addUpdater_lookup.
Qed.

End Calm.


(** * Further properties of the builder *)

(** ** [build]: when there is nothing to build *)

Lemma tasksOf_length (o : IBuilderOptions) :
  (length (tasksOf o) =? 0)%nat = negb (anyPlatform o && anyArchitecture o).
Proof.
  destruct o as [w m l a b ch mi co mu].
  unfold tasksOf, anyPlatform, anyArchitecture, getFlag. cbn.
  destruct w as [[]|], m as [[]|], l as [[]|], a as [[]|], b as [[]|]; reflexivity.
Qed.

(** X1. The matrix of [build] is empty exactly when no platform flag is on
    or no architecture flag is on: a builder with platforms and no
    architecture (or the reverse) fails with ERROR_NO_TASK without reading
    the manifest, and one with a flag of each kind on does build a task. *)
Theorem build_needs_platform_and_architecture (this : Builder) (fuel : nat) (t : Trace) :
  (anyPlatform (options this) && anyArchitecture (options this) = false ->
   build lib world (S fuel) this t = (Throw ERROR_NO_TASK, t))
  /\ (anyPlatform (options this) && anyArchitecture (options this) = true ->
      tasksOf (options this) <> []
      /\ build lib world (S fuel) this t
         = if truthy (concurrent (options this)) then
             Bluebird_map (tasksOf (options this)) (fun task =>
               build lib world fuel
                 (new_Builder lib (taskOptions (options this) task.1 task.2) (dir this))) t
           else
             (pkg <- call world (readManifest lib this) ;;
              forM_ (tasksOf (options this)) (fun task =>
                buildTask lib world this task.1 task.2 pkg (new_BuildConfig lib pkg))) t).
Proof.
  pose proof (tasksOf_length (options this)) as Hlen. split; intros H.
  - rewrite build_S, Hlen, H. reflexivity.
  - rewrite H in Hlen. split.
    + intros E. rewrite E in Hlen. discriminate.
    + rewrite build_S, Hlen. cbn [negb].
      destruct (truthy (concurrent (options this))); reflexivity.
Qed.

(** ** [extract]: success and the exit code *)

(** X2. Once the archiver has answered, [extract] resolves exactly when its
    exit code is 0, and then with the destination, which is the directory
    of the archive when none is given. *)
Theorem extract_resolves_iff_exit_zero (archive : string) (dest : option string)
    (options : option IExtractOptions) (t : Trace) (r : SpawnResult) :
  let d := default (path_dirname lib archive) dest in
  let c := extractCall lib archive d (overwrite (default {| overwrite := false |} options)) in
  world _ t c = Ok r ->
  (isOk (extract lib world archive dest options t).1 = true <-> code r = Some 0%Z)
  /\ (code r = Some 0%Z ->
      extract lib world archive dest options t = (Ok d, t ++ [Ev c])).
Proof.
  intros d c Hr. rewrite extract_run. fold d. fold c. rewrite Hr. cbn.
  destruct (code r) as [[|p|p]|]; cbn.
  - split; [split; reflexivity|reflexivity].
  - split; [|discriminate].
    destruct p as [p|p|]; cbn; try (split; discriminate); destruct p; split; discriminate.
  - split; [split; discriminate|discriminate].
  - split; [split; discriminate|discriminate].
Qed.

(** ** The stripped manifest *)

(** X3. The object built for the bundle's manifest is left as it is by a
    second stripping, and a manifest that has none of the keys of
    [strippedProperties] and no member [__proto__] or [hasOwnProperty] is
    written unchanged.  A manifest with a member [hasOwnProperty] makes the
    loop throw instead. *)
Theorem strippedManifest_idempotent (pkg : JsObject) (config : BuildConfig) :
  (forall json, strippedManifest pkg config = Ok json ->
                strippedManifest json config = Ok json)
  /\ (pkg !! "hasOwnProperty" = None ->
      pkg !! "__proto__" = None ->
      Forall (fun k => pkg !! k = None) (strippedProperties config) ->
      strippedManifest pkg config = Ok pkg)
  /\ (is_Some (pkg !! "hasOwnProperty") ->
      strippedManifest pkg config
      = Throw (TypeError "pkg.hasOwnProperty is not a function")).
Proof.
  destruct (strippedManifest_spec pkg config) as [Hthrow Hok].
  split; [|split; [|exact Hthrow]].
  - intros json Hjson.
    destruct (pkg !! "hasOwnProperty") as [v|] eqn:Hown.
    { rewrite Hthrow in Hjson by (now exists v). discriminate. }
    destruct (Hok eq_refl) as (json0 & Hrun & Hlook).
    rewrite Hrun in Hjson. injection Hjson as ->.
    assert (Hown' : json !! "hasOwnProperty" = None).
    { rewrite Hlook, Hown. now destruct (_ || _). }
    destruct (proj2 (strippedManifest_spec json config) Hown') as (json2 & Hrun2 & Hlook2).
    rewrite Hrun2. f_equal. apply map_eq. intros k. rewrite Hlook2, Hlook.
    now destruct (_ || _).
  - intros Hown Hproto Habsent. destruct (Hok Hown) as (json & Hrun & Hlook).
    rewrite Hrun. f_equal. apply map_eq. intros k. rewrite Hlook.
    destruct (bool_decide (k ∈ strippedProperties config)) eqn:Ek; cbn [orb].
    + apply bool_decide_eq_true in Ek. rewrite Forall_forall in Habsent.
      symmetry. now apply Habsent.
    + destruct (String.eqb_spec k "__proto__") as [->|_]; [now rewrite Hproto|reflexivity].
Qed.

(** X20. In every mode and on every platform, once the files are shipped
    [copyFiles] writes [package.json] under the application root, with the
    manifest of the project minus the keys of [strippedProperties] and minus
    a member [__proto__], every other member with its value; when the
    manifest has a member [hasOwnProperty] it throws a [TypeError] instead
    and writes nothing. *)
Theorem manifest_written_after_shipping (this : Builder)
    (platform targetDir appRoot : string) (pkg : JsObject) (config : BuildConfig)
    (t t1 : Trace) :
  shipFiles lib world this platform targetDir appRoot pkg config t = (Ok tt, t1) ->
  (pkg !! "hasOwnProperty" = None ->
   exists json,
     (forall k,
        json !! k
        = if bool_decide (k ∈ strippedProperties config) || String.eqb k "__proto__"
          then None else pkg !! k)
     /\ copyFiles lib world this platform targetDir appRoot pkg config t
        = (world _ t1 (writeManifest lib appRoot json),
           t1 ++ [Ev (writeManifest lib appRoot json)]))
  /\ (is_Some (pkg !! "hasOwnProperty") ->
      copyFiles lib world this platform targetDir appRoot pkg config t
      = (Throw (TypeError "pkg.hasOwnProperty is not a function"), t1)).
Proof.
  intros Hship. rewrite copyFiles_run, Hship.
  destruct (strippedManifest_spec pkg config) as [Hthrow Hok]. split.
  - intros Hown. destruct (Hok Hown) as (json & -> & Hlook). now exists json.
  - intros Hown. now rewrite (Hthrow Hown).
Qed.

(** ** The encoding of a strings file *)

(** X4. A strings file with no zero byte, or shorter than four bytes, is
    always taken as UTF-8: the scan can only decide on UTF-16 for bytes
    that hold 43 00 46 00. *)
Theorem detectEncoding_utf8 (data : list byte) :
  Forall (fun b => b <> x00) data \/ (length data < 4)%nat ->
  detectEncoding data = utf8.
Proof.
  intros H. destruct (detectEncoding data) eqn:E; [reflexivity|].
  apply detectEncoding_spec in E as (pre & post & ->). exfalso.
  destruct H as [H|H].
  - apply Forall_app in H as [_ H]. apply Forall_app in H as [H _].
    unfold CF_utf16 in H. inversion_clear H as [|? ? _ H1].
    inversion_clear H1 as [|? ? Hz _]. now apply Hz.
  - rewrite !length_app in H. cbn in H. lia.
Qed.

(** ** Loops stop at the first failure *)

Lemma forM_app {A} (l1 l2 : list A) (f : A -> M unit) (t : Trace) :
  forM_ (l1 ++ l2) f t = (forM_ l1 f ;;; forM_ l2 f) t.
Proof.
  revert t. induction l1 as [|x l1 IH]; intros t; [reflexivity|].
  cbn [app forM_]. rewrite bind_assoc. apply bind_ext. intros [] t'. apply IH.
Qed.

Lemma forM_stops {A} (pre post : list A) (x : A) (f : A -> M unit)
    (t t1 t2 : Trace) (e : Err) :
  forM_ pre f t = (Ok tt, t1) ->
  f x t1 = (Throw e, t2) ->
  forM_ (pre ++ x :: post) f t = (Throw e, t2).
Proof.
  intros Hpre Hx. rewrite forM_app. unfold bind at 1. rewrite Hpre.
  cbn [forM_]. unfold bind. now rewrite Hx.
Qed.

(** ** [buildDirTarget]: a platform it does not know *)

Lemma appRootOf_recognized (platform : string) :
  match appRootOf platform with Some _ => true | None => false end
  = oneOf platform recognized.
Proof.
  unfold appRootOf, recognized. cbn [oneOf existsb].
  destruct (String.eqb platform "win32"), (String.eqb platform "win"),
    (String.eqb platform "darwin"), (String.eqb platform "osx"),
    (String.eqb platform "mac"), (String.eqb platform "linux"); reflexivity.
Qed.

(** X5. For a platform that is none of the six recognised tokens
    [buildDirTarget] asks for the runtime root and then fails with
    ERROR_UNKNOWN_PLATFORM: the target directory is neither emptied nor
    written to.  The platforms that get past that point are exactly the
    recognised ones, so the [default] of the second [switch] is never
    taken. *)
Theorem buildDirTarget_unknown_platform (this : Builder)
    (platform arch runtimeDir : string) (pkg : JsObject) (config : BuildConfig)
    (t : Trace) :
  (oneOf platform recognized = false ->
   buildDirTarget lib world this platform arch runtimeDir pkg config t
   = (match world _ t (findRuntimeRoot platform runtimeDir) with
      | Ok _ => Throw ERROR_UNKNOWN_PLATFORM
      | Throw e => Throw e
      end,
      t ++ [Ev (findRuntimeRoot platform runtimeDir)]))
  /\ (oneOf platform recognized = true ->
      forall targetDir appRoot,
        dispatchPlatform lib world this platform targetDir appRoot pkg config
        = (prepareOf lib world platform this targetDir appRoot pkg config ;;;
           copyFiles lib world this platform targetDir appRoot pkg config ;;;
           finalizeOf lib world platform this targetDir appRoot pkg config)).
Proof.
  split; intros Hrec.
  - pose proof (appRootOf_recognized platform) as H. rewrite Hrec in H.
    unfold buildDirTarget, bind, call.
    destruct (world string t (findRuntimeRoot platform runtimeDir)); [|reflexivity].
    destruct (appRootOf platform); [discriminate|reflexivity].
  - intros targetDir appRoot.
    unfold dispatchPlatform, prepareOf, finalizeOf.
    unfold recognized in Hrec. cbn [oneOf existsb] in *.
    destruct (String.eqb platform "win32"), (String.eqb platform "win"),
      (String.eqb platform "darwin"), (String.eqb platform "osx"),
      (String.eqb platform "mac"), (String.eqb platform "linux");
      cbn in *; try reflexivity; discriminate.
Qed.

(** ** [buildTask]: a target it does not know *)

(** X6. The names in [config.targets] are looked at one by one as the loop
    reaches them: with an unknown name in the list, [buildTask] still
    downloads the runtime, builds the directory bundle and every target
    listed before the unknown one, and only then fails with
    ERROR_UNKNOWN_TARGET; the targets listed after it are not built. *)
Theorem buildTask_unknown_target (this : Builder) (platform arch : string)
    (pkg : JsObject) (config : BuildConfig) (pre post : list string) (bad : string)
    (runtimeDir targetDir : string) (t t1 t2 : Trace) :
  targets config = pre ++ bad :: post ->
  oneOf bad ["zip"; "7z"; "nsis"; "nsis7z"] = false ->
  world _ t (runtimeDownload this platform arch config) = Ok runtimeDir ->
  buildDirTarget lib world this platform arch runtimeDir pkg config
    (t ++ [Ev (runtimeDownload this platform arch config)]) = (Ok targetDir, t1) ->
  forM_ pre (buildTarget lib world this platform arch pkg config targetDir) t1
  = (Ok tt, t2) ->
  buildTask lib world this platform arch pkg config t = (Throw ERROR_UNKNOWN_TARGET, t2).
Proof.
  intros Htargets Hbad Hdl Hdir Hpre.
  change (buildTask lib world this platform arch pkg config t)
    with ((runtimeDir <- call world (runtimeDownload this platform arch config) ;;
           targetDir <- buildDirTarget lib world this platform arch runtimeDir pkg config ;;
           forM_ (targets config)
             (buildTarget lib world this platform arch pkg config targetDir)) t).
  unfold bind at 1, call at 1. rewrite Hdl. unfold bind at 1. rewrite Hdir.
  rewrite Htargets. apply (forM_stops _ _ _ _ _ _ _ _ Hpre).
  unfold buildTarget. cbn [oneOf existsb] in *.
  destruct (String.eqb bad "zip"), (String.eqb bad "7z"), (String.eqb bad "nsis"),
    (String.eqb bad "nsis7z"); cbn in *; try discriminate.
  reflexivity.
Qed.

(** ** [build]: a task that fails *)

(** X7. In sequential mode the tasks run one after the other in the order
    of the matrix, and a task that fails ends the build with its error: the
    tasks after it are not started. *)
Theorem build_stops_at_failed_task (this : Builder) (fuel : nat) (pkg : JsObject)
    (pre post : list (string * string)) (task : string * string)
    (t t1 t2 : Trace) (e : Err) :
  truthy (concurrent (options this)) = false ->
  tasksOf (options this) = pre ++ task :: post ->
  world _ t (readManifest lib this) = Ok pkg ->
  forM_ pre (fun task =>
    buildTask lib world this task.1 task.2 pkg (new_BuildConfig lib pkg))
    (t ++ [Ev (readManifest lib this)]) = (Ok tt, t1) ->
  buildTask lib world this task.1 task.2 pkg (new_BuildConfig lib pkg) t1 = (Throw e, t2) ->
  build lib world (S fuel) this t = (Throw e, t2).
Proof.
  intros Hseq Htasks Hread Hpre Htask. rewrite build_S, Htasks, Hseq.
  rewrite length_app. cbn [length]. rewrite Nat.add_succ_r. cbn [Nat.eqb].
  unfold bind at 1, call at 1. fold (readManifest lib this). rewrite Hread.
  apply (forM_stops pre post task _ _ t1 t2 e Hpre Htask).
Qed.

(** ** [buildArchiveTarget] *)

(** X8. [buildArchiveTarget] first removes what is at the archive's path,
    and when that removal is rejected it stops there, before any file is
    listed or archived.  Otherwise it lists the directory, compresses it,
    and resolves with the archive's path whatever exit code the archiver
    returned. *)
Theorem buildArchiveTarget_run (this : Builder) (type sourceDir : string) (t : Trace) :
  let archive := archiveOf lib type sourceDir in
  let t1 := t ++ [Ev (removeAsync archive)] in
  (forall e,
     world _ t (removeAsync archive) = Throw e ->
     buildArchiveTarget lib world this type sourceDir t = (Throw e, t1))
  /\ (forall files listfiles r,
        world _ t (removeAsync archive) = Ok tt ->
        world _ t1 (everythingUnder sourceDir) = Ok files ->
        world _ (t1 ++ [Ev (everythingUnder sourceDir)]) (tmpFile true) = Ok listfiles ->
        world _ (t1 ++ [Ev (everythingUnder sourceDir); Ev (tmpFile true)])
          (writeList lib listfiles files) = Ok tt ->
        world _ (t1 ++ [Ev (everythingUnder sourceDir); Ev (tmpFile true);
                        Ev (writeList lib listfiles files)])
          (compressCall lib sourceDir type archive listfiles) = Ok r ->
        buildArchiveTarget lib world this type sourceDir t
        = (Ok archive,
           t1 ++ [Ev (everythingUnder sourceDir); Ev (tmpFile true);
                  Ev (writeList lib listfiles files);
                  Ev (compressCall lib sourceDir type archive listfiles)])).
Proof.
  intros archive t1. split.
  - intros e He. unfold buildArchiveTarget, bind, call.
    fold (archiveOf lib type sourceDir). fold archive. now rewrite He.
  - intros files listfiles r Hrm Hglob Htmp Hwrite Hspawn.
    unfold buildArchiveTarget. fold (archiveOf lib type sourceDir). fold archive.
    unfold bind at 1, call at 1. rewrite Hrm. fold t1.
    unfold bind at 1, call at 1. fold (everythingUnder sourceDir). rewrite Hglob.
    unfold bind at 1.
    rewrite (compress_run sourceDir files type archive
               (t1 ++ [Ev (everythingUnder sourceDir)]) listfiles r).
    + unfold ret. now rewrite <- app_assoc.
    + exact Htmp.
    + rewrite <- app_assoc. exact Hwrite.
    + rewrite <- app_assoc. exact Hspawn.
Qed.

(** ** [compress] *)

Lemma compress_emits (dir : string) (files : list string) (type archive : string) :
  emits isCompressCall (compress lib world dir files type archive).
Proof. unfold compress. emits_all. Qed.

(** X9. [compress] makes a temporary file, writes the list of the files to
    it and runs the archiver, and nothing else: it never removes the list
    file.  Whenever those three calls resolve, it resolves too, with the
    archiver's exit code. *)
Theorem compress_keeps_listfile (dir : string) (files : list string)
    (type archive : string) (t : Trace) :
  (exists new,
     (compress lib world dir files type archive t).2 = t ++ new
     /\ forallb isCompressCall new = true)
  /\ (forall listfiles r,
        world _ t (tmpFile true) = Ok listfiles ->
        world _ (t ++ [Ev (tmpFile true)]) (writeList lib listfiles files) = Ok tt ->
        world _ (t ++ [Ev (tmpFile true); Ev (writeList lib listfiles files)])
          (compressCall lib dir type archive listfiles) = Ok r ->
        compress lib world dir files type archive t
        = (Ok (code r),
           t ++ [Ev (tmpFile true); Ev (writeList lib listfiles files);
                 Ev (compressCall lib dir type archive listfiles)])).
Proof.
  split; [apply compress_emits|].
  intros listfiles r H1 H2 H3. now apply compress_run.
Qed.

(** ** [copyFiles]: the platform *)

(** X10. In packed mode a platform that is none of the six recognised
    tokens makes [copyFiles] fail with ERROR_UNKNOWN_PLATFORM once the files
    are selected: nothing is copied and no manifest is written.  In unpacked
    mode the platform is not looked at: [copyFiles] runs alike for any two
    platforms. *)
Theorem copyFiles_platform (this : Builder) (platform targetDir appRoot : string)
    (pkg : JsObject) (config : BuildConfig) (t : Trace) :
  (packed config = true ->
   oneOf platform recognized = false ->
   forall selected t1,
     collectFiles world this pkg config t = (Ok selected, t1) ->
     copyFiles lib world this platform targetDir appRoot pkg config t
     = (Throw ERROR_UNKNOWN_PLATFORM, t1))
  /\ (packed config = false ->
      forall platform',
        copyFiles lib world this platform targetDir appRoot pkg config t
        = copyFiles lib world this platform' targetDir appRoot pkg config t).
Proof.
  split.
  - intros Hpacked Hrec selected t1 Hsel.
    unfold copyFiles, shipFiles. unfold bind at 1. unfold bind at 1.
    rewrite Hsel, Hpacked. unfold recognized in Hrec. cbn [oneOf existsb] in *.
    destruct (String.eqb platform "win32"), (String.eqb platform "win"),
      (String.eqb platform "darwin"), (String.eqb platform "osx"),
      (String.eqb platform "mac"), (String.eqb platform "linux");
      cbn in *; try discriminate.
    reflexivity.
  - intros Hpacked platform'. unfold copyFiles, shipFiles. now rewrite Hpacked.
Qed.

(** ** [copyFiles]: the loose files *)

Lemma copyEach_all (this : Builder) (appRoot : string) (files : list string) :
  (forall t src dest, world _ t (copyFileAsync src dest) = Ok tt) ->
  forall t,
    copyEach lib world this appRoot files t
    = (Ok tt, t ++ copiesOf lib this appRoot files).
Proof.
  intros Hok. unfold copyEach, copiesOf.
  induction files as [|file files IH]; intros t.
  - cbn. unfold ret. now rewrite app_nil_r.
  - cbn [forM_ map]. unfold bind at 1, call at 1. rewrite Hok, IH.
    now rewrite <- app_assoc.
Qed.

(** X11. The unpacked copy makes one [copyFileAsync] for each selected file,
    in the order of the selection, from the project directory to the same
    relative path under the application root; a copy that is rejected ends
    it, and the files after that one are not copied. *)
Theorem copyEach_run (this : Builder) (appRoot : string) (files : list string)
    (t : Trace) :
  ((forall t src dest, world _ t (copyFileAsync src dest) = Ok tt) ->
   copyEach lib world this appRoot files t
   = (Ok tt, t ++ copiesOf lib this appRoot files))
  /\ (forall pre file post t1 e,
        files = pre ++ file :: post ->
        copyEach lib world this appRoot pre t = (Ok tt, t1) ->
        world _ t1 (copyFileAsync (path_resolve lib [dir this; file])
                                  (path_resolve lib [appRoot; file])) = Throw e ->
        copyEach lib world this appRoot files t
        = (Throw e,
           t1 ++ [Ev (copyFileAsync (path_resolve lib [dir this; file])
                                    (path_resolve lib [appRoot; file]))])).
Proof.
  split.
  - intros Hok. now apply copyEach_all.
  - intros pre file post t1 e -> Hpre Hfail. unfold copyEach in *.
    apply (forM_stops _ _ _ _ _ _ _ _ Hpre). unfold call. now rewrite Hfail.
Qed.

(** ** [copyFiles]: the calls of a whole run *)

Lemma bind_call {T B} (c : Call T) (k : T -> M B) (t : Trace) (a : T) :
  world _ t c = Ok a -> bind (call world c) k t = k a (t ++ [Ev c]).
Proof. intros H. unfold bind, call. now rewrite H. Qed.

Lemma call_answer {T} (c : Call T) (t : Trace) (a : T) :
  world _ t c = Ok a -> call world c t = (Ok a, t ++ [Ev c]).
Proof. intros H. unfold call. now rewrite H. Qed.

Lemma bind_liftR {A B} (r : Result A) (k : A -> M B) (t : Trace) (a : A) :
  r = Ok a -> bind (liftR r) k t = k a t.
Proof. intros ->. reflexivity. Qed.

Lemma bind_ret {A B} (a : A) (k : A -> M B) (t : Trace) : bind (ret a) k t = k a t.
Proof. reflexivity. Qed.

Ltac answered H :=
  repeat first [rewrite bind_assoc|rewrite bind_ret];
  rewrite <- ?app_assoc; cbn [app];
  first [rewrite (bind_call _ _ _ _ H)|rewrite (call_answer _ _ _ H)];
  cbv beta.

(** X12. In packed mode on Windows and Linux, [copyFiles] makes these calls
    in this order, each once the one before has resolved: find the
    excludable dependencies, select the files, take a temporary name, make
    the list file, write the selected files to it, run the archiver in the
    project directory, find the executable, append the archive to that
    executable, remove the archive, and, for a manifest without a member
    [hasOwnProperty], write the stripped manifest.  What is archived is what
    [globby] answered and what is appended to is what [findExecutable]
    answered; the exit code of the archiver plays no part. *)
Theorem copyFiles_packed_calls (this : Builder) (platform targetDir appRoot : string)
    (pkg : JsObject) (config : BuildConfig) (t : Trace)
    (excludable selected : list string) (nwFile listfiles executable : string)
    (r : SpawnResult) (json : JsObject) :
  let c1 := findExcludableDependencies (dir this) pkg in
  let c2 := selection this config excludable in
  let c5 := writeList lib listfiles selected in
  let c6 := compressCall lib (dir this) "zip" nwFile listfiles in
  let c7 := findExecutable platform targetDir in
  let c8 := pipeAppend nwFile executable in
  let c9 := removeAsync nwFile in
  let c10 := writeManifest lib appRoot json in
  packed config = true ->
  oneOf platform ["win32"; "win"; "linux"] = true ->
  strippedManifest pkg config = Ok json ->
  world _ t c1 = Ok excludable ->
  world _ (t ++ [Ev c1]) c2 = Ok selected ->
  world _ (t ++ [Ev c1; Ev c2]) tmpName = Ok nwFile ->
  world _ (t ++ [Ev c1; Ev c2; Ev tmpName]) (tmpFile true) = Ok listfiles ->
  world _ (t ++ [Ev c1; Ev c2; Ev tmpName; Ev (tmpFile true)]) c5 = Ok tt ->
  world _ (t ++ [Ev c1; Ev c2; Ev tmpName; Ev (tmpFile true); Ev c5]) c6 = Ok r ->
  world _ (t ++ [Ev c1; Ev c2; Ev tmpName; Ev (tmpFile true); Ev c5; Ev c6]) c7
  = Ok executable ->
  world _ (t ++ [Ev c1; Ev c2; Ev tmpName; Ev (tmpFile true); Ev c5; Ev c6; Ev c7]) c8
  = Ok tt ->
  world _ (t ++ [Ev c1; Ev c2; Ev tmpName; Ev (tmpFile true); Ev c5; Ev c6; Ev c7; Ev c8])
    c9 = Ok tt ->
  copyFiles lib world this platform targetDir appRoot pkg config t
  = (world _ (t ++ [Ev c1; Ev c2; Ev tmpName; Ev (tmpFile true); Ev c5; Ev c6; Ev c7;
                    Ev c8; Ev c9]) c10,
     t ++ [Ev c1; Ev c2; Ev tmpName; Ev (tmpFile true); Ev c5; Ev c6; Ev c7; Ev c8;
           Ev c9; Ev c10]).
Proof.
  intros c1 c2 c5 c6 c7 c8 c9 c10 Hpacked Hwin Hjson H1 H2 H3 H4 H5 H6 H7 H8 H9.
  unfold copyFiles, shipFiles, collectFiles, compress, combineExecutable.
  rewrite Hpacked, Hwin.
  fold c1. answered H1. fold (selection this config excludable). fold c2.
  answered H2.
  answered H3. answered H4. fold (writeList lib listfiles selected). fold c5.
  answered H5. fold (compressCall lib (dir this) "zip" nwFile listfiles). fold c6.
  answered H6. fold c7. answered H7. fold c8. answered H8. fold c9. answered H9.
  rewrite (bind_liftR _ _ _ _ Hjson). fold (writeManifest lib appRoot json). fold c10.
  unfold call. rewrite <- !app_assoc. reflexivity.
Qed.

(** X13. Unpacked, and on the Mac packed or not, [copyFiles] finds the
    excludable dependencies, selects the files, copies the files [globby]
    answered one by one under the application root and then, for a manifest
    without a member [hasOwnProperty], writes the stripped manifest: after
    the last copy, so that a [package.json] that was among the selected
    files is overwritten by the stripped one.  On the Mac the [packed]
    setting makes no difference. *)
Theorem copyFiles_loose_calls (this : Builder) (platform targetDir appRoot : string)
    (pkg : JsObject) (config : BuildConfig) (t : Trace)
    (excludable selected : list string) (json : JsObject) :
  let c1 := findExcludableDependencies (dir this) pkg in
  let c2 := selection this config excludable in
  let copies := copiesOf lib this appRoot selected in
  let c3 := writeManifest lib appRoot json in
  packed config = false \/ oneOf platform ["darwin"; "osx"; "mac"] = true ->
  strippedManifest pkg config = Ok json ->
  world _ t c1 = Ok excludable ->
  world _ (t ++ [Ev c1]) c2 = Ok selected ->
  (forall t src dest, world _ t (copyFileAsync src dest) = Ok tt) ->
  copyFiles lib world this platform targetDir appRoot pkg config t
  = (world _ (t ++ [Ev c1; Ev c2] ++ copies) c3,
     t ++ [Ev c1; Ev c2] ++ copies ++ [Ev c3]).
Proof.
  intros c1 c2 copies c3 Hloose Hjson H1 H2 Hcopy.
  assert (Hship : forall files,
            (if packed config then
               if oneOf platform ["win32"; "win"; "linux"] then
                 nwFile <- call world tmpName ;;
                 compress lib world (dir this) files "zip" nwFile ;;;
                 executable <- call world (findExecutable platform targetDir) ;;
                 combineExecutable world executable nwFile ;;;
                 call world (removeAsync nwFile)
               else if oneOf platform ["darwin"; "osx"; "mac"] then
                 copyEach lib world this appRoot files
               else throw ERROR_UNKNOWN_PLATFORM
             else copyEach lib world this appRoot files)
            = copyEach lib world this appRoot files).
  { intros files. destruct (packed config); [|reflexivity].
    destruct Hloose as [Hp|Hmac]; [discriminate|]. rewrite Hmac.
    cbn [oneOf existsb] in *.
    destruct (String.eqb_spec platform "win32") as [->|_]; [discriminate|].
    destruct (String.eqb_spec platform "win") as [->|_]; [discriminate|].
    destruct (String.eqb_spec platform "linux") as [->|_]; [discriminate|].
    reflexivity. }
  unfold copyFiles, shipFiles, collectFiles.
  fold c1. answered H1. fold (selection this config excludable). fold c2. answered H2.
  rewrite Hship.
  rewrite (bind_ok _ _ _ _ _ (copyEach_all this appRoot selected Hcopy _)).
  rewrite (bind_liftR _ _ _ _ Hjson). fold (writeManifest lib appRoot json). fold c3.
  fold copies. unfold call. rewrite <- !app_assoc. reflexivity.
Qed.

(** ** The installer targets: when the registry is written *)

Lemma savesLast_emits {A} (m : M A) : emits notSave m -> savesLast m.
Proof.
  intros Hm t. destruct (Hm t) as (new & E & F). exists new. split; [exact F|now left].
Qed.

Lemma savesLast_bind {A B} (m : M A) (k : A -> M B) :
  emits notSave m -> (forall a, savesLast (k a)) -> savesLast (bind m k).
Proof.
  intros Hm Hk t. destruct (Hm t) as (n1 & E1 & F1). unfold bind.
  destruct (m t) as [[a|e] t1]; cbn in E1; subst t1.
  - destruct (Hk a (t ++ n1)) as (n2 & F2 & H). exists (n1 ++ n2). split.
    + now rewrite forallb_app, F1, F2.
    + destruct H as [H|(path & data & H)]; rewrite H.
      * left. now rewrite <- app_assoc.
      * right. exists path, data. now rewrite <- !app_assoc.
  - exists n1. split; [exact F1|now left].
Qed.

Lemma savesLast_save (path : string) (data : Registry) :
  savesLast (call world (NsisVersionInfo_save path data)).
Proof. intros t. exists []. split; [reflexivity|]. right. now exists path, data. Qed.

Lemma buildDiffUpdaters_emits_notSave (this : Builder) (platform arch : string)
    (vi : NsisVersionInfo) (pkg : JsObject) (config : BuildConfig) :
  emits notSave (buildDiffUpdaters lib world this platform arch vi pkg config).
Proof.
  unfold buildDiffUpdaters. destruct (diffUpdaters (config_nsis config));
    [|apply emits_ret].
  apply emits_foldM. intros s x _.
  unfold buildNsisDiffUpdater, compileScript, nsisBuild. emits_all.
Qed.

Lemma recordInstaller_savesLast (this : Builder) (platform arch sourceDir : string)
    (vi : NsisVersionInfo) (targetNsis : string) (pkg : JsObject) (config : BuildConfig) :
  savesLast (recordInstaller lib world this platform arch sourceDir vi targetNsis
               pkg config).
Proof.
  unfold recordInstaller. apply savesLast_bind.
  - apply buildDiffUpdaters_emits_notSave.
  - intros vi'. apply savesLast_save.
Qed.

(** X14. An installer-target build writes the registry file at most once,
    and only as its very last call: whatever the calls before it were, none
    of them is a write of the registry, so a build that fails before the end
    leaves the file as it was. *)
Theorem registry_saved_last (this : Builder) (platform arch sourceDir : string)
    (pkg : JsObject) (config : BuildConfig) :
  savesLast (buildNsisTarget lib world this platform arch sourceDir pkg config)
  /\ savesLast (buildNsis7zTarget lib world this platform arch sourceDir pkg config).
Proof.
  split.
  - unfold buildNsisTarget. destruct (negb (String.eqb platform "win")).
    + apply savesLast_emits, emits_ret.
    + apply savesLast_bind; [unfold new_NsisVersionInfo; emits_all|intros vi].
      apply savesLast_bind; [emits_all|intros data].
      apply savesLast_bind; [unfold compileScript, nsisBuild; emits_all|intros _].
      apply recordInstaller_savesLast.
  - unfold buildNsis7zTarget. destruct (negb (String.eqb platform "win")).
    + apply savesLast_emits, emits_ret.
    + apply savesLast_bind;
        [unfold buildArchiveTarget, compress; emits_all|intros sourceArchive].
      apply savesLast_bind; [unfold new_NsisVersionInfo; emits_all|intros vi].
      apply savesLast_bind; [emits_all|intros data].
      apply savesLast_bind; [unfold compileScript, nsisBuild; emits_all|intros _].
      apply recordInstaller_savesLast.
Qed.

(** ** Differential updaters: a version that is not one *)

Lemma updaterLoop_invalid (this : Builder) (platform arch : string) (pkg : JsObject)
    (config : BuildConfig) (v : string) (e : Err) (versions : list string) :
  semver_gt lib (pkg !! "version") v = Throw e ->
  v ∈ versions ->
  forall vi t,
    isOk (foldM versions (updaterStep lib world this platform arch pkg config) vi t).1
    = false.
Proof.
  intros Hv. induction versions as [|x versions IH]; intros Hin vi t.
  - inversion Hin.
  - cbn [foldM]. unfold bind at 1.
    destruct (updaterStep lib world this platform arch pkg config vi x t)
      as [[vi'|e'] t1] eqn:E; [|reflexivity].
    apply elem_of_cons in Hin as [<-|Hin]; [|now apply IH].
    unfold updaterStep, bind, liftR in E. rewrite Hv in E. discriminate.
Qed.

(** X15. With differential updates on, one registry key that [semver.gt]
    rejects (a key that is not a valid version, or any key when the
    manifest's own version is not valid) makes the loop over the versions
    fail, so the installer-target build fails after its installer has been
    compiled and before the registry is written. *)
Theorem invalid_version_fails_build (this : Builder) (platform arch sourceDir : string)
    (targetNsis : string) (vi0 : NsisVersionInfo) (pkg : JsObject)
    (config : BuildConfig) (v : string) (e : Err) (t : Trace) :
  diffUpdaters (config_nsis config) = true ->
  is_Some (vi_data vi0 !! v) ->
  semver_gt lib (pkg !! "version") v = Throw e ->
  let run := recordInstaller lib world this platform arch sourceDir vi0 targetNsis
               pkg config t in
  isOk run.1 = false
  /\ exists new, run.2 = t ++ new /\ forallb notSave new = true.
Proof.
  intros Hdiff Hin Hv run.
  assert (Hloop : isOk (buildDiffUpdaters lib world this platform arch
                          (recorded lib vi0 pkg arch sourceDir targetNsis) pkg config t).1
                  = false).
  { unfold buildDiffUpdaters. rewrite Hdiff.
    apply (updaterLoop_invalid this platform arch pkg config v e _ Hv).
    apply getVersions_spec, recorded_lookup. now right. }
  destruct (buildDiffUpdaters_emits_notSave this platform arch
              (recorded lib vi0 pkg arch sourceDir targetNsis) pkg config t)
    as (new & Enew & Fnew).
  subst run. unfold recordInstaller, bind.
  fold (recorded lib vi0 pkg arch sourceDir targetNsis).
  destruct (buildDiffUpdaters lib world this platform arch
              (recorded lib vi0 pkg arch sourceDir targetNsis) pkg config t)
    as [[vi|e'] t1]; [discriminate|].
  split; [reflexivity|]. now exists new.
Qed.

(** ** [extractGeneric]: the name of the intermediate archive *)

Lemma string_app_cons (c : Ascii.ascii) (s u : string) :
  String c s +:+ u = String c (s +:+ u).
Proof. reflexivity. Qed.

Lemma string_app_nil (u : string) : EmptyString +:+ u = u.
Proof. reflexivity. Qed.

Lemma string_length_app (s u : string) :
  String.length (s +:+ u) = (String.length s + String.length u)%nat.
Proof.
  induction s as [|c s IH];
    [now rewrite string_app_nil|rewrite string_app_cons; simpl; congruence].
Qed.

Lemma string_app_assoc (s u v : string) : (s +:+ u) +:+ v = s +:+ (u +:+ v).
Proof.
  induction s as [|c s IH];
    [now rewrite !string_app_nil|rewrite !string_app_cons; congruence].
Qed.

Lemma substring_all (u : string) : String.substring 0 (String.length u) u = u.
Proof. induction u as [|c u IH]; simpl; congruence. Qed.

Lemma substring_after (s u : string) (k : nat) :
  String.substring (String.length s) k (s +:+ u) = String.substring 0 k u.
Proof.
  induction s as [|c s IH];
    [now rewrite string_app_nil|rewrite string_app_cons; simpl; exact IH].
Qed.

Lemma substring_before (s u : string) :
  String.substring 0 (String.length s) (s +:+ u) = s.
Proof.
  induction s as [|c s IH].
  - rewrite string_app_nil. now destruct u.
  - rewrite string_app_cons. simpl. congruence.
Qed.

Lemma endsWith_app (s suffix other : string) :
  String.length other = String.length suffix ->
  endsWith (s +:+ suffix) other = String.eqb suffix other.
Proof.
  intros Hlen. unfold endsWith. rewrite string_length_app, Hlen.
  replace (String.length s + String.length suffix - String.length suffix)%nat
    with (String.length s) by lia.
  rewrite substring_after, substring_all.
  replace (String.length suffix <=? String.length s + String.length suffix)%nat
    with true by (symmetry; apply Nat.leb_le; lia).
  reflexivity.
Qed.

Lemma slice0_app (s suffix : string) :
  slice0 (s +:+ suffix) (String.length suffix) = s.
Proof.
  unfold slice0. rewrite string_length_app.
  replace (String.length s + String.length suffix - String.length suffix)%nat
    with (String.length s) by lia.
  apply substring_before.
Qed.

(** X16. An archive named [stem.tar.gz] is never taken for a [.zip]; it is
    unwrapped, the intermediate archive is the file named [stem.tar] in the
    destination, and when both extractions exit with 0 that file is what is
    removed, as the last call. *)
Theorem extractGeneric_tar_gz (stem : string) (dest : option string)
    (options : option IExtractOptions) (t : Trace) (r1 r2 : SpawnResult) :
  let archive := stem +:+ ".tar.gz" in
  let d := default (path_dirname lib archive) dest in
  let tar := path_join lib [d; path_basename lib (stem +:+ ".tar")] in
  let c_gz := extractCall lib archive d false in
  let c_tar := extractCall lib tar d false in
  world _ t c_gz = Ok r1 -> code r1 = Some 0%Z ->
  world _ (t ++ [Ev c_gz]) c_tar = Ok r2 -> code r2 = Some 0%Z ->
  extractGeneric lib world archive dest options t
  = (match world _ (t ++ [Ev c_gz; Ev c_tar]) (removeAsync tar) with
     | Ok _ => Ok d
     | Throw e => Throw e
     end,
     t ++ [Ev c_gz; Ev c_tar; Ev (removeAsync tar)]).
Proof.
  intros archive d tar c_gz c_tar H1 Hc1 H2 Hc2.
  assert (Hzip : endsWith archive ".zip" = false).
  { unfold archive.
    change (stem +:+ ".tar.gz") with (stem +:+ (".ta" +:+ "r.gz")).
    rewrite <- string_app_assoc. now rewrite endsWith_app. }
  assert (Hgz : endsWith archive "tar.gz" = true).
  { unfold archive.
    change (stem +:+ ".tar.gz") with (stem +:+ ("." +:+ "tar.gz")).
    rewrite <- string_app_assoc. now rewrite endsWith_app. }
  assert (Htar : slice0 archive 3 = stem +:+ ".tar").
  { unfold archive.
    change (stem +:+ ".tar.gz") with (stem +:+ (".tar" +:+ ".gz")).
    rewrite <- string_app_assoc. apply (slice0_app (stem +:+ ".tar") ".gz"). }
  unfold extractGeneric. rewrite Hzip, Hgz. fold d.
  unfold bind at 1. unfold bind at 1. unfold extractTarGz. cbn [from_option id].
  rewrite Htar. fold tar. unfold bind at 1.
  rewrite (extract_run archive (Some d) None). cbn [from_option id overwrite].
  fold c_gz. rewrite H1. cbn [extractOutcome]. rewrite Hc1.
  unfold bind at 1. rewrite (extract_run tar (Some d) None).
  cbn [from_option id overwrite]. fold c_tar. rewrite snoc2, H2.
  cbn [extractOutcome]. rewrite Hc2.
  unfold bind, call, ret. rewrite snoc3.
  destruct (world unit _ (removeAsync tar)) as [[]|e]; reflexivity.
Qed.

(** ** The FFmpeg integration *)

Ltac emits_more :=
  repeat first [ emits_step | apply emits_foldM; intros ? ? _ ].

Lemma dispatchPlatform_no_ffmpeg (this : Builder) (platform targetDir appRoot : string)
    (pkg : JsObject) (config : BuildConfig) :
  emits notFFmpeg (dispatchPlatform lib world this platform targetDir appRoot pkg config).
Proof.
  unfold dispatchPlatform, prepareWinBuild, updateWinResources, prepareMacBuild,
    updatePlist, readPlist, writePlist, updateMacIcon, fixMacMeta, fixStringsFile,
    prepareLinuxBuild, copyFiles, shipFiles, collectFiles, compress, combineExecutable,
    copyEach, renameWinApp, renameMacApp, renameLinuxApp.
  emits_all.
Qed.

Lemma buildTarget_no_ffmpeg (this : Builder) (platform arch : string)
    (pkg : JsObject) (config : BuildConfig) (targetDir target : string) :
  emits notFFmpeg (buildTarget lib world this platform arch pkg config targetDir target).
Proof.
  unfold buildTarget, buildNsisTarget, buildNsis7zTarget, buildArchiveTarget,
    recordInstaller, buildDiffUpdaters, buildNsisDiffUpdater, new_NsisVersionInfo,
    compileScript, nsisBuild, compress.
  emits_more.
Qed.

(** X17. With [ffmpegIntegration] off a task never asks for the FFmpeg
    build: whatever the platform, the targets and the answers of the calls,
    no call of [buildTask] is a download of FFmpeg or a search for its
    library. *)
Theorem no_ffmpeg_unless_integrated (this : Builder) (platform arch : string)
    (pkg : JsObject) (config : BuildConfig) :
  ffmpegIntegration config = false ->
  emits notFFmpeg (buildTask lib world this platform arch pkg config).
Proof.
  intros Hoff.
  change (buildTask lib world this platform arch pkg config)
    with (runtimeDir <- call world (runtimeDownload this platform arch config) ;;
          targetDir <- buildDirTarget lib world this platform arch runtimeDir pkg config ;;
          forM_ (targets config)
            (buildTarget lib world this platform arch pkg config targetDir)).
  apply emits_bind; [now apply emits_call|intros runtimeDir].
  apply emits_bind.
  - unfold buildDirTarget. rewrite Hoff.
    apply emits_bind; [now apply emits_call|intros runtimeRoot].
    destruct (appRootOf platform) as [rel|]; [|apply emits_throw].
    apply emits_bind; [now apply emits_call|intros _].
    apply emits_bind; [now apply emits_call|intros _].
    apply emits_bind; [apply emits_ret|intros _].
    apply emits_bind; [now apply emits_call|intros _].
    apply emits_bind; [apply dispatchPlatform_no_ffmpeg|intros _]. apply emits_ret.
  - intros targetDir. apply emits_forM_. intros target. apply buildTarget_no_ffmpeg.
Qed.

(** X18. With [ffmpegIntegration] on, the FFmpeg build is fetched once,
    after the runtime has been copied to the emptied target directory and
    before the application root is made: it is downloaded for the platform,
    architecture and runtime version with neither mirror nor flavor, its
    library is looked up in the directory the download answered and in the
    target directory, and what the first search answered is copied over
    what the second answered.  No later call of [buildDirTarget] is for
    FFmpeg. *)
Theorem ffmpeg_integrated_before_app (this : Builder) (platform arch runtimeDir : string)
    (pkg : JsObject) (config : BuildConfig) (rel : string) (t : Trace)
    (runtimeRoot ffmpegDir src dest : string) :
  let targetDir := targetDirOf lib this platform arch pkg config in
  let c1 := findRuntimeRoot platform runtimeDir in
  let c2 := emptyDir targetDir in
  let c3 := copyAsync runtimeRoot targetDir in
  let c4 := ffmpegDownload this platform arch config in
  let c5 := findFFmpeg platform ffmpegDir in
  let c6 := findFFmpeg platform targetDir in
  let c7 := copyAsync src dest in
  let c8 := ensureDirAsync (path_resolve lib [targetDir; rel]) in
  ffmpegIntegration config = true ->
  appRootOf platform = Some rel ->
  world _ t c1 = Ok runtimeRoot ->
  world _ (t ++ [Ev c1]) c2 = Ok tt ->
  world _ (t ++ [Ev c1; Ev c2]) c3 = Ok tt ->
  world _ (t ++ [Ev c1; Ev c2; Ev c3]) c4 = Ok ffmpegDir ->
  world _ (t ++ [Ev c1; Ev c2; Ev c3; Ev c4]) c5 = Ok src ->
  world _ (t ++ [Ev c1; Ev c2; Ev c3; Ev c4; Ev c5]) c6 = Ok dest ->
  world _ (t ++ [Ev c1; Ev c2; Ev c3; Ev c4; Ev c5; Ev c6]) c7 = Ok tt ->
  world _ (t ++ [Ev c1; Ev c2; Ev c3; Ev c4; Ev c5; Ev c6; Ev c7]) c8 = Ok tt ->
  exists rest,
    (buildDirTarget lib world this platform arch runtimeDir pkg config t).2
    = t ++ [Ev c1; Ev c2; Ev c3; Ev c4; Ev c5; Ev c6; Ev c7; Ev c8] ++ rest
    /\ forallb notFFmpeg rest = true.
Proof.
  intros targetDir c1 c2 c3 c4 c5 c6 c7 c8 Hon Hrel H1 H2 H3 H4 H5 H6 H7 H8.
  unfold buildDirTarget. rewrite Hon, Hrel. unfold integrateFFmpeg.
  fold (targetDirOf lib this platform arch pkg config). fold targetDir.
  fold (ffmpegDownload this platform arch config).
  fold c1. answered H1. fold c2. answered H2. fold c3. answered H3.
  fold c4. answered H4. fold c5. answered H5. fold c6. answered H6.
  fold c7. answered H7. fold c8. answered H8.
  rewrite <- ?app_assoc. cbn [app].
  match goal with
  | |- context [bind ?m ?k ?t0] =>
      assert (Hrest : emits notFFmpeg (bind m k))
        by (apply emits_bind; [apply dispatchPlatform_no_ffmpeg|intros _; apply emits_ret]);
      destruct (Hrest t0) as (rest & E & F); rewrite E
  end.
  exists rest. split; [|exact F].
  rewrite <- !app_assoc. reflexivity.
Qed.

(** ** When a build resolves *)

Lemma succeeds_ret {A} (a : A) : succeeds (ret a).
Proof. intros t. reflexivity. Qed.

Lemma succeeds_bind {A B} (m : M A) (k : A -> M B) :
  succeeds m -> (forall a, succeeds (k a)) -> succeeds (bind m k).
Proof.
  intros Hm Hk t. unfold bind. specialize (Hm t).
  destruct (m t) as [[a|e] t1]; [apply Hk|discriminate].
Qed.

Lemma succeeds_liftR {A} (r : Result A) : isOk r = true -> succeeds (liftR r).
Proof. intros H t. exact H. Qed.

Lemma succeeds_forM_ {A} (l : list A) (f : A -> M unit) :
  (forall x, x ∈ l -> succeeds (f x)) -> succeeds (forM_ l f).
Proof.
  induction l as [|x l IH]; intros Hf; cbn [forM_].
  - apply succeeds_ret.
  - apply succeeds_bind; [apply Hf, list_elem_of_here|intros _].
    apply IH. intros y Hy. now apply Hf, list_elem_of_further.
Qed.

Lemma succeeds_awaited {T B} (c : Call T) (k : T -> M B) :
  (forall t a, world _ t c = Ok a -> isOk (k a (t ++ [Ev c])).1 = true) ->
  (forall t, isOk (world _ t c) = true) ->
  succeeds (bind (call world c) k).
Proof.
  intros Hk Hc t. unfold bind, call. specialize (Hc t).
  destruct (world T t c) as [a|e] eqn:E; [now apply Hk|discriminate].
Qed.

Section AllGoesWell.

Hypothesis calm : forall T t (c : Call T), isOk (world T t c) = true.
Hypothesis compiles : forall t cwd s m, world _ t (makensis cwd s m) = Ok (Some 0%Z).
Hypothesis parses : forall t path data,
  world _ t (readFileAsync path (Some utf8)) = Ok data ->
  isOk (plist_parse lib data) = true.

Lemma succeeds_call {T} (c : Call T) : succeeds (call world c).
Proof. intros t. apply calm. Qed.

Lemma readPlist_succeeds (path : string) : succeeds (readPlist lib world path).
Proof.
  unfold readPlist. apply succeeds_awaited; [|intros t; apply calm].
  intros t data Hread. exact (parses t path data Hread).
Qed.

Ltac succeeds_step :=
  first
    [ apply succeeds_ret
    | apply succeeds_call
    | apply readPlist_succeeds
    | apply succeeds_forM_; intros ? _
    | apply succeeds_bind; [|intros ?]
    | match goal with
      | |- succeeds (if ?b then _ else _) => destruct b
      end ].

Ltac succeeds_all := repeat succeeds_step.

Lemma compress_succeeds (dir : string) (files : list string) (type archive : string) :
  succeeds (compress lib world dir files type archive).
Proof. unfold compress. succeeds_all. Qed.

Lemma copyFiles_succeeds (this : Builder) (platform targetDir appRoot : string)
    (pkg : JsObject) (config : BuildConfig) :
  pkg !! "hasOwnProperty" = None ->
  oneOf platform recognized = true ->
  succeeds (copyFiles lib world this platform targetDir appRoot pkg config).
Proof.
  intros Hown Hrec. unfold copyFiles, shipFiles.
  destruct (proj2 (strippedManifest_spec pkg config) Hown) as (json & Hjson & _).
  apply succeeds_bind;
    [|intros _; apply succeeds_bind;
        [apply succeeds_liftR; now rewrite Hjson|intros ?; apply succeeds_call]].
  apply succeeds_bind; [unfold collectFiles; succeeds_all|intros files].
  destruct (packed config); [|unfold copyEach; succeeds_all].
  destruct (oneOf platform ["win32"; "win"; "linux"]) eqn:Ewin.
  - apply succeeds_bind; [apply succeeds_call|intros nwFile].
    apply succeeds_bind; [apply compress_succeeds|intros _].
    unfold combineExecutable. succeeds_all.
  - destruct (oneOf platform ["darwin"; "osx"; "mac"]) eqn:Emac;
      [unfold copyEach; succeeds_all|].
    exfalso. unfold recognized in Hrec. cbn [oneOf existsb] in *.
    destruct (String.eqb platform "win32"), (String.eqb platform "win"),
      (String.eqb platform "darwin"), (String.eqb platform "osx"),
      (String.eqb platform "mac"), (String.eqb platform "linux"); discriminate.
Qed.

Lemma dispatchPlatform_succeeds (this : Builder) (platform targetDir appRoot : string)
    (pkg : JsObject) (config : BuildConfig) :
  pkg !! "hasOwnProperty" = None ->
  oneOf platform recognized = true ->
  succeeds (dispatchPlatform lib world this platform targetDir appRoot pkg config).
Proof.
  intros Hown Hrec.
  pose proof (copyFiles_succeeds this platform targetDir appRoot pkg config Hown Hrec)
    as Hcopy.
  unfold dispatchPlatform.
  destruct (oneOf platform ["win32"; "win"]) eqn:Ewin;
    [|destruct (oneOf platform ["darwin"; "osx"; "mac"]) eqn:Emac;
      [|destruct (oneOf platform ["linux"]) eqn:Elinux]].
  - apply succeeds_bind; [unfold prepareWinBuild, updateWinResources; succeeds_all|intros _].
    apply succeeds_bind; [exact Hcopy|intros _]. unfold renameWinApp. succeeds_all.
  - apply succeeds_bind;
      [unfold prepareMacBuild, updatePlist, writePlist, updateMacIcon,
         fixMacMeta, fixStringsFile; succeeds_all|intros _].
    apply succeeds_bind; [exact Hcopy|intros _]. unfold renameMacApp. succeeds_all.
  - apply succeeds_bind; [unfold prepareLinuxBuild; succeeds_all|intros _].
    apply succeeds_bind; [exact Hcopy|intros _]. unfold renameLinuxApp. succeeds_all.
  - exfalso. unfold recognized in Hrec. cbn [oneOf existsb] in *.
    destruct (String.eqb platform "win32"), (String.eqb platform "win"),
      (String.eqb platform "darwin"), (String.eqb platform "osx"),
      (String.eqb platform "mac"), (String.eqb platform "linux"); discriminate.
Qed.

Lemma buildDirTarget_succeeds (this : Builder) (platform arch runtimeDir : string)
    (pkg : JsObject) (config : BuildConfig) :
  pkg !! "hasOwnProperty" = None ->
  oneOf platform recognized = true ->
  succeeds (buildDirTarget lib world this platform arch runtimeDir pkg config).
Proof.
  intros Hown Hrec. pose proof (appRootOf_recognized platform) as Hroot.
  rewrite Hrec in Hroot. unfold buildDirTarget.
  apply succeeds_bind; [apply succeeds_call|intros runtimeRoot].
  destruct (appRootOf platform) as [rel|]; [|discriminate].
  apply succeeds_bind; [apply succeeds_call|intros _].
  apply succeeds_bind; [apply succeeds_call|intros _].
  apply succeeds_bind;
    [destruct (ffmpegIntegration config); [unfold integrateFFmpeg|]; succeeds_all|intros _].
  apply succeeds_bind; [apply succeeds_call|intros _].
  apply succeeds_bind; [now apply dispatchPlatform_succeeds|intros _].
  apply succeeds_ret.
Qed.

Lemma buildArchiveTarget_succeeds (this : Builder) (type sourceDir : string) :
  succeeds (buildArchiveTarget lib world this type sourceDir).
Proof.
  unfold buildArchiveTarget.
  apply succeeds_bind; [apply succeeds_call|intros _].
  apply succeeds_bind; [apply succeeds_call|intros files].
  apply succeeds_bind; [apply compress_succeeds|intros _]. apply succeeds_ret.
Qed.

Lemma compileScript_resolves (cwd data : string) (mute : option bool) :
  succeeds (compileScript world cwd data mute).
Proof.
  intros t. destruct (compileScript_succeeds calm compiles cwd data mute t) as [t' E].
  now rewrite E.
Qed.

Lemma recordInstaller_succeeds (this : Builder) (platform arch sourceDir targetNsis : string)
    (vi0 : NsisVersionInfo) (pkg : JsObject) (config : BuildConfig) (sv : string) :
  pkg !! "version" = Some (JStr sv) ->
  is_Some (semver_parse lib sv) ->
  (forall v, is_Some (vi_data vi0 !! v) -> is_Some (semver_parse lib v)) ->
  succeeds (recordInstaller lib world this platform arch sourceDir vi0 targetNsis
              pkg config).
Proof.
  intros Hver Hsv Hvalid. unfold recordInstaller.
  fold (recorded lib vi0 pkg arch sourceDir targetNsis).
  apply succeeds_bind; [|intros vi; apply succeeds_call].
  intros t. unfold buildDiffUpdaters.
  destruct (diffUpdaters (config_nsis config)); [|reflexivity].
  apply (updaterLoop_succeeds calm compiles this platform arch pkg config sv);
    try assumption.
  - intros v Hv. apply getVersions_spec in Hv. split; [exact Hv|].
    apply recorded_lookup in Hv as [Hv|Hv]; [|now apply Hvalid].
    rewrite Hver in Hv. cbn in Hv. now subst v.
  - apply recorded_lookup. left. now rewrite Hver.
Qed.

Hypothesis versioned : forall t path pkg,
  world _ t (readJsonAsync path) = Ok pkg ->
  pkg !! "hasOwnProperty" = None
  /\ forallb knownTarget (targets (new_BuildConfig lib pkg)) = true
  /\ exists sv, pkg !! "version" = Some (JStr sv) /\ is_Some (semver_parse lib sv).
Hypothesis registered : forall t path data v,
  world _ t (NsisVersionInfo_load path) = Ok data ->
  is_Some (data !! v) -> is_Some (semver_parse lib v).

Lemma installer_succeeds (this : Builder) (platform arch sourceDir : string)
    (pkg : JsObject) (config : BuildConfig) (sv : string) (make : Call string) :
  pkg !! "version" = Some (JStr sv) ->
  is_Some (semver_parse lib sv) ->
  succeeds (versionInfo <- new_NsisVersionInfo world
                             (path_resolve lib [dir this; output config; "versions.nsis.json"]) ;;
            data <- call world make ;;
            compileScript world sourceDir data (mute (options this)) ;;;
            recordInstaller lib world this platform arch sourceDir versionInfo
              (targetNsisPath lib sourceDir) pkg config).
Proof.
  intros Hver Hsv t. unfold new_NsisVersionInfo. rewrite bind_assoc.
  revert t. apply succeeds_awaited; [|intros t; apply calm].
  intros t data Hload. unfold bind at 1, ret at 1.
  revert t Hload. intros t Hload.
  refine (succeeds_bind _ _ (succeeds_call make) _ _). intros script.
  apply succeeds_bind; [apply compileScript_resolves|intros _].
  apply (recordInstaller_succeeds this platform arch sourceDir _ _ pkg config sv Hver Hsv).
  intros v. cbn [vi_data]. now apply (registered t _ data v Hload).
Qed.

Lemma buildTarget_succeeds (this : Builder) (platform arch : string) (pkg : JsObject)
    (config : BuildConfig) (targetDir target sv : string) :
  pkg !! "version" = Some (JStr sv) ->
  is_Some (semver_parse lib sv) ->
  knownTarget target = true ->
  succeeds (buildTarget lib world this platform arch pkg config targetDir target).
Proof.
  intros Hver Hsv Hknown. unfold buildTarget.
  destruct (oneOf target ["zip"; "7z"]) eqn:Ezip;
    [|destruct (oneOf target ["nsis"]) eqn:Ensis;
      [|destruct (oneOf target ["nsis7z"]) eqn:E7z]].
  - apply succeeds_bind; [apply buildArchiveTarget_succeeds|intros _; apply succeeds_ret].
  - unfold buildNsisTarget.
    destruct (negb (String.eqb platform "win")); [apply succeeds_ret|].
    exact (installer_succeeds this platform arch targetDir pkg config sv
             (NsisComposer_make (nsisOptions lib this config (targetNsisPath lib targetDir)))
             Hver Hsv).
  - unfold buildNsis7zTarget.
    destruct (negb (String.eqb platform "win")); [apply succeeds_ret|].
    apply succeeds_bind; [apply buildArchiveTarget_succeeds|intros sourceArchive].
    exact (installer_succeeds this platform arch targetDir pkg config sv
             (Nsis7Zipper_make sourceArchive
                (nsisOptions lib this config (targetNsisPath lib targetDir)))
             Hver Hsv).
  - exfalso. unfold knownTarget in Hknown. cbn [oneOf existsb] in *.
    destruct (String.eqb target "zip"), (String.eqb target "7z"),
      (String.eqb target "nsis"), (String.eqb target "nsis7z"); discriminate.
Qed.

(** X19. A sequential build with a task to build resolves whenever no call
    is rejected, the installer compiler exits with 0, the property list
    that is read parses, the manifest that is read has no member
    [hasOwnProperty], its version and the versions of the registry that is
    loaded are semantic versions, and the targets of its configuration are
    among [zip], [7z], [nsis] and [nsis7z].  In particular the platforms of the
    matrix never reach the ERROR_UNKNOWN_PLATFORM branches, and the exit
    code of the archiver plays no part. *)
Theorem build_resolves (this : Builder) (fuel : nat) (t : Trace) :
  truthy (concurrent (options this)) = false ->
  anyPlatform (options this) && anyArchitecture (options this) = true ->
  isOk (build lib world (S fuel) this t).1 = true.
Proof.
  intros Hseq Hany. rewrite build_S, tasksOf_length, Hany, Hseq. cbn [negb].
  revert t. apply succeeds_awaited; [|intros t; apply calm].
  intros t pkg Hread.
  destruct (versioned _ _ _ Hread) as (Hown & Hall & sv & Hver & Hsv).
  apply succeeds_forM_. intros task Htask.
  assert (Hrec : oneOf task.1 recognized = true).
  { revert task Htask. apply Forall_forall, tasksOf_within. repeat constructor. }
  change (buildTask lib world this task.1 task.2 pkg (new_BuildConfig lib pkg))
    with (runtimeDir <- call world (runtimeDownload this task.1 task.2
                                      (new_BuildConfig lib pkg)) ;;
          targetDir <- buildDirTarget lib world this task.1 task.2 runtimeDir pkg
                         (new_BuildConfig lib pkg) ;;
          forM_ (targets (new_BuildConfig lib pkg))
            (buildTarget lib world this task.1 task.2 pkg (new_BuildConfig lib pkg)
               targetDir)).
  apply succeeds_bind; [apply succeeds_call|intros runtimeDir].
  apply succeeds_bind; [now apply buildDirTarget_succeeds|intros targetDir].
  apply succeeds_forM_. intros target Htarget.
  apply (buildTarget_succeeds _ _ _ _ _ _ _ sv Hver Hsv).
  rewrite forallb_forall in Hall.
  now apply Hall, list_elem_of_In.
Qed.

End AllGoesWell.
End Facts.

(** * The builder run on the examples *)

(** No flag set: the matrix is empty and [build] stops before any call. *)
Lemma C1_task_matrix_witness :
  tasksOf (options (new_Builder demoLib noOptions "proj")) = []
  /\ build demoLib calmWorld 1 (new_Builder demoLib noOptions "proj") []
     = (Throw ERROR_NO_TASK, []).
Proof.
  destruct (C1_task_matrix demoLib calmWorld (new_Builder demoLib noOptions "proj"))
    as [H1 H2].
  split; [reflexivity|]. apply H2. reflexivity.
Defined.

(** No scripted world rejects a call. *)
Lemma scripted_calm (s : Scenario) :
  forall T t (c : Call T), isOk (scriptedWorld s T t c) = true.
Proof. intros T t c. destruct c; try reflexivity. destruct encoding; reflexivity. Qed.

Lemma fourBuilds_valid (v : string) :
  is_Some (fourBuilds !! v) -> is_Some (parseKnown v).
Proof.
  intros [e H]. unfold fourBuilds in H.
  repeat (apply lookup_insert_Some in H as [[<- _]|[_ H]]; [eexists; reflexivity|]).
  rewrite lookup_empty in H. discriminate.
Qed.




(** The manifest of the example without its [build] member. *)
Example strippedManifest_demo :
  strippedManifest demoPkg demoConfig
  = Ok (<["name" := JStr "app"]> (<["version" := JStr "1.2.0"]> ∅)).
Proof. vm_compute. reflexivity. Qed.

(** C3. A packed build for Windows of the example, whose manifest has the
    member [build] that [strippedProperties] lists.  The archive appended to
    the executable is made by the archiver from the files of the project
    directory, [package.json] among them, as they are on disk; the stripped
    manifest is written afterwards as a file of its own beside the
    executable.  So the manifest inside the packed application still has
    [build].  Besides, a member [__proto__] is left out of the manifest
    written though no list names it, and with a member [hasOwnProperty]
    nothing is written at all. *)
Theorem C3_packed_payload_keeps_stripped_keys :
  is_Some (demoPkg !! "build")
  /\ strippedProperties (configWith [] true) = ["build"]
  /\ copyFiles demoLib (scriptedWorld withTree) demoBuilder "win" "target" "target"
       demoPkg (configWith [] true) []
     = (Ok tt,
        [ Ev (findExcludableDependencies "proj" demoPkg);
          Ev (selection demoBuilder (configWith [] true) []);
          Ev tmpName;
          Ev (tmpFile true);
          Ev (writeFileAsync "tmp-2"
                (Str (String.concat CRLF ["index.html"; "package.json"; "secret.txt"])));
          Ev (compressCall demoLib "proj" "zip" "tmp-1" "tmp-2");
          Ev (findExecutable "win" "target");
          Ev (pipeAppend "tmp-1" "target");
          Ev (removeAsync "tmp-1");
          Ev (writeManifest demoLib "target" demoStripped) ])
  /\ strippedManifest (<["__proto__" := JObj []]> demoPkg) (configWith [] true)
     = Ok demoStripped
  /\ copyFiles demoLib (scriptedWorld withTree) demoBuilder "mac" "target" "target/app"
       (<["hasOwnProperty" := JBool true]> demoPkg) (configWith [] false) []
     = (Throw (TypeError "pkg.hasOwnProperty is not a function"),
        [ Ev (findExcludableDependencies "proj"
                (<["hasOwnProperty" := JBool true]> demoPkg));
          Ev (selection demoBuilder (configWith [] false) []);
          Ev (copyFileAsync "proj/index.html" "target/app/index.html");
          Ev (copyFileAsync "proj/package.json" "target/app/package.json");
          Ev (copyFileAsync "proj/secret.txt" "target/app/secret.txt") ]).
Proof.
  split; [eexists; reflexivity|]. split; [reflexivity|].
  split; [vm_compute; reflexivity|]. split; vm_compute; reflexivity.
Qed.

(** A [.zip], a [.tar.gz] and a [.rar]. *)
Lemma C4_extractGeneric_dispatch_witness :
  extractGeneric demoLib calmWorld "cache/app.zip" None None []
  = (Ok "cache", [Ev (extractCall demoLib "cache/app.zip" "cache" false)])
  /\ extractGeneric demoLib calmWorld "cache/nw.tar.gz" None None []
    = (Ok "cache",
       [ Ev (extractCall demoLib "cache/nw.tar.gz" "cache" false);
         Ev (extractCall demoLib "cache/nw.tar" "cache" false);
         Ev (removeAsync "cache/nw.tar") ])
  /\ extractGeneric demoLib calmWorld "cache/archive.rar" None None []
    = (Throw ERROR_UNKNOWN_EXTENSION, []).
Proof.
  destruct (C4_extractGeneric_dispatch demoLib calmWorld "cache/app.zip" None None [])
    as (Hzip & _ & _).
  destruct (C4_extractGeneric_dispatch demoLib calmWorld "cache/nw.tar.gz" None None [])
    as (_ & Hgz & _).
  destruct (C4_extractGeneric_dispatch demoLib calmWorld "cache/archive.rar" None None [])
    as (_ & _ & Hrar).
  split; [|split].
  - rewrite Hzip; reflexivity.
  - rewrite Hgz; reflexivity.
  - rewrite Hrar; reflexivity.
Defined.

(** Against C5 as stated: the installer compiler exits with 1; the script
    was written to [tmp-1], the build ends with the compiler's error, and
    the trace ends with the call to the compiler: [tmp-1] is not removed. *)
Lemma C5_script_left_after_failure :
  buildNsisTarget demoLib (scriptedWorld compilerFails) demoBuilder "win" "x64"
    "proj/dist/app-1.2.0-win-x64" demoPkg demoConfig []
  = (Throw (ERROR_EXIT_CODE (Some 1%Z)),
     [ Ev (NsisVersionInfo_load "proj/dist/versions.nsis.json");
       Ev (NsisComposer_make
             (nsisOptions demoLib demoBuilder demoConfig
                "proj/dist/app-1.2.0-win-x64-Setup.exe"));
       Ev tmpName;
       Ev (writeFileAsync "tmp-1" (Str "script"));
       Ev (makensis "proj/dist/app-1.2.0-win-x64" "tmp-1" (Some true)) ]).
Proof. reflexivity. Qed.

(** The compiler exits with 0, then with 1. *)
Lemma C5_script_removed_after_success_witness :
  compileScript calmWorld "proj/dist/app" "script" (Some true) []
  = (Ok tt,
     [ Ev tmpName;
       Ev (writeFileAsync "tmp-1" (Str "script"));
       Ev (makensis "proj/dist/app" "tmp-1" (Some true));
       Ev (removeAsync "tmp-1") ])
  /\ compileScript (scriptedWorld compilerFails) "proj/dist/app" "script" (Some true) []
    = (Throw (ERROR_EXIT_CODE (Some 1%Z)),
       [ Ev tmpName;
         Ev (writeFileAsync "tmp-1" (Str "script"));
         Ev (makensis "proj/dist/app" "tmp-1" (Some true)) ]).
Proof.
  destruct (C5_script_removed_after_success demoLib calmWorld demoBuilder "x64"
              "proj/dist/app" demoPkg demoConfig) as (_ & _ & _ & Hok).
  destruct (C5_script_removed_after_success demoLib (scriptedWorld compilerFails)
              demoBuilder "x64" "proj/dist/app" demoPkg demoConfig) as (_ & _ & _ & Hfail).
  split.
  - apply (Hok "proj/dist/app" "script" (Some true) [] "tmp-1"); reflexivity.
  - apply (Hfail "proj/dist/app" "script" (Some true) [] "tmp-1"); reflexivity.
Defined.

(** Against C6 as stated: the archiver exits with 1 and [compress] resolves
    all the same, with 1 as its value; it exits with 2 and [extract] raises
    an error that carries the path, not the code. *)
Lemma C6_compress_resolves_on_failure :
  compress demoLib (scriptedWorld (archiverFails 1)) "proj" ["a.js"] "zip" "app.nw" []
  = (Ok (Some 1%Z),
     [ Ev (tmpFile true);
       Ev (writeFileAsync "tmp-2" (Str "a.js"));
       Ev (compressCall demoLib "proj" "zip" "app.nw" "tmp-2") ])
  /\ extract demoLib (scriptedWorld (archiverFails 2)) "cache/app.zip" None None []
    = (Throw (ERROR_PATH_NOT_FOUND "cache/app.zip"),
       [Ev (extractCall demoLib "cache/app.zip" "cache" false)]).
Proof. split; reflexivity. Qed.

(** The archiver exits with 7 on an extraction. *)
Lemma C6_archiver_exit_codes_witness :
  extract demoLib (scriptedWorld (archiverFails 7)) "cache/app.zip" None None []
  = (Throw (ERROR_EXIT_CODE (Some 7%Z)),
     [Ev (extractCall demoLib "cache/app.zip" "cache" false)]).
Proof.
  apply (C6_archiver_exit_codes demoLib (scriptedWorld (archiverFails 7))
           "cache/app.zip" None None [] {| code := Some 7%Z; signal := None |}).
  - reflexivity.
  - discriminate.
Defined.


(** The Mac bundle of the example: the third part is the rename alone. *)
Lemma C8_prepare_copy_finalize_witness :
  exists tp tc tf,
    (dispatchPlatform demoLib calmWorld demoBuilder "mac" "target" "target/app"
       demoPkg demoConfig []).2 = [] ++ tp ++ tc ++ tf
    /\ forallb isPrepareCall tp = true
    /\ forallb isCopyCall tc = true
    /\ forallb isRenameCall tf = true
    /\ tf = [Ev (renameAsync "target/nwjs.app" "target/App.app")].
Proof.
  destruct (C8_prepare_copy_finalize demoLib calmWorld demoBuilder "mac" "target"
              "target/app" demoPkg demoConfig [] eq_refl)
    as (tp & tc & tf & Hrun & Hp & Hc & Hf & Hprep & Hrest).
  exists tp, tc, tf. repeat (split; [assumption|]).
  vm_compute in Hprep. subst tp. vm_compute in Hrest. destruct Hrest as [Hcopy Hfin].
  repeat match type of Hcopy with
         | _ :: _ = _ :: _ => apply (f_equal (@tail _)) in Hcopy; cbn [tail] in Hcopy
         end.
  subst tc. vm_compute in Hfin. destruct Hfin as [Hfin _].
  repeat match type of Hfin with
         | _ :: _ = _ :: _ => apply (f_equal (@tail _)) in Hfin; cbn [tail] in Hfin
         end.
  symmetry. exact Hfin.
Defined.




(** A concurrent build with the app manifest selected: each sub-build reads
    [package.json]. *)
Example concurrent_build_reads_package_json :
  List.filter (fun e => match e with Ev c => match c with readJsonAsync _ => true | _ => false end end)
    (build demoLib calmWorld 2
       (new_Builder demoLib
          {| win := Some true; mac := None; linux := Some true; x86 := None;
             x64 := Some true; chromeApp := Some true; mirror := None;
             concurrent := Some true; mute := Some false |} "proj") []).2
  = [Ev (readJsonAsync "proj/package.json"); Ev (readJsonAsync "proj/package.json")].
Proof. vm_compute. reflexivity. Qed.

(** The sub-builder of the one task of the example. *)
Lemma C10_concurrent_sub_build_witness :
  Forall (fun task =>
    chromeApp (options (new_Builder demoLib
                          (taskOptions (options demoBuilder) task.1 task.2) "proj"))
    = Some false
    /\ forall fuel,
         build demoLib calmWorld (S fuel)
           (new_Builder demoLib (taskOptions (options demoBuilder) task.1 task.2) "proj")
         = subBuild demoLib calmWorld
             (new_Builder demoLib (taskOptions (options demoBuilder) task.1 task.2) "proj")
             task)
    [("win", "x64")].
Proof.
  destruct (C10_concurrent_sub_build demoLib calmWorld
              {| win := Some true; mac := None; linux := None; x86 := None;
                 x64 := Some true; chromeApp := None; mirror := None;
                 concurrent := None; mute := None |} "proj") as [_ H].
  destruct (H (fun _ _ => eq_refl)) as [Hsub _].
  eapply Forall_impl; [exact Hsub|].
  intros task (_ & _ & _ & _ & _ & Hc & _ & _ & Hb). split; assumption.
Defined.

(** * Further examples *)

(** A platform and no architecture: nothing to build. *)
Lemma build_needs_platform_and_architecture_witness :
  build demoLib calmWorld 1 noArchitecture [] = (Throw ERROR_NO_TASK, []).
Proof.
  apply (build_needs_platform_and_architecture demoLib calmWorld noArchitecture 0 []).
  reflexivity.
Defined.

(** The archiver exits with 0: the archive's directory is the result. *)
Lemma extract_resolves_iff_exit_zero_witness :
  extract demoLib calmWorld "cache/app.zip" None None []
  = (Ok "cache", [Ev (extractCall demoLib "cache/app.zip" "cache" false)]).
Proof.
  apply (extract_resolves_iff_exit_zero demoLib calmWorld "cache/app.zip" None None []
           {| code := Some 0%Z; signal := None |} eq_refl).
  reflexivity.
Defined.

(** A manifest without a [build] member is kept as it is. *)
Lemma strippedManifest_idempotent_witness :
  strippedManifest (<["name" := JStr "app"]> ∅) demoConfig
  = Ok (<["name" := JStr "app"]> ∅).
Proof.
  apply (strippedManifest_idempotent (<["name" := JStr "app"]> ∅) demoConfig).
  - reflexivity.
  - reflexivity.
  - constructor; [reflexivity|constructor].
Defined.

(** "CFBun" in one byte per character. *)
Lemma detectEncoding_utf8_witness :
  detectEncoding [x43; x46; x42; x75; x6e] = utf8.
Proof.
  apply detectEncoding_utf8. left. repeat constructor; discriminate.
Defined.

(** A platform the builder does not know. *)
Lemma buildDirTarget_unknown_platform_witness :
  buildDirTarget demoLib calmWorld demoBuilder "freebsd" "x64" "cache/nw" demoPkg
    demoConfig []
  = (Throw ERROR_UNKNOWN_PLATFORM, [Ev (findRuntimeRoot "freebsd" "cache/nw")]).
Proof.
  apply (buildDirTarget_unknown_platform demoLib calmWorld demoBuilder "freebsd" "x64"
           "cache/nw" demoPkg demoConfig []).
  reflexivity.
Defined.

(** The targets [zip], [bogus], [7z]: the [zip] archive is made, the [7z]
    one is not. *)
Lemma buildTask_unknown_target_witness :
  (buildTask demoLib calmWorld demoBuilder "win" "x64" demoPkg
     (configWith ["zip"; "bogus"; "7z"] false) []).1 = Throw ERROR_UNKNOWN_TARGET
  /\ List.filter (fun e => match e with
                           | Ev c => match c with spawnAsync _ _ _ => true | _ => false end
                           end)
       (buildTask demoLib calmWorld demoBuilder "win" "x64" demoPkg
          (configWith ["zip"; "bogus"; "7z"] false) []).2
     = [Ev (compressCall demoLib "proj/dist/app-1.2.0-win-x64" "zip"
              "proj/dist/app-1.2.0-win-x64.zip" "tmp-2")].
Proof.
  rewrite (buildTask_unknown_target demoLib calmWorld demoBuilder "win" "x64" demoPkg
             (configWith ["zip"; "bogus"; "7z"] false) ["zip"] ["7z"] "bogus"
             "cache/nw" "proj/dist/app-1.2.0-win-x64" []
             (buildDirTarget demoLib calmWorld demoBuilder "win" "x64" "cache/nw" demoPkg
                (configWith ["zip"; "bogus"; "7z"] false)
                [Ev (runtimeDownload demoBuilder "win" "x64"
                       (configWith ["zip"; "bogus"; "7z"] false))]).2
             (forM_ ["zip"]
                (buildTarget demoLib calmWorld demoBuilder "win" "x64" demoPkg
                   (configWith ["zip"; "bogus"; "7z"] false) "proj/dist/app-1.2.0-win-x64")
                (buildDirTarget demoLib calmWorld demoBuilder "win" "x64" "cache/nw" demoPkg
                   (configWith ["zip"; "bogus"; "7z"] false)
                   [Ev (runtimeDownload demoBuilder "win" "x64"
                          (configWith ["zip"; "bogus"; "7z"] false))]).2).2).
  - split; reflexivity.
  - reflexivity.
  - reflexivity.
  - reflexivity.
  - reflexivity.
  - reflexivity.
Defined.

(** Without network the Windows task fails at its download, and the Linux
    task is not started. *)
Lemma build_stops_at_failed_task_witness :
  build demoLib offlineWorld 1 twoPlatforms []
  = (Throw (Rejected "ENOTFOUND"),
     [ Ev (readManifest demoLib twoPlatforms);
       Ev (runtimeDownload twoPlatforms "win" "x64" demoConfig) ]).
Proof.
  apply (build_stops_at_failed_task demoLib offlineWorld twoPlatforms 0 ∅
           [] [("linux", "x64")] ("win", "x64") []
           [Ev (readManifest demoLib twoPlatforms)]); reflexivity.
Defined.

(** The archiver exits with 1, and the archive's path is the result all the
    same. *)
Lemma buildArchiveTarget_run_witness :
  buildArchiveTarget demoLib (scriptedWorld (archiverFails 1)) demoBuilder "zip"
    "proj/dist/app" []
  = (Ok "proj/dist/app.zip",
     [ Ev (removeAsync "proj/dist/app.zip");
       Ev (everythingUnder "proj/dist/app");
       Ev (tmpFile true);
       Ev (writeList demoLib "tmp-2" []);
       Ev (compressCall demoLib "proj/dist/app" "zip" "proj/dist/app.zip" "tmp-2") ]).
Proof.
  apply (buildArchiveTarget_run demoLib (scriptedWorld (archiverFails 1)) demoBuilder
           "zip" "proj/dist/app" [])
    with (r := {| code := Some 1%Z; signal := None |}); reflexivity.
Defined.

(** Two files compressed: three calls, none of them a removal. *)
Lemma compress_keeps_listfile_witness :
  compress demoLib calmWorld "proj" ["index.html"; "js/main.js"] "7z" "app.7z" []
  = (Ok (Some 0%Z),
     [ Ev (tmpFile true);
       Ev (writeList demoLib "tmp-2" ["index.html"; "js/main.js"]);
       Ev (compressCall demoLib "proj" "7z" "app.7z" "tmp-2") ]).
Proof.
  apply (compress_keeps_listfile demoLib calmWorld "proj" ["index.html"; "js/main.js"]
           "7z" "app.7z" [])
    with (r := {| code := Some 0%Z; signal := None |}); reflexivity.
Defined.

(** A packed bundle for a platform the builder does not know. *)
Lemma copyFiles_platform_witness :
  copyFiles demoLib calmWorld demoBuilder "freebsd" "target" "target/app" demoPkg
    (configWith [] true) []
  = (Throw ERROR_UNKNOWN_PLATFORM,
     [ Ev (findExcludableDependencies "proj" demoPkg);
       Ev (selection demoBuilder (configWith [] true) []) ]).
Proof.
  apply (copyFiles_platform demoLib calmWorld demoBuilder "freebsd" "target" "target/app"
           demoPkg (configWith [] true) []) with (selected := []); reflexivity.
Defined.

(** Two loose files. *)
Lemma copyEach_run_witness :
  copyEach demoLib calmWorld demoBuilder "target/app" ["index.html"; "js/main.js"] []
  = (Ok tt,
     [ Ev (copyFileAsync "proj/index.html" "target/app/index.html");
       Ev (copyFileAsync "proj/js/main.js" "target/app/js/main.js") ]).
Proof.
  apply (copyEach_run demoLib calmWorld demoBuilder "target/app"
           ["index.html"; "js/main.js"] []).
  intros t src dest. reflexivity.
Defined.

(** The packed bundle of the example on Linux: the three files [globby]
    answered are archived, and the archive is appended to the executable
    [findExecutable] answered. *)
Lemma copyFiles_packed_calls_witness :
  copyFiles demoLib (scriptedWorld withTree) demoBuilder "linux" "target" "target" demoPkg
    (configWith [] true) []
  = (Ok tt,
     [ Ev (findExcludableDependencies "proj" demoPkg);
       Ev (selection demoBuilder (configWith [] true) []);
       Ev tmpName;
       Ev (tmpFile true);
       Ev (writeList demoLib "tmp-2" ["index.html"; "package.json"; "secret.txt"]);
       Ev (compressCall demoLib "proj" "zip" "tmp-1" "tmp-2");
       Ev (findExecutable "linux" "target");
       Ev (pipeAppend "tmp-1" "target");
       Ev (removeAsync "tmp-1");
       Ev (writeManifest demoLib "target" demoStripped) ]).
Proof.
  apply (copyFiles_packed_calls demoLib (scriptedWorld withTree) demoBuilder "linux"
           "target" "target" demoPkg (configWith [] true) []
           [] ["index.html"; "package.json"; "secret.txt"] "tmp-1" "tmp-2" "target"
           {| code := Some 0%Z; signal := None |} demoStripped);
    reflexivity.
Defined.

(** A registry with the key [nightly]: the build of 1.2.0 fails in the loop
    over the versions, and the registry is not written. *)
Lemma invalid_version_fails_build_witness :
  isOk (recordInstaller demoLib (scriptedWorld withHistory) demoBuilder "win" "x64"
          "proj/dist/app-1.2.0-win-x64" nightlyInfo
          "proj/dist/app-1.2.0-win-x64-Setup.exe" demoPkg diffConfig []).1 = false
  /\ exists new,
       (recordInstaller demoLib (scriptedWorld withHistory) demoBuilder "win" "x64"
          "proj/dist/app-1.2.0-win-x64" nightlyInfo
          "proj/dist/app-1.2.0-win-x64-Setup.exe" demoPkg diffConfig []).2 = [] ++ new
       /\ forallb notSave new = true.
Proof.
  apply (invalid_version_fails_build demoLib (scriptedWorld withHistory) demoBuilder
           "win" "x64" "proj/dist/app-1.2.0-win-x64"
           "proj/dist/app-1.2.0-win-x64-Setup.exe" nightlyInfo demoPkg diffConfig
           "nightly" (TypeError "Invalid Version: nightly") []).
  - reflexivity.
  - eexists. reflexivity.
  - reflexivity.
Defined.

(** An FFmpeg archive unwrapped to another directory. *)
Lemma extractGeneric_tar_gz_witness :
  extractGeneric demoLib calmWorld "downloads/ffmpeg.tar.gz" (Some "out") None []
  = (Ok "out",
     [ Ev (extractCall demoLib "downloads/ffmpeg.tar.gz" "out" false);
       Ev (extractCall demoLib "out/ffmpeg.tar" "out" false);
       Ev (removeAsync "out/ffmpeg.tar") ]).
Proof.
  apply (extractGeneric_tar_gz demoLib calmWorld "downloads/ffmpeg" (Some "out") None []
           {| code := Some 0%Z; signal := None |} {| code := Some 0%Z; signal := None |});
    reflexivity.
Defined.

(** A packed bundle on the Mac: the files are copied all the same, and the
    copied [package.json] is overwritten. *)
Lemma copyFiles_loose_calls_witness :
  copyFiles demoLib (scriptedWorld withTree) demoBuilder "mac" "target" "target/app"
    demoPkg (configWith [] true) []
  = (Ok tt,
     [ Ev (findExcludableDependencies "proj" demoPkg);
       Ev (selection demoBuilder (configWith [] true) []);
       Ev (copyFileAsync "proj/index.html" "target/app/index.html");
       Ev (copyFileAsync "proj/package.json" "target/app/package.json");
       Ev (copyFileAsync "proj/secret.txt" "target/app/secret.txt");
       Ev (writeManifest demoLib "target/app" demoStripped) ]).
Proof.
  apply (copyFiles_loose_calls demoLib (scriptedWorld withTree) demoBuilder "mac"
           "target" "target/app" demoPkg (configWith [] true) []
           [] ["index.html"; "package.json"; "secret.txt"] demoStripped);
    first [reflexivity|right; reflexivity|intros t src dest; reflexivity].
Defined.

(** The task of the example: no call for FFmpeg. *)
Lemma no_ffmpeg_unless_integrated_witness :
  exists new,
    (buildTask demoLib calmWorld demoBuilder "win" "x64" demoPkg demoConfig []).2
    = [] ++ new
    /\ forallb notFFmpeg new = true.
Proof.
  apply (no_ffmpeg_unless_integrated demoLib calmWorld demoBuilder "win" "x64" demoPkg
           demoConfig eq_refl []).
Defined.

(** The Linux bundle of the example with FFmpeg. *)
Lemma ffmpeg_integrated_before_app_witness :
  exists rest,
    (buildDirTarget demoLib calmWorld demoBuilder "linux" "x64" "cache/nw" demoPkg
       ffmpegConfig []).2
    = [] ++ [ Ev (findRuntimeRoot "linux" "cache/nw");
              Ev (emptyDir "proj/dist/app-1.2.0-linux-x64");
              Ev (copyAsync "cache/nw" "proj/dist/app-1.2.0-linux-x64");
              Ev (ffmpegDownload demoBuilder "linux" "x64" ffmpegConfig);
              Ev (findFFmpeg "linux" "cache/ffmpeg");
              Ev (findFFmpeg "linux" "proj/dist/app-1.2.0-linux-x64");
              Ev (copyAsync "cache/ffmpeg" "proj/dist/app-1.2.0-linux-x64");
              Ev (ensureDirAsync "proj/dist/app-1.2.0-linux-x64/./") ] ++ rest
    /\ forallb notFFmpeg rest = true.
Proof.
  apply (ffmpeg_integrated_before_app demoLib calmWorld demoBuilder "linux" "x64"
           "cache/nw" demoPkg ffmpegConfig "./" [] "cache/nw" "cache/ffmpeg"
           "cache/ffmpeg" "proj/dist/app-1.2.0-linux-x64"); reflexivity.
Defined.

(** The release of 1.2.0 for Windows, as an archive and as both installers,
    over the registry of the four earlier builds. *)
Lemma build_resolves_witness :
  isOk (build releaseLib (scriptedWorld withHistory) 1 demoBuilder []).1 = true.
Proof.
  apply (build_resolves releaseLib (scriptedWorld withHistory)).
  - apply scripted_calm.
  - intros t cwd s m. reflexivity.
  - intros t path data _. reflexivity.
  - intros t path pkg H.
    change (Ok (manifestOnDisk withHistory) = Ok pkg) in H. injection H as <-.
    split; [reflexivity|]. split; [reflexivity|].
    exists "1.2.0". split; [reflexivity|]. eexists. reflexivity.
  - intros t path data v H.
    change (Ok (registryOnDisk withHistory) = Ok data) in H. injection H as <-.
    apply fourBuilds_valid.
  - reflexivity.
  - reflexivity.
Defined.

(** The unpacked bundle of the example for Windows: the manifest written
    has the name and the version and no [build]. *)
Lemma manifest_written_after_shipping_witness :
  exists json,
    json !! "build" = None
    /\ json !! "name" = Some (JStr "app")
    /\ json !! "version" = Some (JStr "1.2.0")
    /\ copyFiles demoLib (scriptedWorld withTree) demoBuilder "win" "target" "target"
         demoPkg (configWith [] false) []
       = (Ok tt,
          [ Ev (findExcludableDependencies "proj" demoPkg);
            Ev (selection demoBuilder (configWith [] false) []);
            Ev (copyFileAsync "proj/index.html" "target/index.html");
            Ev (copyFileAsync "proj/package.json" "target/package.json");
            Ev (copyFileAsync "proj/secret.txt" "target/secret.txt") ]
          ++ [Ev (writeManifest demoLib "target" json)]).
Proof.
  destruct (manifest_written_after_shipping demoLib (scriptedWorld withTree) demoBuilder
              "win" "target" "target" demoPkg (configWith [] false) []
              [ Ev (findExcludableDependencies "proj" demoPkg);
                Ev (selection demoBuilder (configWith [] false) []);
                Ev (copyFileAsync "proj/index.html" "target/index.html");
                Ev (copyFileAsync "proj/package.json" "target/package.json");
                Ev (copyFileAsync "proj/secret.txt" "target/secret.txt") ]
              eq_refl) as [Hok _].
  destruct (Hok eq_refl) as (json & Hlook & Hrun).
  exists json. rewrite !Hlook. repeat (split; [reflexivity|]). exact Hrun.
Defined.
